(** * Warehouse activity tracker: day-keyed log store

    A shallow embedding of [tracker.py] (the in-memory first/last activity
    state, its flush and its rollover detector) and of
    [shipstation_tracker.py] (the orders table upsert and the combined
    view), with the properties of the specification proved about them.

    Conventions of the embedding:
    - a CSV file is kept as the grid of cells the [csv] module parses it to
      (a list of lines, each a list of cells, the header first);
    - a row dictionary of [csv.DictReader] is a finite map from column
      names to cells, where a cell is [None] or a string, together with the
      surplus cells Python files under the key [None];
    - functions that touch the disk run in a state-and-error monad over the
      file system; a Python exception is a [Raise];
    - the file system can be told to fail: a budget of primitive
      operations after which the next one raises [OSError] and changes
      nothing ([None]: the disk never fails). *)

From Stdlib Require Import ZArith Ascii.
From stdpp Require Import gmap strings list sorting pretty.

Set Warnings "-clear-no-such-hyp".

Local Open Scope string_scope.
Local Open Scope list_scope.

(** ** Python values and exceptions *)

Inductive exn :=
  | KeyError
  | ValueError
  | TypeError
  | FileNotFoundError
  | OSError
  | ConnectionError
  | HTTPError
  | JSONDecodeError
  | SystemExit (code : Z).

Inductive result (A : Type) :=
  | Ok (a : A)
  | Raise (e : exn).
Arguments Ok {A} a.
Arguments Raise {A} e.

#[global] Instance exn_eq_dec : EqDecision exn.
Proof. solve_decision. Defined.

Definition result_bind {A B} (r : result A) (k : A → result B) : result B :=
  match r with
  | Ok a => k a
  | Raise e => Raise e
  end.

#[global] Instance result_eq_dec `{EqDecision A} : EqDecision (result A).
Proof. solve_decision. Defined.

#[global] Instance result_ret : MRet result := λ A a, Ok a.
#[global] Instance result_mbind : MBind result := λ A B k r, result_bind r k.

(** A cell of a row dictionary: [None] or a [str]. *)
Abbreviation pyval := (option string) (only parsing).

(** ** CSV tables as [csv.DictReader] and [csv.DictWriter] see them *)

Module Csv.

(** The parsed content of a file: its lines, each a list of cells. *)
Abbreviation Grid := (list (list string)) (only parsing).

(** A row dictionary.  [cells] holds the string keys; [restkey] is the
    entry under the key [None] that [DictReader] adds for a line longer
    than the header. *)
Record Row := mkRow {
  cells : gmap string pyval;
  restkey : option (list string)
}.

#[global] Instance Row_eq_dec : EqDecision Row.
Proof. solve_decision. Defined.

(** A dictionary literal with string keys. *)
Definition dict (kvs : list (string * pyval)) : Row :=
  mkRow (foldl (λ d kv, <[kv.1 := kv.2]> d) ∅ kvs) None.

(** [row[key]] *)
Definition getitem (row : Row) (key : string) : result pyval :=
  match cells row !! key with
  | Some v => Ok v
  | None => Raise KeyError
  end.

(** [row.get(key, default)] *)
Definition get (row : Row) (key : string) (default : pyval) : pyval :=
  match cells row !! key with
  | Some v => v
  | None => default
  end.

(** [row[key] = v] *)
Definition setitem (key : string) (v : pyval) (row : Row) : Row :=
  mkRow (<[key := v]> (cells row)) (restkey row).

(** [DictReader.__next__] on one parsed line: [dict(zip(fieldnames, row))],
    then the surplus under [None], or [None] for the missing columns. *)
Definition dict_of_line (fieldnames line : list string) : Row :=
  mkRow
    (foldl (λ d kv, <[kv.1 := kv.2]> d) ∅
       (zip fieldnames
          ((Some <$> line) ++ replicate (length fieldnames - length line) None)))
    (if decide (length fieldnames < length line)
     then Some (drop (length fieldnames) line) else None).

(** [list(csv.DictReader(f))]: the first line is the header, blank lines
    are skipped. *)
Definition DictReader (g : Grid) : list Row :=
  match g with
  | [] => []
  | fieldnames :: lines =>
      dict_of_line fieldnames <$> filter (λ l, l ≠ []) lines
  end.

(** What the writer puts in a cell: [None] is written as the empty
    string. *)
Definition cell_str (v : pyval) : string := default "" v.

(** [DictWriter._dict_to_list] with the default [extrasaction='raise']
    and [restval=''] . *)
Definition dict_to_list (fieldnames : list string) (row : Row)
  : result (list string) :=
  if decide (dom (cells row) ⊆ list_to_set fieldnames ∧ restkey row = None)
  then Ok ((λ key, cell_str (get row key (Some ""))) <$> fieldnames)
  else Raise ValueError.

(** The text of one line as the writer emits it with the default
    dialect: cells joined by commas, a cell quoted when it holds a comma,
    a quote or a line break (quotes inside doubled), and a line of one
    empty cell written as a pair of quotes. *)
Definition dquote : ascii := Ascii.ascii_of_nat 34.

Fixpoint needs_quote (s : string) : bool :=
  match s with
  | EmptyString => false
  | String c s' =>
      bool_decide (c = ","%char) || bool_decide (c = dquote)
      || bool_decide (c = Ascii.ascii_of_nat 10)
      || bool_decide (c = Ascii.ascii_of_nat 13)
      || needs_quote s'
  end.

Fixpoint double_quotes (s : string) : string :=
  match s with
  | EmptyString => EmptyString
  | String c s' =>
      if bool_decide (c = dquote)
      then String c (String c (double_quotes s'))
      else String c (double_quotes s')
  end.

Definition csv_cell (s : string) : string :=
  if needs_quote s
  then String dquote (double_quotes s +:+ String dquote EmptyString)
  else s.

Definition csv_line (line : list string) : string :=
  match line with
  | [""] => String dquote (String dquote EmptyString)
  | _ => String.concat "," (csv_cell <$> line)
  end.

(** The text of a whole file: its lines, each ended by a carriage return
    and a line feed. *)
Definition csv_text (g : Grid) : string :=
  String.concat ""
    ((λ line, csv_line line
              +:+ String (Ascii.ascii_of_nat 13)
                    (String (Ascii.ascii_of_nat 10) EmptyString)) <$> g).

(** *** Vocabulary of the properties *)

(** A file conforms to the schema [columns]: its header is [columns] and
    every line has one cell per column. *)
Definition conforms (columns : list string) (g : Grid) : Prop :=
  ∃ lines, g = columns :: lines ∧
           Forall (λ l, length l = length columns) lines.

(** A table file that may be missing. *)
Definition table_ok (columns : list string) (file : option Grid) : Prop :=
  from_option (conforms columns) True file.

(** The data lines of a table file; none when the file is missing. *)
Definition table_lines (file : option Grid) : list (list string) :=
  match file with
  | Some (_ :: lines) => lines
  | _ => []
  end.

(** The date of a line: its first cell. *)
Definition line_date (l : list string) : option string := head l.

(** The row dictionary with three string keys. *)
Definition row3 (k1 k2 k3 : string) (a b c : pyval) : Row :=
  mkRow (<[k3 := c]> (<[k2 := b]> (<[k1 := a]> ∅))) None.

(** The lines of a table as a pass through the reader and the writer
    leaves them: blank lines are dropped, and a line shorter than the
    header is filled up with empty cells. *)
Definition refilled (columns : list string) (lines : Grid) : Grid :=
  (λ l, l ++ replicate (length columns - length l) "")
    <$> filter (λ l, l ≠ []) lines.

End Csv.

(** ** The file system and the monad of disk operations *)

Module Fs.
Import Csv.

(** A [pathlib.Path] of a file: directory, stem and suffix. *)
Record Path := mkPath {
  parent : string;
  stem : string;
  suffix : string
}.

#[global] Instance Path_eq_dec : EqDecision Path.
Proof. solve_decision. Defined.

#[global] Instance Path_countable : Countable Path.
Proof.
  refine (inj_countable' (λ p, (parent p, stem p, suffix p))
            (λ t, mkPath t.1.1 t.1.2 t.2) _).
  by intros [].
Defined.

(** [p.with_suffix(s)] *)
Definition with_suffix (p : Path) (s : string) : Path :=
  mkPath (parent p) (stem p) s.

(** The disk: the directories that exist, the files with their parsed
    content, and the number of modifying operations the disk still
    performs before one fails ([None]: it never fails). *)
Record Sys := mkSys {
  dirs : gset string;
  files : gmap Path Grid;
  budget : option nat
}.

Definition io (A : Type) : Type := Sys → Sys * result A.

#[global] Instance io_ret : MRet io := λ A a σ, (σ, Ok a).
#[global] Instance io_bind : MBind io := λ A B k m σ,
  match m σ with
  | (σ', Ok a) => k a σ'
  | (σ', Raise e) => (σ', Raise e)
  end.

Definition raise {A} (e : exn) : io A := λ σ, (σ, Raise e).
Definition lift {A} (r : result A) : io A := λ σ, (σ, r).

(** Every modifying operation first takes one unit of the budget. *)
Definition tick : io unit := λ σ,
  match budget σ with
  | None => (σ, Ok tt)
  | Some 0 => (σ, Raise OSError)
  | Some (S n) => (mkSys (dirs σ) (files σ) (Some n), Ok tt)
  end.

(** [d.mkdir(parents=True, exist_ok=True)] *)
Definition mkdir (d : string) : io unit :=
  _ ← tick;
  ((λ σ, (mkSys ({[d]} ∪ dirs σ) (files σ) (budget σ), Ok tt)) : io unit).

(** [p.exists()] *)
Definition exists_ (p : Path) : io bool :=
  λ σ, (σ, Ok (bool_decide (is_Some (files σ !! p)))).

(** [open(p, "w")]: the file is created or truncated; its directory
    must exist. *)
Definition open_w (p : Path) : io unit :=
  _ ← tick;
  ((λ σ, if decide (parent p ∈ dirs σ)
         then (mkSys (dirs σ) (<[p := []]> (files σ)) (budget σ), Ok tt)
         else (σ, Raise FileNotFoundError)) : io unit).

(** One line written to an open file. *)
Definition write_line (p : Path) (line : list string) : io unit :=
  _ ← tick;
  ((λ σ, (mkSys (dirs σ) (alter (λ g, g ++ [line]) p (files σ)) (budget σ),
          Ok tt)) : io unit).

(** [open(p)] and the parse of the whole file. *)
Definition read_grid (p : Path) : io Grid :=
  λ σ, match files σ !! p with
       | Some g => (σ, Ok g)
       | None => (σ, Raise FileNotFoundError)
       end.

(** [src.replace(dst)]: [dst] gets the content of [src], which is gone. *)
Definition replace (src dst : Path) : io unit :=
  _ ← tick;
  ((λ σ, match files σ !! src with
         | Some g =>
             (mkSys (dirs σ) (<[dst := g]> (delete src (files σ)))
                (budget σ), Ok tt)
         | None => (σ, Raise FileNotFoundError)
         end) : io unit).

(** [csv.DictWriter(f, fieldnames).writeheader()] *)
Definition writeheader (p : Path) (fieldnames : list string) : io unit :=
  write_line p fieldnames.

(** [writer.writerows(rows)]: the rows are converted and written one at
    a time, so the rows before an offending one are already in the file
    when [ValueError] is raised. *)
Fixpoint writerows (p : Path) (fieldnames : list string) (rows : list Row)
  : io unit :=
  match rows with
  | [] => mret tt
  | row :: rows' =>
      line ← lift (dict_to_list fieldnames row);
      _ ← write_line p line;
      writerows p fieldnames rows'
  end.

(** *** Vocabulary of the properties *)

(** [m] leaves the directories and every file other than [p] alone,
    whether it succeeds or raises. *)
Definition touches_only {A} (p : Path) (m : io A) : Prop :=
  ∀ σ σ' r, m σ = (σ', r) →
    dirs σ' = dirs σ ∧ ∀ q, q ≠ p → files σ' !! q = files σ !! q.

End Fs.

(** ** [tracker.py]: first and last activity of the day *)

Module Tracker.
Import Csv Fs.

(** *** Wall-clock time *)

(** A naive [datetime.datetime]: its fields, compared field by field
    from the year down. *)
Record datetime := mkDatetime {
  year : Z;
  month : Z;
  day : Z;
  hour : Z;
  minute : Z;
  second : Z;
  microsecond : Z
}.

#[global] Instance datetime_eq_dec : EqDecision datetime.
Proof. solve_decision. Defined.

Definition dt_key (dt : datetime) : list Z :=
  [year dt; month dt; day dt; hour dt; minute dt; second dt; microsecond dt].

Fixpoint lex_compare (a b : list Z) : comparison :=
  match a, b with
  | [], [] => Eq
  | [], _ :: _ => Lt
  | _ :: _, [] => Gt
  | x :: a', y :: b' =>
      match (x ?= y)%Z with
      | Eq => lex_compare a' b'
      | c => c
      end
  end.

(** [a <= b] on datetimes. *)
Definition dt_le (a b : datetime) : Prop :=
  lex_compare (dt_key a) (dt_key b) ≠ Gt.

#[global] Instance dt_le_dec : RelDecision dt_le.
Proof. intros a b. unfold dt_le. apply _. Defined.

(** A number printed in decimal, zero-padded on the left to [width]: the
    fields of a clock reading are in the ranges of [datetime], the year
    with four digits. *)
Definition zfill (width : nat) (s : string) : string :=
  String.concat "" (replicate (width - String.length s) "0") +:+ s.

Definition pad (width : nat) (n : Z) : string := zfill width (pretty n).

(** [dt.strftime("%Y-%m-%d")] *)
Definition strftime_date (dt : datetime) : string :=
  pad 4 (year dt) +:+ "-" +:+ pad 2 (month dt) +:+ "-" +:+ pad 2 (day dt).

(** [dt.strftime("%H:%M:%S")] *)
Definition strftime_time (dt : datetime) : string :=
  pad 2 (hour dt) +:+ ":" +:+ pad 2 (minute dt) +:+ ":" +:+ pad 2 (second dt).

(** *** Config *)

Definition LOG_DIR : string := "C:\WarehouseTracker".
Definition LOG_FILE : Path := mkPath LOG_DIR "activity_log" ".csv".
Definition CSV_COLUMNS : list string :=
  ["Date"; "First Activity"; "Last Activity"].

(** *** State *)

(** The three module-level variables guarded by [_lock]. *)
Record State := mkState {
  _current_date : string;
  _first_activity : option datetime;
  _last_activity : option datetime
}.

#[global] Instance State_eq_dec : EqDecision State.
Proof. solve_decision. Defined.

(** The values the module is loaded with. *)
Definition initial_state : State := mkState "" None None.

(** *** CSV helpers *)

Definition _ensure_log_file : io unit :=
  _ ← mkdir LOG_DIR;
  e ← exists_ LOG_FILE;
  if (e : bool) then mret tt
  else
    _ ← open_w LOG_FILE;
    writeheader LOG_FILE CSV_COLUMNS.

Definition _fmt (dt : option datetime) : string :=
  match dt with
  | Some d => strftime_time d
  | None => ""
  end.

(** The loop over [rows] of [_flush_today]: the first row whose date is
    [date] gets the two fields and the loop breaks.  Returns the rows and
    the flag [updated]. *)
Fixpoint update_today (date : string) (first last : option datetime)
    (rows : list Row) : result (list Row * bool) :=
  match rows with
  | [] => Ok ([], false)
  | row :: rows' =>
      d ← getitem row "Date";
      if decide (d = Some date)
      then Ok (setitem "Last Activity" (Some (_fmt last))
                 (setitem "First Activity" (Some (_fmt first)) row)
               :: rows', true)
      else
        '(rows'', updated) ← update_today date first last rows';
        Ok (row :: rows'', updated)
  end.

Definition _flush_today (st : State) : io unit :=
  let date := _current_date st in
  let first := _first_activity st in
  let last := _last_activity st in
  if decide (date = "") then mret tt
  else
    _ ← _ensure_log_file;
    e ← exists_ LOG_FILE;
    rows ← (if (e : bool) then g ← read_grid LOG_FILE; mret (DictReader g)
            else mret []);
    '(rows, updated) ← lift (update_today date first last rows);
    let rows :=
      if (updated : bool) then rows
      else rows ++ [dict [("Date", Some date);
                          ("First Activity", Some (_fmt first));
                          ("Last Activity", Some (_fmt last))]] in
    let tmp := with_suffix LOG_FILE ".tmp" in
    _ ← open_w tmp;
    _ ← writeheader tmp CSV_COLUMNS;
    _ ← writerows tmp CSV_COLUMNS rows;
    replace tmp LOG_FILE.

(** *** Activity recording *)

(** [_record_activity], with the clock reading [now] it takes first. *)
Definition _record_activity (now : datetime) (st : State) : State :=
  let today := strftime_date now in
  if decide (_current_date st ≠ today)
  then mkState today (Some now) (Some now)
  else mkState (_current_date st)
         (match _first_activity st with
          | None => Some now
          | Some f => Some f
          end)
         (Some now).

(** *** Background threads *)

(** The body of the loop of [_date_rollover_thread], run once with the
    clock reading [now]; [last_known_date] is the thread's local. *)
Definition _date_rollover_check (now : datetime)
    (st : State) (last_known_date : string) : io (State * string) :=
  let today := strftime_date now in
  if decide (today ≠ last_known_date)
  then
    _ ← _flush_today st;
    mret (mkState today None None, today)
  else mret (st, last_known_date).

(** *** pynput listeners *)

Definition _on_keyboard_press (key : string) (now : datetime) (st : State)
  : State :=
  _record_activity now st.

Definition _on_mouse_move (x y : Z) (now : datetime) (st : State) : State :=
  _record_activity now st.

Definition _on_mouse_click (x y : Z) (button : string) (pressed : bool)
    (now : datetime) (st : State) : State :=
  if pressed then _record_activity now st else st.

Definition _on_mouse_scroll (x y dx dy : Z) (now : datetime) (st : State)
  : State :=
  _record_activity now st.

(** What the two listeners deliver, and the handler each calls. *)
Inductive input :=
  | KeyPress (key : string)
  | MouseMove (x y : Z)
  | MouseClick (x y : Z) (button : string) (pressed : bool)
  | MouseScroll (x y dx dy : Z).

Definition on_input (i : input) (now : datetime) (st : State) : State :=
  match i with
  | KeyPress key => _on_keyboard_press key now st
  | MouseMove x y => _on_mouse_move x y now st
  | MouseClick x y button pressed => _on_mouse_click x y button pressed now st
  | MouseScroll x y dx dy => _on_mouse_scroll x y dx dy now st
  end.

(** The inputs in the order their handlers run, each with the clock
    reading its handler takes. *)
Definition listen (ins : list (input * datetime)) (st : State) : State :=
  foldl (λ s i, on_input i.1 i.2 s) st ins.

(** *** The process *)

(** What happens to the process, one step each, in the runs whose steps
    follow one another: each step has run to completion when the next
    begins.  An event handler runs under [_lock] as a whole.  A flush
    holds the lock for its snapshot only and does its file operations
    outside it, and the detector takes the lock again for its reset only
    after its flush.  So the source also has runs in which two flushes
    overlap (the timer's, the detector's and Exit's write the same
    temporary file) or an input lands between the detector's flush and its
    reset; those are not among the runs of [run], and what is proved over
    [run] is about the runs without such an overlap.  An exception ends
    the run: in the source it ends the thread it is raised in. *)
Inductive event :=
  | Activity (now : datetime)     (* a key press or mouse event *)
  | FlushTimer                    (* [_periodic_flush_thread] wakes *)
  | DateCheck (now : datetime)    (* [_date_rollover_thread] wakes *)
  | ExitApp.                      (* the tray menu's Exit *)

Record Proc := mkProc {
  state : State;
  last_known_date : string
}.

(** [main] up to the start of the threads: [now] is the clock reading
    [main] takes for [_current_date], [started] the one
    [_date_rollover_thread] takes for its [last_known_date] when it
    starts. *)
Definition main (now started : datetime) : io Proc :=
  let st := mkState (strftime_date now) None None in
  _ ← _ensure_log_file;
  mret (mkProc st (strftime_date started)).

Definition step (ev : event) (p : Proc) : io Proc :=
  match ev with
  | Activity now =>
      mret (mkProc (_record_activity now (state p)) (last_known_date p))
  | FlushTimer | ExitApp =>
      _ ← _flush_today (state p);
      mret p
  | DateCheck now =>
      '(st, lkd) ← _date_rollover_check now (state p) (last_known_date p);
      mret (mkProc st lkd)
  end.

Fixpoint run (evs : list event) (p : Proc) : io Proc :=
  match evs with
  | [] => mret p
  | ev :: evs' => p' ← step ev p; run evs' p'
  end.

(** *** Vocabulary of the properties *)

(** What a flush of the day [date] does to the lines of a conforming
    activity table: the first line of that date gets the two times, or a
    line is added at the end. *)
Fixpoint flush_lines (date first last : string) (lines : list (list string))
  : list (list string) :=
  match lines with
  | [] => [[date; first; last]]
  | l :: lines' =>
      if decide (line_date l = Some date) then [date; first; last] :: lines'
      else l :: flush_lines date first last lines'
  end.

(** The clock readings of the inputs that reach [_record_activity]: all
    but the releases of a mouse button. *)
Definition recorded (ins : list (input * datetime)) : list datetime :=
  omap (λ i, match i.1 with
             | MouseClick _ _ _ false => None
             | _ => Some i.2
             end) ins.

(** The calendar date of a clock reading is one whose text does not
    depend on the platform: a year of four digits, a month and a day of
    the calendar. *)
Definition calendar_date (dt : datetime) : Prop :=
  (1000 ≤ year dt ≤ 9999 ∧ 1 ≤ month dt ≤ 12 ∧ 1 ≤ day dt ≤ 31)%Z.

(** The calendar date of a clock reading, fields from the year down. *)
Definition date_key (dt : datetime) : list Z := [year dt; month dt; day dt].

(** The activity table is well formed: missing or conforming to its
    schema, with at most one line per date. *)
Definition table_inv (file : option (list (list string))) : Prop :=
  table_ok CSV_COLUMNS file ∧ NoDup (line_date <$> table_lines file).

(** The clock reading of the step [ev], when it takes one, falls on the
    date [D]. *)
Definition on_date (D : string) (ev : event) : Prop :=
  match ev with
  | Activity now | DateCheck now => strftime_date now = D
  | FlushTimer | ExitApp => True
  end.

(** The invariant of the in-progress day: when both timestamps are set,
    the first is not after the last. *)
Definition first_le_last (st : State) : Prop :=
  ∀ f l, _first_activity st = Some f → _last_activity st = Some l → dt_le f l.

(** The events in the order they are processed, each applied to the state
    the previous one left. *)
Definition record_all (nows : list datetime) (st : State) : State :=
  foldl (λ s now, _record_activity now s) st nows.

(** The clock readings of the input events among [evs], in order. *)
Definition activity_times (evs : list event) : list datetime :=
  omap (λ ev, match ev with Activity now => Some now | _ => None end) evs.

(** Both timestamps of the state are at most [t]. *)
Definition bounded_by (t : datetime) (st : State) : Prop :=
  (∀ f, _first_activity st = Some f → dt_le f t) ∧
  (∀ l, _last_activity st = Some l → dt_le l t).

End Tracker.

(** ** [shipstation_tracker.py]: the orders table and the combined view *)

Module ShipStation.
Import Csv Fs.

(** *** Config *)

Definition LOG_DIR : string := "C:\WarehouseTracker".
Definition ORDERS_LOG : Path := mkPath LOG_DIR "orders_log" ".csv".
Definition ACTIVITY_LOG : Path := mkPath LOG_DIR "activity_log" ".csv".
Definition COMBINED_LOG : Path := mkPath LOG_DIR "combined_log" ".csv".

Definition ORDERS_COLUMNS : list string :=
  ["Date"; "Outstanding Orders"; "Shipped Today"].
Definition COMBINED_COLUMNS : list string :=
  ["Date"; "First Click"; "Last Click"; "Outstanding Orders"; "Shipped Today"].

Definition SHIPSTATION_BASE : string := "https://api.shipstation.com/v2".

Definition VALID_WEEKDAYS : gset Z := {[0; 1; 2; 3]}%Z.

(** *** CSV helpers *)

Definition _ensure_orders_log : io unit :=
  _ ← mkdir LOG_DIR;
  e ← exists_ ORDERS_LOG;
  if (e : bool) then mret tt
  else
    _ ← open_w ORDERS_LOG;
    writeheader ORDERS_LOG ORDERS_COLUMNS.

(** [columns] is not used by the source either. *)
Definition _read_csv (path : Path) (columns : list string) : io (list Row) :=
  e ← exists_ path;
  if (e : bool) then g ← read_grid path; mret (DictReader g)
  else mret [].

Definition _write_csv (path : Path) (columns : list string)
    (rows : list Row) : io unit :=
  let tmp := with_suffix path ".tmp" in
  _ ← open_w tmp;
  _ ← writeheader tmp columns;
  _ ← writerows tmp columns rows;
  replace tmp path.

(** The search loop of [_upsert_orders_row]: the position of the first
    row whose date is [today]. *)
Fixpoint find_row (today : string) (rows : list Row) : result (option nat) :=
  match rows with
  | [] => Ok None
  | row :: rows' =>
      d ← getitem row "Date";
      if decide (d = Some today) then Ok (Some 0)
      else i ← find_row today rows'; Ok (S <$> (i : option nat))
  end.

(** [today_row] aliases an element of [rows]: it is kept as its position,
    and the assignment to [today_row[field]] alters the list there. *)
Definition _upsert_orders_row (today field : string) (value : Z) : io unit :=
  _ ← _ensure_orders_log;
  rows ← _read_csv ORDERS_LOG ORDERS_COLUMNS;
  found ← lift (find_row today rows);
  let '(rows, today_row) :=
    match found with
    | Some i => (rows, i)
    | None =>
        (rows ++ [dict [("Date", Some today);
                        ("Outstanding Orders", Some "");
                        ("Shipped Today", Some "")]],
         length rows)
    end in
  let rows := alter (setitem field (Some (pretty value))) today_row rows in
  _write_csv ORDERS_LOG ORDERS_COLUMNS rows.

(** *** The combined view *)

(** [{r["Date"]: r for r in rows}]: a later row replaces an earlier one
    with the same date. *)
Fixpoint by_date (rows : list Row) (acc : gmap pyval Row)
  : result (gmap pyval Row) :=
  match rows with
  | [] => Ok acc
  | r :: rows' =>
      d ← getitem r "Date";
      by_date rows' (<[d := r]> acc)
  end.

(** [sorted] of a set of dates.  Strings are ordered by code point;
    comparing [None] with a string raises, which happens as soon as the
    set holds [None] and anything else. *)
Definition sorted (s : gset pyval) : result (list pyval) :=
  if decide (None ∈ s)
  then if decide (size s = 1) then Ok [None] else Raise TypeError
  else Ok (Some <$> merge_sort String.le (omap id (elements s))).

Definition empty_row : Row := dict [].

Definition combined_row (activity_by_date orders_by_date : gmap pyval Row)
    (d : pyval) : Row :=
  let act := default empty_row (activity_by_date !! d) in
  let ord_ := default empty_row (orders_by_date !! d) in
  dict [("Date", d);
        ("First Click", get act "First Activity" (Some ""));
        ("Last Click", get act "Last Activity" (Some ""));
        ("Outstanding Orders", get ord_ "Outstanding Orders" (Some ""));
        ("Shipped Today", get ord_ "Shipped Today" (Some ""))].

(** The rows of the combined view, from the rows of the two tables. *)
Definition combine (activity_rows orders_rows : list Row)
  : result (list Row) :=
  activity_by_date ← by_date activity_rows ∅;
  orders_by_date ← by_date orders_rows ∅;
  all_dates ← sorted (dom activity_by_date ∪ dom orders_by_date);
  Ok (combined_row activity_by_date orders_by_date
        <$> (all_dates : list pyval)).

(** The message printed at the end goes to the console and is left
    out. *)
Definition rebuild_combined_log : io unit :=
  activity_rows ←
    _read_csv ACTIVITY_LOG ["Date"; "First Activity"; "Last Activity"];
  orders_rows ← _read_csv ORDERS_LOG ORDERS_COLUMNS;
  combined ← lift (combine activity_rows orders_rows);
  _write_csv COMBINED_LOG COMBINED_COLUMNS combined.

(** *** The API and the two modes *)

(** The member [total] of the JSON object the API answers with. *)
Inductive json_total :=
  | TotalAbsent             (* no such member *)
  | TotalInt (n : Z)        (* a value [int()] converts to [n] *)
  | TotalInvalid.           (* a value [int()] rejects *)

(** An HTTP response; [body] is [None] when it is not JSON. *)
Record Response := mkResponse {
  status_code : Z;
  body : option json_total
}.

Section Api.
(** [requests.get(url, headers=..., params=..., timeout=30)]: the
    network and the vendor's server. *)
Variable requests_get :
  string → gmap string string → gmap string string → result Response.

Definition _api_headers (api_key : string) : gmap string string :=
  <["Content-Type" := "application/json"]> (<["API-Key" := api_key]> ∅).

Definition raise_for_status (resp : Response) : result unit :=
  if decide (400 ≤ status_code resp < 600)%Z then Raise HTTPError
  else Ok tt.

Definition _fetch_order_count (api_key : string)
    (params : gmap string string) : result Z :=
  let params := <["page" := "1"]> (<["page_size" := "1"]> params) in
  let url := SHIPSTATION_BASE +:+ "/orders" in
  resp ← requests_get url (_api_headers api_key) params;
  _ ← raise_for_status resp;
  match body resp with
  | None => Raise JSONDecodeError
  | Some TotalAbsent => Ok 0%Z
  | Some (TotalInt n) => Ok n
  | Some TotalInvalid => Raise ValueError
  end.

Definition get_awaiting_shipment_count (api_key : string) : result Z :=
  _fetch_order_count api_key (<["order_status" := "awaiting_shipment"]> ∅).

(** [today_str] is [date.today().isoformat()]. *)
Definition get_shipped_today_count (api_key today_str : string)
  : result Z :=
  _fetch_order_count api_key
    (<["ship_date_end" := today_str]>
       (<["ship_date_start" := today_str]>
          (<["order_status" := "shipped"]> ∅))).

(** [today] is the reading of [date.today().isoformat()]. *)
Definition run_morning (api_key today : string) : io unit :=
  count ← lift (get_awaiting_shipment_count api_key);
  _ ← _upsert_orders_row today "Outstanding Orders" count;
  rebuild_combined_log.

Definition run_afternoon (api_key today : string) : io unit :=
  count ← lift (get_shipped_today_count api_key today);
  _ ← _upsert_orders_row today "Shipped Today" count;
  rebuild_combined_log.

Inductive mode := morning | afternoon.

(** [main] after the argument parser: [weekday] is
    [datetime.today().weekday()], [env_key] the stripped value of
    [SHIPSTATION_API_KEY] (empty when unset). *)
Definition main (m : mode) (weekday : Z) (env_key today : string)
  : io unit :=
  if decide (weekday ∉ VALID_WEEKDAYS) then raise (SystemExit 0)
  else if decide (env_key = "") then raise (SystemExit 1)
  else match m with
       | morning => run_morning env_key today
       | afternoon => run_afternoon env_key today
       end.
End Api.

(** *** Vocabulary of the properties *)

(** The column of the orders table a mode fills in. *)
Definition mode_field (m : mode) : string :=
  match m with
  | morning => "Outstanding Orders"
  | afternoon => "Shipped Today"
  end.

(** The count a mode asks the API for. *)
Definition mode_count
    (requests_get :
       string → gmap string string → gmap string string → result Response)
    (m : mode) (api_key today : string) : result Z :=
  match m with
  | morning => get_awaiting_shipment_count requests_get api_key
  | afternoon => get_shipped_today_count requests_get api_key today
  end.

(** One start of the script: the network it finds, the mode it is
    given, the weekday, the stripped API key of the environment and the
    date of the day. *)
Record invocation := mkInvocation {
  network :
    string → gmap string string → gmap string string → result Response;
  inv_mode : mode;
  inv_weekday : Z;
  inv_key : string;
  inv_today : string
}.

(** The disk once the script has run, whether it returned, exited or
    raised. *)
Definition after_script (σ : Sys) (i : invocation) : Sys :=
  (main (network i) (inv_mode i) (inv_weekday i) (inv_key i) (inv_today i)
     σ).1.

(** The orders table is well formed: missing or conforming to its
    schema, with at most one line per date. *)
Definition orders_inv (file : option Grid) : Prop :=
  table_ok ORDERS_COLUMNS file ∧ NoDup (line_date <$> table_lines file).

(** A row as it reads back once written under [columns]: the columns
    as its keys, each with the text the writer put in its cell. *)
Definition written_row (columns : list string) (row : Row) : Row :=
  dict ((λ key, (key, Some (cell_str (get row key (Some ""))))) <$> columns).

(** A row the writer and the reader leave as it is: its keys are the
    columns, its cells are strings. *)
Definition plain_row (columns : list string) (row : Row) : Prop :=
  dom (cells row) = list_to_set columns ∧
  (∀ key v, cells row !! key = Some v → is_Some v) ∧
  restkey row = None.

(** The rows of a table file that may be missing, as [_read_csv] returns
    them. *)
Definition rows_of (file : option Grid) : list Row :=
  from_option DictReader [] file.

(** The last of [rows] whose date is [d]. *)
Definition last_of_date (d : pyval) (rows : list Row) : option Row :=
  last (filter (λ r, getitem r "Date" = Ok d) rows).

(** The line of the combined file for the date [d]. *)
Definition combined_line (activity_by_date orders_by_date : gmap pyval Row)
    (d : pyval) : list string :=
  let act := default empty_row (activity_by_date !! d) in
  let ord_ := default empty_row (orders_by_date !! d) in
  [cell_str d;
   cell_str (get act "First Activity" (Some ""));
   cell_str (get act "Last Activity" (Some ""));
   cell_str (get ord_ "Outstanding Orders" (Some ""));
   cell_str (get ord_ "Shipped Today" (Some ""))].

(** The combined file as a function of the two source files. *)
Definition combined_view (activity orders : option Grid) : result Grid :=
  activity_by_date ← by_date (rows_of activity) ∅;
  orders_by_date ← by_date (rows_of orders) ∅;
  all_dates ← sorted (dom activity_by_date ∪ dom orders_by_date);
  Ok (COMBINED_COLUMNS
        :: (combined_line activity_by_date orders_by_date
              <$> (all_dates : list pyval))).

(** The two cells a conforming table contributes to the combined line of
    the date [d]: those of its last line of that date, or two empty cells
    when it has none. *)
Definition side_cells (d : string) (lines : list (list string))
  : list string :=
  match last (filter (λ l, line_date l = Some d) lines) with
  | Some [_; x; y] => [x; y]
  | _ => [""; ""]
  end.

(** [d] is the date of one of [lines]. *)
Definition has_date (d : string) (lines : list (list string)) : Prop :=
  ∃ l, l ∈ lines ∧ line_date l = Some d.

(** The fields of an orders record besides its date. *)
Definition value_fields : list string :=
  ["Outstanding Orders"; "Shipped Today"].

(** The cell of the column [field] of an orders line set to [value]. *)
Definition set_field (field value : string) (line : list string)
  : list string :=
  match list_find (λ c, c = field) ORDERS_COLUMNS with
  | Some (i, _) => <[i := value]> line
  | None => line
  end.

(** The cell of the column [field] of an orders line. *)
Definition field_of (field : string) (line : list string) : option string :=
  '(i, _) ← list_find (λ c, c = field) ORDERS_COLUMNS; line !! i.

(** What an upsert does to the lines of a conforming orders table: the
    first line of the date [today] gets the value, or a line with the
    other cells empty is added at the end. *)
Fixpoint upsert_lines (today field value : string)
    (lines : list (list string)) : list (list string) :=
  match lines with
  | [] => [set_field field value [today; ""; ""]]
  | l :: lines' =>
      if decide (line_date l = Some today)
      then set_field field value l :: lines'
      else l :: upsert_lines today field value lines'
  end.

End ShipStation.


(** * Properties *)

(** ** The activity state machine *)

Section ActivityState.
Import Tracker.

Lemma lex_compare_refl a : lex_compare a a = Eq.
Proof. induction a as [|x a IH]; simpl; [done|]. by rewrite Z.compare_refl. Qed.

Lemma lex_compare_trans a : ∀ b c,
  lex_compare a b ≠ Gt → lex_compare b c ≠ Gt → lex_compare a c ≠ Gt.
Proof.
  induction a as [|x a IH]; intros [|y b] [|z c]; simpl; try done.
  destruct (Z.compare_spec x y), (Z.compare_spec y z),
    (Z.compare_spec x z); try done; try lia; subst; eauto.
Qed.

#[local] Instance dt_le_refl : Reflexive dt_le.
Proof. intros a. unfold dt_le. by rewrite lex_compare_refl. Qed.

#[local] Instance dt_le_trans : Transitive dt_le.
Proof. intros a b c. unfold dt_le. apply lex_compare_trans. Qed.

Lemma record_activity_inv now st :
  first_le_last st → bounded_by now st →
  first_le_last (_record_activity now st) ∧
  bounded_by now (_record_activity now st).
Proof.
  intros Hinv [Hf Hl]. unfold _record_activity.
  destruct (decide _) as [_|_]; unfold first_le_last, bounded_by; simpl.
  - split; [|split]; intros; simplify_eq; reflexivity.
  - destruct (_first_activity st) as [f0|] eqn:Ef.
    + split; [|split]; intros; simplify_eq; eauto; reflexivity.
    + split; [|split]; intros; simplify_eq; reflexivity.
Qed.

Lemma bounded_by_mono t t' st : dt_le t t' → bounded_by t st → bounded_by t' st.
Proof. intros Ht [Hf Hl]. split; intros; etrans; eauto. Qed.

Lemma record_all_inv nows : ∀ st,
  Sorted dt_le nows →
  first_le_last st →
  (∀ now, head nows = Some now → bounded_by now st) →
  first_le_last (record_all nows st).
Proof.
  induction nows as [|now nows IH]; intros st Hs Hinv Hb; [done|].
  simpl. apply Sorted_inv in Hs as [Hs Hhd].
  destruct (record_activity_inv now st Hinv (Hb now eq_refl)) as [Hinv' Hb'].
  apply IH; [done..|].
  intros now' Hnow'. destruct nows as [|n nows']; simplify_eq/=.
  apply HdRel_inv in Hhd. by eapply bounded_by_mono.
Qed.

(** The invariant also survives the other steps of the process: a flush
    only reads the state, and the rollover detector either leaves it or
    unsets both timestamps. *)
Lemma run_inv evs : ∀ p σ σ' p',
  Sorted dt_le (activity_times evs) →
  first_le_last (state p) →
  (∀ now, head (activity_times evs) = Some now → bounded_by now (state p)) →
  run evs p σ = (σ', Ok p') →
  first_le_last (state p').
Proof.
  induction evs as [|ev evs IH]; intros p σ σ' p' Hs Hinv Hb Hrun.
  - by injection Hrun as _ <-.
  - cbn [run] in Hrun.
    destruct (step ev p σ) as [σ1 [p1|e]] eqn:Hstep;
      unfold mbind, Fs.io_bind in Hrun; rewrite Hstep in Hrun; [|done].
    destruct ev as [now| |now|].
    + injection Hstep as <- <-.
      change (activity_times (Activity now :: evs))
        with (now :: activity_times evs) in Hs, Hb.
      apply Sorted_inv in Hs as [Hs Hhd].
      destruct (record_activity_inv now (state p) Hinv (Hb now eq_refl))
        as [Hinv' Hb'].
      eapply (IH (mkProc (_record_activity now (state p)) (last_known_date p)));
        [done|exact Hinv'| |exact Hrun].
      intros now' Hnow'. cbn [state].
      eapply bounded_by_mono; [|exact Hb'].
      destruct (activity_times evs); simplify_eq/=. by apply HdRel_inv in Hhd.
    + cbn [step] in Hstep. unfold mbind, Fs.io_bind in Hstep.
      destruct (_flush_today (state p) σ) as [σ2 [[]|e]]; [|done].
      injection Hstep as <- <-. by eapply IH.
    + cbn [step] in Hstep. unfold mbind, Fs.io_bind in Hstep.
      unfold _date_rollover_check in Hstep.
      destruct (decide _).
      * unfold mbind, Fs.io_bind in Hstep.
        destruct (_flush_today (state p) σ) as [σ2 [[]|e]]; [|done].
        injection Hstep as <- <-.
        eapply IH; [done| | |exact Hrun]; cbn [state].
        -- by intros ?? [=].
        -- intros ? _. by split; intros ? [=].
      * injection Hstep as <- <-. destruct p. by eapply IH.
    + cbn [step] in Hstep. unfold mbind, Fs.io_bind in Hstep.
      destruct (_flush_today (state p) σ) as [σ2 [[]|e]]; [|done].
      injection Hstep as <- <-. by eapply IH.
Qed.

End ActivityState.

Section ActivityStateClaims.
Import Tracker.

(** Claim C3.  For every finite sequence of input events whose timestamps
    are processed in nondecreasing order, starting from the state the
    process starts with (any current date, in particular the empty one of
    module load and the one [main] sets, and both timestamps unset), the
    state reached satisfies: whenever both the first and the last
    timestamp are set, first <= last. *)
Theorem first_le_last_after_events (today : string) (nows : list datetime) :
  Sorted dt_le nows →
  first_le_last (record_all nows (mkState today None None)).
Proof.
  intros Hs. apply record_all_inv; [done|by intros ?? [=]|].
  intros now _. by split; intros ? [=].
Qed.

Lemma first_le_last_after_events_witness :
  let t1 := mkDatetime 2024 6 3 9 2 11 0 in
  let t2 := mkDatetime 2024 6 3 9 2 45 0 in
  let t3 := mkDatetime 2024 6 4 0 0 5 120 in
  Sorted dt_le [t1; t2; t3] ∧
  first_le_last (record_all [t1; t2; t3] initial_state).
Proof.
  intros t1 t2 t3.
  assert (Hs : Sorted dt_le [t1; t2; t3]) by (repeat constructor; done).
  split; [exact Hs|].
  exact (first_le_last_after_events "" [t1; t2; t3] Hs).
Defined.

(** The hypothesis on the order cannot be dropped: a clock set back
    between two events of the same day leaves first after last. *)
Example first_after_last_when_clock_goes_back :
  let t1 := mkDatetime 2024 6 3 10 0 0 0 in
  let t2 := mkDatetime 2024 6 3 9 0 0 0 in
  ¬ first_le_last (record_all [t1; t2] initial_state).
Proof. intros t1 t2 H. by apply (H t1 t2). Qed.

(** Claim C10.  Flushing while the current date is the empty string does
    nothing: the call returns normally and the disk (directories, files
    and all) is the one it started with, whatever the timestamps held and
    whatever the disk; the in-memory state is only read.  The same holds
    of the flush timer's step of the process, which leaves process state
    and disk as they were. *)
Theorem flush_unset_date_noop (first last : option datetime) (lkd : string)
    (σ : Fs.Sys) :
  let st := mkState "" first last in
  _flush_today st σ = (σ, Ok tt) ∧
  step FlushTimer (mkProc st lkd) σ = (σ, Ok (mkProc st lkd)).
Proof. done. Qed.

End ActivityStateClaims.

(** ** Disk operations *)

Section Disk.
Import Csv Fs.

Lemma io_bind_unfold {A B} (m : io A) (k : A → io B) σ :
  (m ≫= k) σ =
  match m σ with
  | (σ', Ok a) => k a σ'
  | (σ', Raise e) => (σ', Raise e)
  end.
Proof. done. Qed.

Lemma io_bind_inv {A B} (m : io A) (k : A → io B) σ σ' r :
  (m ≫= k) σ = (σ', r) →
  (∃ e, m σ = (σ', Raise e) ∧ r = Raise e) ∨
  (∃ a σ1, m σ = (σ1, Ok a) ∧ k a σ1 = (σ', r)).
Proof.
  rewrite io_bind_unfold. destruct (m σ) as [σ1 [a|e]]; intros H.
  - right. eauto.
  - left. simplify_eq. eauto.
Qed.

(** *** What an operation may change *)

Lemma touches_only_bind {A B} p (m : io A) (k : A → io B) :
  touches_only p m → (∀ a, touches_only p (k a)) → touches_only p (m ≫= k).
Proof.
  intros Hm Hk σ σ' r H. apply io_bind_inv in H as [(e & H & _)|(a & σ1 & H1 & H2)].
  - by apply Hm in H.
  - apply Hm in H1 as [Hd1 Hf1]. apply Hk in H2 as [Hd2 Hf2].
    split; [congruence|]. intros q Hq. rewrite Hf2, Hf1; done.
Qed.

Lemma touches_only_ret {A} p (a : A) : touches_only p (mret a).
Proof. intros σ σ' r [= <- <-]. done. Qed.

Lemma touches_only_lift {A} p (x : result A) : touches_only p (lift x).
Proof. intros σ σ' r [= <- <-]. done. Qed.

Lemma touches_only_tick p : touches_only p tick.
Proof.
  intros σ σ' r. unfold tick.
  destruct (budget σ) as [[|n]|]; intros [= <- <-]; done.
Qed.

Lemma touches_only_open_w p : touches_only p (open_w p).
Proof.
  apply touches_only_bind; [apply touches_only_tick|].
  intros _ σ σ' r. simpl. destruct (decide _); intros [= <- <-]; simpl; [|done].
  split; [done|]. intros q Hq. by rewrite lookup_insert_ne.
Qed.

Lemma touches_only_write_line p line : touches_only p (write_line p line).
Proof.
  apply touches_only_bind; [apply touches_only_tick|].
  intros _ σ σ' r [= <- <-]; simpl.
  split; [done|]. intros q Hq. by rewrite lookup_alter_ne.
Qed.

Lemma touches_only_writerows p fieldnames rows :
  touches_only p (writerows p fieldnames rows).
Proof.
  induction rows as [|row rows IH]; simpl; [apply touches_only_ret|].
  apply touches_only_bind; [apply touches_only_lift|]. intros line.
  apply touches_only_bind; [apply touches_only_write_line|]. done.
Qed.

(** A [replace] that raises has changed nothing. *)
Lemma replace_raise src dst σ σ' e :
  replace src dst σ = (σ', Raise e) →
  dirs σ' = dirs σ ∧ files σ' = files σ.
Proof.
  unfold replace. rewrite io_bind_unfold. unfold tick.
  destruct (budget σ) as [[|n]|]; simpl;
    destruct (files σ !! src); intros; simplify_eq; done.
Qed.

(** *** Operations on a disk that never fails *)

Lemma mkdir_run d ds fs :
  mkdir d (mkSys ds fs None) = (mkSys ({[d]} ∪ ds) fs None, Ok tt).
Proof. done. Qed.

Lemma open_w_run p ds fs :
  parent p ∈ ds →
  open_w p (mkSys ds fs None) = (mkSys ds (<[p := []]> fs) None, Ok tt).
Proof.
  intros H. unfold open_w. rewrite io_bind_unfold. simpl.
  by rewrite decide_True.
Qed.

Lemma write_line_run p line ds fs :
  write_line p line (mkSys ds fs None)
  = (mkSys ds (alter (λ g, g ++ [line]) p fs) None, Ok tt).
Proof. done. Qed.

Lemma writerows_run p fieldnames rows : ∀ lines ds fs g,
  Forall2 (λ row line, dict_to_list fieldnames row = Ok line) rows lines →
  fs !! p = Some g →
  writerows p fieldnames rows (mkSys ds fs None)
  = (mkSys ds (<[p := g ++ lines]> fs) None, Ok tt).
Proof.
  induction rows as [|row rows IH]; intros lines ds fs g H Hp.
  - inversion H; subst. simpl. rewrite app_nil_r, insert_id; done.
  - inversion H as [|?? line lines' Hrow Hrest]; subst. simpl.
    rewrite io_bind_unfold. unfold lift at 1. rewrite Hrow.
    rewrite io_bind_unfold, write_line_run.
    erewrite IH; [|done|].
    2:{ rewrite lookup_alter_eq, Hp. done. }
    f_equal. f_equal.
    rewrite <-(assoc_L (++)). simpl.
    apply map_eq. intros q. destruct (decide (p = q)) as [->|Hq].
    + by rewrite !lookup_insert_eq.
    + by rewrite !lookup_insert_ne, lookup_alter_ne.
Qed.

Lemma replace_run src dst ds fs g :
  fs !! src = Some g →
  replace src dst (mkSys ds fs None)
  = (mkSys ds (<[dst := g]> (delete src fs)) None, Ok tt).
Proof. intros H. unfold replace. rewrite io_bind_unfold. simpl. by rewrite H. Qed.

End Disk.

(** ** Writing a table: temporary file, then rename *)

Section WriteCsv.
Import Csv Fs ShipStation.

Lemma write_csv_run path columns rows lines ds fs :
  parent path ∈ ds →
  Forall2 (λ row line, dict_to_list columns row = Ok line) rows lines →
  _write_csv path columns rows (mkSys ds fs None)
  = (mkSys ds (<[path := columns :: lines]>
                 (delete (with_suffix path ".tmp") fs)) None, Ok tt).
Proof.
  intros Hd Hrows. unfold _write_csv, writeheader.
  rewrite io_bind_unfold, open_w_run by done.
  rewrite io_bind_unfold, write_line_run.
  rewrite io_bind_unfold.
  erewrite writerows_run; [|done|].
  2:{ rewrite lookup_alter_eq, lookup_insert_eq. done. }
  erewrite replace_run; [|by rewrite lookup_insert_eq].
  simpl. do 3 f_equal.
  rewrite delete_insert_eq, delete_alter_eq, delete_insert_eq. done.
Qed.

Lemma writerows_ok p fieldnames rows : ∀ σ σ' g,
  writerows p fieldnames rows σ = (σ', Ok tt) →
  files σ !! p = Some g →
  ∃ lines,
    Forall2 (λ row line, dict_to_list fieldnames row = Ok line) rows lines ∧
    files σ' !! p = Some (g ++ lines).
Proof.
  induction rows as [|row rows IH]; intros σ σ' g H Hp.
  - simpl in H. injection H as <-. exists []. by rewrite app_nil_r.
  - simpl in H.
    apply io_bind_inv in H as [(e & _ & [=])|(line & σ1 & H1 & H)].
    injection H1 as <- Hrow.
    apply io_bind_inv in H as [(e & _ & [=])|([] & σ2 & H2 & H)].
    unfold write_line in H2.
    apply io_bind_inv in H2 as [(e & _ & [=])|([] & σ3 & H3 & H2)].
    injection H2 as <-.
    assert (files σ3 = files σ) as Hf3.
    { unfold tick in H3. destruct (budget σ) as [[|n]|]; by simplify_eq. }
    eapply IH in H as (lines & Hrows & Hp').
    2:{ simpl. rewrite lookup_alter_eq, Hf3, Hp. done. }
    exists (line :: lines). split; [by constructor|].
    by rewrite Hp', <-(assoc_L (++)).
Qed.

(** A write that raises, wherever it does, has changed no file but the
    temporary one. *)
Lemma write_csv_raise path columns rows σ σ' e :
  _write_csv path columns rows σ = (σ', Raise e) →
  dirs σ' = dirs σ ∧
  ∀ q, q ≠ with_suffix path ".tmp" → files σ' !! q = files σ !! q.
Proof.
  unfold _write_csv. set (tmp := with_suffix path ".tmp"). intros H.
  assert (touches_only tmp (open_w tmp)) as T1 by apply touches_only_open_w.
  assert (touches_only tmp (writeheader tmp columns)) as T2
    by apply touches_only_write_line.
  assert (touches_only tmp (writerows tmp columns rows)) as T3
    by apply touches_only_writerows.
  apply io_bind_inv in H as [(? & H & _)|([] & σ1 & H1 & H)]; [by apply T1 in H|].
  apply T1 in H1 as [Hd1 Hf1].
  apply io_bind_inv in H as [(? & H & _)|([] & σ2 & H2 & H)].
  { apply T2 in H as [Hd Hf]. split; [congruence|].
    intros q Hq. rewrite Hf, Hf1; done. }
  apply T2 in H2 as [Hd2 Hf2].
  apply io_bind_inv in H as [(? & H & _)|([] & σ3 & H3 & H)].
  { apply T3 in H as [Hd Hf]. split; [congruence|].
    intros q Hq. rewrite Hf, Hf2, Hf1; done. }
  apply T3 in H3 as [Hd3 Hf3].
  apply replace_raise in H as [Hd Hf]. split; [congruence|].
  intros q Hq. rewrite Hf, Hf3, Hf2, Hf1; done.
Qed.

(** A write that returns has put the whole table, header first, under
    the final path, and the temporary file is gone. *)
Lemma write_csv_ok path columns rows σ σ' :
  _write_csv path columns rows σ = (σ', Ok tt) →
  ∃ lines,
    Forall2 (λ row line, dict_to_list columns row = Ok line) rows lines ∧
    files σ' !! path = Some (columns :: lines) ∧
    (∀ q, q ≠ with_suffix path ".tmp" → q ≠ path →
          files σ' !! q = files σ !! q) ∧
    (path ≠ with_suffix path ".tmp" →
     files σ' !! with_suffix path ".tmp" = None).
Proof.
  unfold _write_csv. set (tmp := with_suffix path ".tmp"). intros H.
  assert (touches_only tmp (open_w tmp)) as T1 by apply touches_only_open_w.
  assert (touches_only tmp (writeheader tmp columns)) as T2
    by apply touches_only_write_line.
  assert (touches_only tmp (writerows tmp columns rows)) as T3
    by apply touches_only_writerows.
  apply io_bind_inv in H as [(? & _ & [=])|([] & σ1 & H1 & H)].
  apply io_bind_inv in H as [(? & _ & [=])|([] & σ2 & H2 & H)].
  apply io_bind_inv in H as [(? & _ & [=])|([] & σ3 & H3 & H)].
  assert (files σ2 !! tmp = Some [columns]) as Htmp2.
  { unfold open_w in H1.
    apply io_bind_inv in H1 as [(? & _ & [=])|([] & σ0 & _ & H1)].
    simpl in H1. destruct (decide _); [|done]. injection H1 as <-.
    unfold writeheader, write_line in H2.
    apply io_bind_inv in H2 as [(? & _ & [=])|([] & σ0' & H0 & H2)].
    injection H2 as <-. simpl.
    assert (files σ0' = <[tmp:=[]]> (files σ0)) as ->.
    { unfold tick in H0. simpl in H0.
      destruct (budget σ0) as [[|n]|]; by simplify_eq. }
    by rewrite lookup_alter_eq, lookup_insert_eq. }
  destruct (writerows_ok _ _ _ _ _ _ H3 Htmp2) as (lines & Hrows & Htmp3).
  exists lines. split; [done|].
  apply T1 in H1 as [_ Hf1]. apply T2 in H2 as [_ Hf2].
  apply T3 in H3 as [_ Hf3].
  unfold replace in H.
  apply io_bind_inv in H as [(? & _ & [=])|([] & σ4 & H4 & H)].
  assert (files σ4 = files σ3) as Hf4.
  { unfold tick in H4. destruct (budget σ3) as [[|n]|]; by simplify_eq. }
  simpl in H. rewrite Hf4, Htmp3 in H. injection H as <-. simpl.
  split; [by rewrite lookup_insert_eq|]. split.
  - intros q Hq1 Hq2.
    rewrite lookup_insert_ne, lookup_delete_ne, Hf3, Hf2, Hf1 by done. done.
  - intros Hne. by rewrite lookup_insert_ne, lookup_delete_eq.
Qed.

End WriteCsv.

(** ** Rows of a three-column table *)

Section Row3.
Import Csv.
Context (k1 k2 k3 : string).
Hypothesis (H12 : k1 ≠ k2) (H13 : k1 ≠ k3) (H23 : k2 ≠ k3).

Lemma dict_of_line3 (a b c : string) :
  dict_of_line [k1; k2; k3] [a; b; c] = row3 k1 k2 k3 (Some a) (Some b) (Some c).
Proof. reflexivity. Qed.

Lemma dict3 (a b c : pyval) :
  dict [(k1, a); (k2, b); (k3, c)] = row3 k1 k2 k3 a b c.
Proof. reflexivity. Qed.

Lemma getitem_row3_1 a b c : getitem (row3 k1 k2 k3 a b c) k1 = Ok a.
Proof. unfold getitem, row3; simpl. by simplify_map_eq. Qed.

Lemma setitem_row3_1 v a b c :
  setitem k1 v (row3 k1 k2 k3 a b c) = row3 k1 k2 k3 v b c.
Proof.
  unfold setitem, row3; simpl. f_equal.
  apply map_eq; intros k.
  destruct (decide (k = k1)) as [->|]; [by simplify_map_eq|].
  destruct (decide (k = k2)) as [->|]; [by simplify_map_eq|].
  destruct (decide (k = k3)) as [->|]; by simplify_map_eq.
Qed.

Lemma setitem_row3_2 v a b c :
  setitem k2 v (row3 k1 k2 k3 a b c) = row3 k1 k2 k3 a v c.
Proof.
  unfold setitem, row3; simpl. f_equal.
  apply map_eq; intros k.
  destruct (decide (k = k1)) as [->|]; [by simplify_map_eq|].
  destruct (decide (k = k2)) as [->|]; [by simplify_map_eq|].
  destruct (decide (k = k3)) as [->|]; by simplify_map_eq.
Qed.

Lemma setitem_row3_3 v a b c :
  setitem k3 v (row3 k1 k2 k3 a b c) = row3 k1 k2 k3 a b v.
Proof.
  unfold setitem, row3; simpl. f_equal.
  apply map_eq; intros k.
  destruct (decide (k = k1)) as [->|]; [by simplify_map_eq|].
  destruct (decide (k = k2)) as [->|]; [by simplify_map_eq|].
  destruct (decide (k = k3)) as [->|]; by simplify_map_eq.
Qed.

Lemma getitem_row3 a b c :
  getitem (row3 k1 k2 k3 a b c) k1 = Ok a ∧
  getitem (row3 k1 k2 k3 a b c) k2 = Ok b ∧
  getitem (row3 k1 k2 k3 a b c) k3 = Ok c.
Proof. unfold getitem, row3; simpl. by simplify_map_eq. Qed.

Lemma get_row3 a b c dflt :
  get (row3 k1 k2 k3 a b c) k1 dflt = a ∧
  get (row3 k1 k2 k3 a b c) k2 dflt = b ∧
  get (row3 k1 k2 k3 a b c) k3 dflt = c.
Proof. unfold get, row3; simpl. by simplify_map_eq. Qed.

Lemma dict_to_list_row3 a b c :
  dict_to_list [k1; k2; k3] (row3 k1 k2 k3 a b c)
  = Ok [cell_str a; cell_str b; cell_str c].
Proof.
  unfold dict_to_list. rewrite decide_True.
  - cbn [fmap list_fmap].
    destruct (get_row3 a b c (Some "")) as (-> & -> & ->). done.
  - split; [|done]. unfold row3; simpl. rewrite !dom_insert_L. set_solver.
Qed.

(** Reading back what the writer wrote for a conforming line gives the
    line. *)
Lemma dict_to_list_of_line (l : list string) :
  length l = 3 →
  dict_to_list [k1; k2; k3] (dict_of_line [k1; k2; k3] l) = Ok l.
Proof.
  destruct l as [|a [|b [|c [|]]]]; try done. intros _.
  rewrite dict_of_line3. apply dict_to_list_row3.
Qed.

Lemma DictReader_conforms (g : Grid) :
  conforms [k1; k2; k3] g →
  DictReader g = dict_of_line [k1; k2; k3] <$> table_lines (Some g).
Proof.
  intros (lines & -> & Hl). simpl. f_equal.
  induction Hl as [|l lines Hlen _ IH]; [done|].
  rewrite filter_cons_True; [by f_equal|].
  by destruct l.
Qed.

End Row3.

(** ** Creating a missing table file *)

Section Ensure.
Import Csv Fs.

(** Both [_ensure_log_file] and [_ensure_orders_log] are this sequence. *)
Lemma ensure_run (p : Path) (columns : list string) ds fs :
  (_ ← mkdir (parent p); e ← exists_ p;
   if (e : bool) then mret tt
   else _ ← open_w p; writeheader p columns) (mkSys ds fs None)
  = (mkSys ({[parent p]} ∪ ds)
       (match fs !! p with
        | Some _ => fs
        | None => <[p := [columns]]> fs
        end) None, Ok tt).
Proof.
  rewrite io_bind_unfold, mkdir_run, io_bind_unfold. unfold exists_. simpl.
  destruct (fs !! p) as [g|] eqn:Hp.
  - rewrite bool_decide_true by eauto. done.
  - rewrite bool_decide_false by (by intros [??]).
    rewrite io_bind_unfold, open_w_run by set_solver.
    unfold writeheader. rewrite write_line_run. do 3 f_equal.
    apply map_eq. intros q. destruct (decide (p = q)) as [->|Hq].
    + by rewrite lookup_alter_eq, !lookup_insert_eq.
    + by rewrite lookup_alter_ne, !lookup_insert_ne.
Qed.

(** Whatever the disk does, the sequence leaves an existing file alone. *)
Lemma ensure_keeps (p : Path) (columns : list string) σ σ' r g :
  (_ ← mkdir (parent p); e ← exists_ p;
   if (e : bool) then mret tt
   else _ ← open_w p; writeheader p columns) σ = (σ', r) →
  files σ !! p = Some g →
  files σ' = files σ.
Proof.
  intros H Hp.
  apply io_bind_inv in H as [(e & H & _)|([] & σ1 & H1 & H)].
  - unfold mkdir in H. rewrite io_bind_unfold in H. unfold tick in H.
    destruct (budget σ) as [[|n]|]; by simplify_eq.
  - assert (files σ1 = files σ) as Hf1.
    { unfold mkdir in H1. rewrite io_bind_unfold in H1. unfold tick in H1.
      destruct (budget σ) as [[|n]|]; by simplify_eq. }
    rewrite io_bind_unfold in H. unfold exists_ in H.
    rewrite Hf1, bool_decide_true in H by eauto.
    by injection H as <- _.
Qed.

End Ensure.

(** ** The flush of the day *)

Section Flush.
Import Csv Fs Tracker.

Lemma conforming_rows_write k1 k2 k3 (lines : list (list string)) :
  k1 ≠ k2 → k1 ≠ k3 → k2 ≠ k3 →
  Forall (λ l, length l = 3) lines →
  Forall2 (λ row line, dict_to_list [k1; k2; k3] row = Ok line)
    (dict_of_line [k1; k2; k3] <$> lines) lines.
Proof.
  intros ??? Hl. induction Hl as [|l lines Hlen _ IH]; constructor; [|done].
  by apply dict_to_list_of_line.
Qed.

Lemma update_today_conforms date first last (lines : list (list string)) :
  Forall (λ l, length l = 3) lines →
  ∃ rows updated,
    update_today date first last (dict_of_line CSV_COLUMNS <$> lines)
    = Ok (rows, updated) ∧
    Forall2 (λ row line, dict_to_list CSV_COLUMNS row = Ok line)
      (if (updated : bool) then rows
       else rows ++ [dict [("Date", Some date);
                           ("First Activity", Some (_fmt first));
                           ("Last Activity", Some (_fmt last))]])
      (flush_lines date (_fmt first) (_fmt last) lines).
Proof.
  intros Hl. induction Hl as [|l lines Hlen Hl IH].
  - exists [], false. split; [done|]. simpl. constructor; [|done].
    unfold CSV_COLUMNS. rewrite dict3. by apply dict_to_list_row3.
  - destruct l as [|a [|b [|c [|]]]]; try done.
    destruct IH as (rows & updated & Hup & Hrows).
    rewrite fmap_cons. unfold CSV_COLUMNS in *. rewrite dict_of_line3.
    cbn [update_today flush_lines line_date head].
    rewrite getitem_row3_1 by done. cbn [mbind result_mbind result_bind].
    destruct (decide (a = date)) as [->|Hne].
    + rewrite !decide_True by done.
      eexists _, true. split; [done|]. constructor.
      * rewrite setitem_row3_2, setitem_row3_3 by done.
        by rewrite dict_to_list_row3.
      * by apply conforming_rows_write.
    + rewrite !decide_False by congruence.
      rewrite Hup. cbn [mbind result_mbind result_bind].
      eexists _, updated. split; [done|].
      assert (dict_to_list ["Date"; "First Activity"; "Last Activity"]
                (row3 "Date" "First Activity" "Last Activity"
                   (Some a) (Some b) (Some c)) = Ok [a; b; c]) as Hrow
        by (by rewrite dict_to_list_row3).
      destruct updated; simpl; by constructor.
Qed.

(** The write at the end of [_flush_today] is the sequence of
    [_write_csv]. *)
Lemma flush_write_run rows lines ds fs :
  parent LOG_FILE ∈ ds →
  Forall2 (λ row line, dict_to_list CSV_COLUMNS row = Ok line) rows lines →
  (let tmp := with_suffix LOG_FILE ".tmp" in
   _ ← open_w tmp;
   _ ← writeheader tmp CSV_COLUMNS;
   _ ← writerows tmp CSV_COLUMNS rows;
   replace tmp LOG_FILE) (mkSys ds fs None)
  = (mkSys ds (<[LOG_FILE := CSV_COLUMNS :: lines]>
                 (delete (with_suffix LOG_FILE ".tmp") fs)) None, Ok tt).
Proof. apply (write_csv_run LOG_FILE CSV_COLUMNS). Qed.

(** [_flush_today] on a disk that does not fail and an activity table
    that is missing or conforms to its schema. *)
Lemma flush_today_run st ds fs :
  _current_date st ≠ "" →
  table_ok CSV_COLUMNS (fs !! LOG_FILE) →
  _flush_today st (mkSys ds fs None)
  = (mkSys ({[LOG_DIR]} ∪ ds)
       (<[LOG_FILE := CSV_COLUMNS ::
            flush_lines (_current_date st) (_fmt (_first_activity st))
              (_fmt (_last_activity st)) (table_lines (fs !! LOG_FILE))]>
          (delete (with_suffix LOG_FILE ".tmp") fs)) None, Ok tt).
Proof.
  intros Hdate Hok. unfold _flush_today. rewrite decide_False by done.
  rewrite io_bind_unfold. unfold _ensure_log_file.
  rewrite (ensure_run LOG_FILE CSV_COLUMNS).
  set (fs1 := match fs !! LOG_FILE with Some _ => fs | None => _ end).
  assert (∃ lines, fs1 !! LOG_FILE = Some (CSV_COLUMNS :: lines) ∧
            lines = table_lines (fs !! LOG_FILE) ∧
            Forall (λ l, length l = 3) lines) as (lines & Hfs1 & Hlines & Hlen).
  { subst fs1. destruct (fs !! LOG_FILE) as [g|] eqn:Hg.
    - destruct Hok as (lines & -> & Hl). by exists lines.
    - exists []. by rewrite lookup_insert_eq. }
  rewrite io_bind_unfold. unfold exists_ at 1. cbn [files].
  rewrite bool_decide_true by (rewrite Hfs1; eauto).
  rewrite io_bind_unfold, io_bind_unfold. unfold read_grid at 1. cbn [files].
  rewrite Hfs1. cbn [mret io_ret].
  rewrite (DictReader_conforms "Date" "First Activity" "Last Activity")
    by (by exists lines).
  cbn [table_lines].
  destruct (update_today_conforms (_current_date st) (_first_activity st)
              (_last_activity st) lines Hlen) as (rows & updated & Hup & Hrows).
  rewrite io_bind_unfold. unfold lift at 1. fold CSV_COLUMNS. rewrite Hup.
  etrans.
  { exact (flush_write_run _ _ ({[LOG_DIR]} ∪ ds) fs1 ltac:(set_solver) Hrows). }
  rewrite <-Hlines. do 2 f_equal.
  apply map_eq. intros q. subst fs1.
  destruct (decide (q = LOG_FILE)) as [->|Hq]; [by rewrite !lookup_insert_eq|].
  rewrite !lookup_insert_ne by done.
  destruct (decide (q = with_suffix LOG_FILE ".tmp")) as [->|Hq'];
    [by rewrite !lookup_delete_eq|].
  rewrite !lookup_delete_ne by done.
  destruct (fs !! LOG_FILE); [done|]. by rewrite lookup_insert_ne.
Qed.

End Flush.

(** ** Rollover *)

Section Rollover.
Import Csv Fs Tracker.

Lemma flush_lines_elem date first last lines :
  [date; first; last] ∈ flush_lines date first last lines.
Proof.
  induction lines as [|l lines IH]; simpl; [set_solver|].
  destruct (decide _); set_solver.
Qed.

Lemma flush_lines_others date first last lines :
  filter (λ l, line_date l ≠ Some date) (flush_lines date first last lines)
  = filter (λ l, line_date l ≠ Some date) lines.
Proof.
  induction lines as [|l lines IH]; simpl.
  - by rewrite filter_cons_False, filter_nil by (simpl; naive_solver).
  - destruct (decide _) as [Hd|Hd].
    + rewrite !filter_cons_False; simpl; naive_solver.
    + rewrite !filter_cons_True by done. by f_equal.
Qed.

(** Two events of one day and a flush: the line of the day holds the
    time of the first and of the second, and the line of another day is
    as it was. *)
Example flush_after_two_events :
  let t1 := mkDatetime 2024 6 3 9 2 11 0 in
  let t2 := mkDatetime 2024 6 3 9 2 45 0 in
  let p := mkProc (mkState "2024-06-03" None None) "2024-06-03" in
  let σ := mkSys {[LOG_DIR]}
             {[LOG_FILE := [CSV_COLUMNS; ["2024-06-02"; "08:00:00"; "17:00:00"]]]}
             None in
  files (run [Activity t1; Activity t2; FlushTimer] p σ).1 !! LOG_FILE
  = Some [CSV_COLUMNS; ["2024-06-02"; "08:00:00"; "17:00:00"];
          ["2024-06-03"; "09:02:11"; "09:02:45"]].
Proof. by vm_compute. Qed.

(** The path through the rollover detector: when the detector sees the
    date change while the state still holds the previous day, that day's
    first and last times as they stand are written under its date, every
    other day's line stays as it was, the state is reset to the new date
    with both timestamps unset, and the next event of the new day sets
    both to its own time. *)
Lemma date_check_flushes_then_resets now st lkd ds fs :
  strftime_date now ≠ lkd →
  _current_date st ≠ "" →
  table_ok CSV_COLUMNS (fs !! LOG_FILE) →
  ∃ σ' lines',
    _date_rollover_check now st lkd (mkSys ds fs None)
    = (σ', Ok (mkState (strftime_date now) None None, strftime_date now)) ∧
    files σ' !! LOG_FILE = Some (CSV_COLUMNS :: lines') ∧
    [_current_date st; _fmt (_first_activity st); _fmt (_last_activity st)]
      ∈ lines' ∧
    filter (λ l, line_date l ≠ Some (_current_date st)) lines'
    = filter (λ l, line_date l ≠ Some (_current_date st))
        (table_lines (fs !! LOG_FILE)) ∧
    ∀ now', strftime_date now' = strftime_date now →
      _record_activity now' (mkState (strftime_date now) None None)
      = mkState (strftime_date now) (Some now') (Some now').
Proof.
  intros Hnew Hdate Hok. unfold _date_rollover_check.
  rewrite decide_True by done.
  rewrite io_bind_unfold, flush_today_run by done.
  eexists _, _. split; [done|]. cbn [files].
  split; [by rewrite lookup_insert_eq|].
  split; [apply flush_lines_elem|].
  split; [apply flush_lines_others|].
  intros now' Hnow'. unfold _record_activity. cbn [_current_date].
  rewrite decide_False by (by intros []). done.
Qed.

(** Claim C1, at the input where the code departs from it.  The state
    holds 2024-06-03 with first 09:02:11 and last 17:30:00; the table on
    disk has that day's line from an earlier flush, with last 17:15:00.
    An input event stamped 2024-06-04 00:00:05 arrives before the rollover
    detector's next check at 00:00:40.  The event resets the state to the
    new day without a flush, so the detector then flushes the new day: the
    line of 2024-06-03 still shows 17:15:00, and nothing wrote 17:30:00.
    Had the detector run first, the line would show 17:30:00.  The
    detector's reset also unsets the pair the event had started for the
    new day, so after an event at 08:00:00 and a flush the line of
    2024-06-04 shows 08:00:00 as its first activity. *)
Theorem event_rollover_drops_previous_day :
  let first := mkDatetime 2024 6 3 9 2 11 0 in
  let last := mkDatetime 2024 6 3 17 30 0 0 in
  let event := mkDatetime 2024 6 4 0 0 5 0 in
  let check := mkDatetime 2024 6 4 0 0 40 0 in
  let later := mkDatetime 2024 6 4 8 0 0 0 in
  let p := mkProc (mkState "2024-06-03" (Some first) (Some last)) "2024-06-03" in
  let σ := mkSys {[LOG_DIR]}
             {[LOG_FILE := [CSV_COLUMNS; ["2024-06-03"; "09:02:11"; "17:15:00"]]]}
             None in
  (let '(σ', r) := run [Activity event; DateCheck check] p σ in
   (files σ' !! LOG_FILE, r))
  = (Some [CSV_COLUMNS;
           ["2024-06-03"; "09:02:11"; "17:15:00"];
           ["2024-06-04"; "00:00:05"; "00:00:05"]],
     Ok (mkProc (mkState "2024-06-04" None None) "2024-06-04")) ∧
  (let '(σ', r) := run [DateCheck check; Activity event] p σ in
   (files σ' !! LOG_FILE, r))
  = (Some [CSV_COLUMNS; ["2024-06-03"; "09:02:11"; "17:30:00"]],
     Ok (mkProc (mkState "2024-06-04" (Some event) (Some event)) "2024-06-04")) ∧
  files (run [Activity event; DateCheck check; Activity later; FlushTimer]
           p σ).1 !! LOG_FILE
  = Some [CSV_COLUMNS;
          ["2024-06-03"; "09:02:11"; "17:15:00"];
          ["2024-06-04"; "08:00:00"; "08:00:00"]].
Proof. repeat split; vm_compute; reflexivity. Qed.

End Rollover.

(** ** The upsert into the orders table *)

Section Upsert.
Import Csv Fs ShipStation.

Lemma set_field_row field v a b c :
  field ∈ ORDERS_COLUMNS →
  dict_to_list ORDERS_COLUMNS
    (setitem field (Some v)
       (row3 "Date" "Outstanding Orders" "Shipped Today"
          (Some a) (Some b) (Some c)))
  = Ok (set_field field v [a; b; c]).
Proof.
  unfold ORDERS_COLUMNS. rewrite !elem_of_cons, elem_of_nil.
  intros [->|[->|[->|[]]]].
  - by rewrite setitem_row3_1, dict_to_list_row3.
  - by rewrite setitem_row3_2, dict_to_list_row3.
  - by rewrite setitem_row3_3, dict_to_list_row3.
Qed.

Lemma upsert_rows_conforms today field v (lines : list (list string)) :
  field ∈ ORDERS_COLUMNS →
  Forall (λ l, length l = 3) lines →
  let rows := dict_of_line ORDERS_COLUMNS <$> lines in
  let new := dict [("Date", Some today); ("Outstanding Orders", Some "");
                   ("Shipped Today", Some "")] in
  ∃ found,
    find_row today rows = Ok found ∧
    Forall2 (λ row line, dict_to_list ORDERS_COLUMNS row = Ok line)
      (match found with
       | Some i => alter (setitem field (Some v)) i rows
       | None => alter (setitem field (Some v)) (length rows) (rows ++ [new])
       end)
      (upsert_lines today field v lines).
Proof.
  intros Hfield Hl. induction Hl as [|l lines Hlen Hl IH]; intros rows new.
  - exists None. split; [done|]. simpl. constructor; [|done].
    subst new. rewrite dict3. by apply set_field_row.
  - destruct l as [|a [|b [|c [|]]]]; try done.
    destruct IH as (found & Hfind & Hrows).
    subst rows. rewrite fmap_cons.
    change (dict_of_line ORDERS_COLUMNS [a; b; c])
      with (row3 "Date" "Outstanding Orders" "Shipped Today"
              (Some a) (Some b) (Some c)).
    cbn [find_row upsert_lines line_date head].
    rewrite getitem_row3_1 by done. cbn [mbind result_mbind result_bind].
    destruct (decide (a = today)) as [->|Hne].
    + rewrite !decide_True by done.
      exists (Some 0). split; [done|]. simpl. constructor.
      * by apply set_field_row.
      * by apply conforming_rows_write.
    + rewrite !decide_False by congruence.
      rewrite Hfind. cbn [mbind result_mbind result_bind].
      exists (S <$> found). split; [done|].
      assert (dict_to_list ORDERS_COLUMNS
                (row3 "Date" "Outstanding Orders" "Shipped Today"
                   (Some a) (Some b) (Some c)) = Ok [a; b; c]) as Hrow
        by (by unfold ORDERS_COLUMNS; rewrite dict_to_list_row3).
      destruct found; simpl; by constructor.
Qed.

(** [_upsert_orders_row] on a disk that does not fail and an orders table
    that is missing or conforms to its schema. *)
Lemma upsert_orders_row_run today field value ds fs :
  field ∈ ORDERS_COLUMNS →
  table_ok ORDERS_COLUMNS (fs !! ORDERS_LOG) →
  _upsert_orders_row today field value (mkSys ds fs None)
  = (mkSys ({[LOG_DIR]} ∪ ds)
       (<[ORDERS_LOG := ORDERS_COLUMNS ::
            upsert_lines today field (pretty value)
              (table_lines (fs !! ORDERS_LOG))]>
          (delete (with_suffix ORDERS_LOG ".tmp") fs)) None, Ok tt).
Proof.
  intros Hfield Hok. unfold _upsert_orders_row.
  rewrite io_bind_unfold. unfold _ensure_orders_log.
  rewrite (ensure_run ORDERS_LOG ORDERS_COLUMNS).
  set (fs1 := match fs !! ORDERS_LOG with Some _ => fs | None => _ end).
  assert (∃ lines, fs1 !! ORDERS_LOG = Some (ORDERS_COLUMNS :: lines) ∧
            lines = table_lines (fs !! ORDERS_LOG) ∧
            Forall (λ l, length l = 3) lines) as (lines & Hfs1 & Hlines & Hlen).
  { subst fs1. destruct (fs !! ORDERS_LOG) as [g|] eqn:Hg.
    - destruct Hok as (lines & -> & Hl). by exists lines.
    - exists []. by rewrite lookup_insert_eq. }
  rewrite io_bind_unfold. unfold _read_csv at 1.
  rewrite io_bind_unfold. unfold exists_ at 1. cbn [files].
  rewrite bool_decide_true by (rewrite Hfs1; eauto).
  rewrite io_bind_unfold. unfold read_grid at 1. cbn [files].
  rewrite Hfs1. cbn [mret io_ret].
  rewrite (DictReader_conforms "Date" "Outstanding Orders" "Shipped Today")
    by (by exists lines).
  cbn [table_lines]. fold ORDERS_COLUMNS.
  destruct (upsert_rows_conforms today field (pretty value) lines Hfield Hlen)
    as (found & Hfind & Hrows).
  rewrite io_bind_unfold. unfold lift at 1. rewrite Hfind.
  etrans.
  { destruct found as [i|];
      exact (write_csv_run ORDERS_LOG ORDERS_COLUMNS _ _ ({[LOG_DIR]} ∪ ds) fs1
               ltac:(set_solver) Hrows). }
  rewrite <-Hlines. do 2 f_equal.
  apply map_eq. intros q. subst fs1.
  destruct (decide (q = ORDERS_LOG)) as [->|Hq]; [by rewrite !lookup_insert_eq|].
  rewrite !lookup_insert_ne by done.
  destruct (decide (q = with_suffix ORDERS_LOG ".tmp")) as [->|Hq'];
    [by rewrite !lookup_delete_eq|].
  rewrite !lookup_delete_ne by done.
  destruct (fs !! ORDERS_LOG); [done|]. by rewrite lookup_insert_ne.
Qed.

End Upsert.

(** ** Reading a conforming table *)

Section Reading.
Import Csv Fs ShipStation.
Context (k2 k3 : string).
Hypothesis (H12 : "Date" ≠ k2) (H13 : "Date" ≠ k3) (H23 : k2 ≠ k3).

Lemma read_csv_conforms (p : Path) (columns : list string) σ :
  table_ok ["Date"; k2; k3] (files σ !! p) →
  _read_csv p columns σ
  = (σ, Ok (dict_of_line ["Date"; k2; k3] <$> table_lines (files σ !! p))).
Proof.
  intros Hok. unfold _read_csv. rewrite io_bind_unfold. unfold exists_ at 1.
  destruct (files σ !! p) as [g|] eqn:Hg.
  - rewrite bool_decide_true by eauto.
    rewrite io_bind_unfold. unfold read_grid. rewrite Hg.
    cbn [mret io_ret]. by rewrite (DictReader_conforms "Date" k2 k3).
  - rewrite bool_decide_false by (by intros [??]). done.
Qed.

(** The records of a date are the lines of that date. *)
Lemma filter_date_rows D (lines : list (list string)) :
  Forall (λ l, length l = 3) lines →
  filter (λ r, getitem r "Date" = Ok (Some D))
    (dict_of_line ["Date"; k2; k3] <$> lines)
  = dict_of_line ["Date"; k2; k3] <$> filter (λ l, line_date l = Some D) lines.
Proof.
  intros Hl. induction Hl as [|l lines Hlen _ IH]; [done|].
  destruct l as [|a [|b [|c [|]]]]; try done.
  rewrite fmap_cons, dict_of_line3.
  destruct (decide (a = D)) as [->|Hne].
  - rewrite !filter_cons_True, fmap_cons, IH; [done..|].
    by rewrite getitem_row3_1.
  - rewrite !filter_cons_False; [done|simpl; congruence|].
    rewrite getitem_row3_1 by done. congruence.
Qed.

Lemma filter_other_rows D (lines : list (list string)) :
  Forall (λ l, length l = 3) lines →
  filter (λ r, getitem r "Date" ≠ Ok (Some D))
    (dict_of_line ["Date"; k2; k3] <$> lines)
  = dict_of_line ["Date"; k2; k3]
      <$> filter (λ l, line_date l ≠ Some D) lines.
Proof.
  intros Hl. induction Hl as [|l lines Hlen _ IH]; [done|].
  destruct l as [|a [|b [|c [|]]]]; try done.
  rewrite fmap_cons, dict_of_line3.
  destruct (decide (a = D)) as [->|Hne].
  - rewrite !filter_cons_False; [done|simpl; naive_solver|].
    rewrite getitem_row3_1 by done. naive_solver.
  - rewrite !filter_cons_True, fmap_cons, IH; [done|simpl; congruence|].
    rewrite getitem_row3_1 by done. congruence.
Qed.

End Reading.

(** ** Two upserts for one date *)

Section UpsertTwice.
Import Csv Fs ShipStation.

Lemma set_field_length field v l : length (set_field field v l) = length l.
Proof.
  unfold set_field. destruct (list_find _ _) as [[i ?]|]; [|done].
  apply length_insert.
Qed.

(** A field other than the date leaves the date of the line. *)
Lemma set_field_date field v l :
  field ∈ value_fields → length l = 3 →
  line_date (set_field field v l) = line_date l.
Proof.
  unfold value_fields. rewrite !elem_of_cons, elem_of_nil.
  destruct l as [|a [|b [|c [|]]]]; try done.
  by intros [->|[->|[]]] _.
Qed.

Lemma upsert_lines_conforms D field v lines :
  Forall (λ l, length l = 3) lines →
  Forall (λ l, length l = 3) (upsert_lines D field v lines).
Proof.
  intros Hl. induction Hl as [|l lines Hlen Hl IH]; simpl.
  - constructor; [|done]. by rewrite set_field_length.
  - destruct (decide _); constructor; try done. by rewrite set_field_length.
Qed.

Lemma upsert_lines_others D field v lines :
  field ∈ value_fields →
  Forall (λ l, length l = 3) lines →
  filter (λ l, line_date l ≠ Some D) (upsert_lines D field v lines)
  = filter (λ l, line_date l ≠ Some D) lines.
Proof.
  intros Hf Hl. induction Hl as [|l lines Hlen Hl IH]; simpl.
  - rewrite filter_cons_False; [done|].
    rewrite set_field_date by done. simpl. naive_solver.
  - destruct (decide _) as [Hd|Hd].
    + rewrite !filter_cons_False; [done|naive_solver|].
      rewrite set_field_date by done. naive_solver.
    + rewrite !filter_cons_True by done. by f_equal.
Qed.

Lemma upsert_lines_date D field v lines :
  field ∈ value_fields →
  Forall (λ l, length l = 3) lines →
  filter (λ l, line_date l = Some D) (upsert_lines D field v lines)
  = match filter (λ l, line_date l = Some D) lines with
    | [] => [set_field field v [D; ""; ""]]
    | l :: ls => set_field field v l :: ls
    end.
Proof.
  intros Hf Hl. induction Hl as [|l lines Hlen Hl IH]; simpl.
  - rewrite filter_cons_True; [done|]. by rewrite set_field_date.
  - destruct (decide _) as [Hd|Hd].
    + rewrite !filter_cons_True; [done..|]. by rewrite set_field_date.
    + rewrite !filter_cons_False by done. done.
Qed.

End UpsertTwice.

Section UpsertClaim.
Import Csv Fs ShipStation.

(** Claim C2.  Take an orders table that is missing or conforms to its
    schema and holds at most one record of the date [D], a disk that does
    not fail, and two distinct fields [A] and [B] of an orders record.
    Upserting [A] for [D] and then [B] for [D] succeeds, and reading the
    table back yields exactly one record of date [D], in which [A] and [B]
    hold the two values as written; the records of every other date are
    the ones read before the two upserts, and so are the lines of the
    file. *)
Theorem upsert_two_fields (D A B : string) (va vb : Z) ds fs :
  A ∈ value_fields → B ∈ value_fields → A ≠ B →
  table_ok ORDERS_COLUMNS (fs !! ORDERS_LOG) →
  (length (filter (λ l, line_date l = Some D)
             (table_lines (fs !! ORDERS_LOG))) ≤ 1)%nat →
  ∃ σ' rows0 rows r,
    _read_csv ORDERS_LOG ORDERS_COLUMNS (mkSys ds fs None)
      = (mkSys ds fs None, Ok rows0) ∧
    (_ ← _upsert_orders_row D A va; _upsert_orders_row D B vb)
      (mkSys ds fs None) = (σ', Ok tt) ∧
    _read_csv ORDERS_LOG ORDERS_COLUMNS σ' = (σ', Ok rows) ∧
    filter (λ r, getitem r "Date" = Ok (Some D)) rows = [r] ∧
    getitem r A = Ok (Some (pretty va)) ∧
    getitem r B = Ok (Some (pretty vb)) ∧
    filter (λ r, getitem r "Date" ≠ Ok (Some D)) rows
      = filter (λ r, getitem r "Date" ≠ Ok (Some D)) rows0 ∧
    filter (λ l, line_date l ≠ Some D) (table_lines (files σ' !! ORDERS_LOG))
      = filter (λ l, line_date l ≠ Some D) (table_lines (fs !! ORDERS_LOG)).
Proof.
  intros HA HB HAB Hok Hone.
  assert (A ∈ ORDERS_COLUMNS ∧ B ∈ ORDERS_COLUMNS) as [HA' HB'].
  { revert HA HB. unfold value_fields, ORDERS_COLUMNS.
    rewrite !elem_of_cons. naive_solver. }
  set (L0 := table_lines (fs !! ORDERS_LOG)) in *.
  assert (Forall (λ l, length l = 3) L0) as Hlen0.
  { subst L0. destruct (fs !! ORDERS_LOG) as [g|]; [|done].
    by destruct Hok as (lines & -> & Hl). }
  set (L1 := upsert_lines D A (pretty va) L0).
  set (L2 := upsert_lines D B (pretty vb) L1).
  assert (Forall (λ l, length l = 3) L1) as Hlen1
    by by apply upsert_lines_conforms.
  assert (Forall (λ l, length l = 3) L2) as Hlen2
    by by apply upsert_lines_conforms.
  set (tmp := with_suffix ORDERS_LOG ".tmp").
  set (fs1 := <[ORDERS_LOG := ORDERS_COLUMNS :: L1]> (delete tmp fs)).
  set (fs2 := <[ORDERS_LOG := ORDERS_COLUMNS :: L2]> (delete tmp fs1)).
  (* the records of date [D] after the two upserts *)
  assert (∃ b c, filter (λ l, line_date l = Some D) L2
                 = [set_field B (pretty vb) (set_field A (pretty va) [D; b; c])])
    as (b & c & HD2).
  { subst L2. rewrite upsert_lines_date by done.
    subst L1. rewrite upsert_lines_date by done.
    destruct (filter _ L0) as [|l [|l' ls]] eqn:HD0; [by exists "", ""| |simpl in Hone; lia].
    assert (l ∈ filter (λ l, line_date l = Some D) L0) as Hl
      by (rewrite HD0; set_solver).
    apply list_elem_of_filter in Hl as [Hd Hl].
    rewrite Forall_forall in Hlen0. apply Hlen0 in Hl.
    destruct l as [|a [|b [|c [|]]]]; try done.
    simpl in Hd. injection Hd as ->. by exists b, c. }
  exists (mkSys ({[LOG_DIR]} ∪ ({[LOG_DIR]} ∪ ds)) fs2 None).
  exists (dict_of_line ORDERS_COLUMNS <$> L0).
  exists (dict_of_line ORDERS_COLUMNS <$> L2).
  exists (dict_of_line ORDERS_COLUMNS
            (set_field B (pretty vb) (set_field A (pretty va) [D; b; c]))).
  split.
  { by rewrite (read_csv_conforms "Outstanding Orders" "Shipped Today"). }
  split.
  { rewrite io_bind_unfold, upsert_orders_row_run by done.
    rewrite upsert_orders_row_run; [|done|].
    - rewrite lookup_insert_eq. done.
    - rewrite lookup_insert_eq. by exists L1. }
  split.
  { rewrite (read_csv_conforms "Outstanding Orders" "Shipped Today"); cbn [files].
    - subst fs2. by rewrite lookup_insert_eq.
    - subst fs2. rewrite lookup_insert_eq. by exists L2. }
  split.
  { unfold ORDERS_COLUMNS. rewrite filter_date_rows by done. by rewrite HD2. }
  split; [|split].
  - revert HA HB HAB. unfold value_fields. rewrite !elem_of_cons, !elem_of_nil.
    intros [->|[->|[]]] [->|[->|[]]] ?; try done;
      by apply (getitem_row3 "Date" "Outstanding Orders" "Shipped Today").
  - revert HA HB HAB. unfold value_fields. rewrite !elem_of_cons, !elem_of_nil.
    intros [->|[->|[]]] [->|[->|[]]] ?; try done;
      by apply (getitem_row3 "Date" "Outstanding Orders" "Shipped Today").
  - assert (filter (λ l, line_date l ≠ Some D) L2
            = filter (λ l, line_date l ≠ Some D) L0) as Hothers.
    { subst L2 L1. by rewrite !upsert_lines_others. }
    split.
    + unfold ORDERS_COLUMNS. rewrite !filter_other_rows by done.
      by rewrite Hothers.
    + cbn [files]. subst fs2. rewrite lookup_insert_eq. done.
Qed.

(** The table the program itself builds satisfies the hypothesis: an
    upsert keeps the schema, and never adds a second line for a date. *)
Lemma upsert_keeps_one_line_per_date D D' field v lines :
  field ∈ value_fields →
  Forall (λ l, length l = 3) lines →
  (length (filter (λ l, line_date l = Some D') lines) ≤ 1)%nat →
  (length (filter (λ l, line_date l = Some D')
             (upsert_lines D field v lines)) ≤ 1)%nat.
Proof.
  intros Hf Hl Hone. destruct (decide (D' = D)) as [->|Hne].
  - rewrite upsert_lines_date by done.
    destruct (filter _ lines) as [|l ls]; simpl in *; lia.
  - assert (filter (λ l, line_date l = Some D') (upsert_lines D field v lines)
            = filter (λ l, line_date l = Some D') lines) as ->; [|done].
    clear Hone. induction Hl as [|l lines Hlen Hl IH]; simpl.
    + rewrite filter_cons_False; [done|].
      rewrite set_field_date by done. simpl. congruence.
    + destruct (decide (line_date l = Some D)) as [Hd|Hd].
      * rewrite !filter_cons_False; [done|congruence|].
        rewrite set_field_date by done. congruence.
      * destruct (decide (line_date l = Some D')).
        -- rewrite !filter_cons_True by done. by f_equal.
        -- rewrite !filter_cons_False by done. done.
Qed.

(** The hypothesis on the date cannot be dropped: the upsert updates the
    first line of the date and keeps the others, so a file edited to hold
    two lines of one date still holds two afterwards. *)
Example upsert_keeps_duplicate_lines :
  let σ := mkSys {[LOG_DIR]}
             {[ORDERS_LOG := [ORDERS_COLUMNS; ["2024-06-03"; "7"; ""];
                              ["2024-06-03"; "8"; "1"]]]} None in
  let out := (_ ← _upsert_orders_row "2024-06-03" "Outstanding Orders" 5;
              _upsert_orders_row "2024-06-03" "Shipped Today" 12) σ in
  out.2 = Ok tt ∧
  files out.1 !! ORDERS_LOG
  = Some [ORDERS_COLUMNS; ["2024-06-03"; "5"; "12"]; ["2024-06-03"; "8"; "1"]].
Proof. split; by vm_compute. Qed.

Lemma upsert_two_fields_witness :
  let fs : gmap Path (list (list string)) :=
    {[ORDERS_LOG := [ORDERS_COLUMNS; ["2024-06-03"; "7"; ""]]]} in
  ∃ σ' rows0 rows r,
    _read_csv ORDERS_LOG ORDERS_COLUMNS (mkSys ∅ fs None)
      = (mkSys ∅ fs None, Ok rows0) ∧
    (_ ← _upsert_orders_row "2024-06-04" "Shipped Today" 12;
     _upsert_orders_row "2024-06-04" "Outstanding Orders" 5)
      (mkSys ∅ fs None) = (σ', Ok tt) ∧
    _read_csv ORDERS_LOG ORDERS_COLUMNS σ' = (σ', Ok rows) ∧
    filter (λ r, getitem r "Date" = Ok (Some "2024-06-04")) rows = [r] ∧
    getitem r "Shipped Today" = Ok (Some (pretty 12%Z)) ∧
    getitem r "Outstanding Orders" = Ok (Some (pretty 5%Z)) ∧
    filter (λ r, getitem r "Date" ≠ Ok (Some "2024-06-04")) rows
      = filter (λ r, getitem r "Date" ≠ Ok (Some "2024-06-04")) rows0 ∧
    filter (λ l, line_date l ≠ Some "2024-06-04")
      (table_lines (files σ' !! ORDERS_LOG))
      = filter (λ l, line_date l ≠ Some "2024-06-04")
          (table_lines (fs !! ORDERS_LOG)).
Proof.
  intros fs.
  apply (upsert_two_fields "2024-06-04" "Shipped Today" "Outstanding Orders"
           12 5 ∅ fs).
  - unfold value_fields. set_solver.
  - unfold value_fields. set_solver.
  - done.
  - subst fs. rewrite lookup_singleton_eq.
    eexists. split; [reflexivity|]. by repeat constructor.
  - subst fs. rewrite lookup_singleton_eq. simpl. vm_compute. lia.
Defined.

End UpsertClaim.

(** ** The combined view *)

Section Combined.
Import Csv Fs ShipStation.

(** The index by date holds, for each date, the last row of that date. *)
Lemma by_date_lookup rows : ∀ acc m,
  by_date rows acc = Ok m →
  ∀ d, m !! d = match last_of_date d rows with
                | Some r => Some r
                | None => acc !! d
                end.
Proof.
  unfold last_of_date.
  induction rows as [|r rows IH]; intros acc m H d.
  - by injection H as <-.
  - cbn [by_date] in H. destruct (getitem r "Date") as [d'|e] eqn:Hd; [|done].
    cbn [mbind result_mbind result_bind] in H.
    rewrite (IH _ _ H d).
    destruct (decide (d' = d)) as [->|Hne].
    + rewrite filter_cons_True, last_cons by done.
      destruct (last _); [done|]. by rewrite lookup_insert_eq.
    + rewrite filter_cons_False by congruence.
      destruct (last _); [done|]. by rewrite lookup_insert_ne.
Qed.

Lemma by_date_dom rows m d :
  by_date rows ∅ = Ok m →
  d ∈ dom m ↔ ∃ r, r ∈ rows ∧ getitem r "Date" = Ok d.
Proof.
  intros H. rewrite elem_of_dom, (by_date_lookup _ _ _ H d), lookup_empty.
  unfold last_of_date. split.
  - destruct (last _) as [r|] eqn:Hl; [|by intros [??]]. intros _.
    apply last_Some_elem_of, list_elem_of_filter in Hl. naive_solver.
  - intros (r & Hr & Hd).
    destruct (last _) as [r'|] eqn:Hl; [done|].
    apply last_None in Hl.
    assert (r ∈ filter (λ r, getitem r "Date" = Ok d) rows) as Hin
      by (by apply list_elem_of_filter).
    rewrite Hl in Hin. by apply elem_of_nil in Hin.
Qed.

(** [sorted] returns each date of the set once. *)
Lemma sorted_spec (s : gset pyval) l :
  sorted s = Ok l → NoDup l ∧ ∀ d, d ∈ l ↔ d ∈ s.
Proof.
  unfold sorted. destruct (decide (None ∈ s)) as [Hn|Hn].
  - destruct (decide (size s = 1)) as [H1|]; [|done]. intros [= <-].
    split; [apply NoDup_singleton|].
    apply size_1_elem_of in H1 as [x Hx]. intros d.
    rewrite list_elem_of_singleton. set_solver.
  - intros [= <-].
    assert (Some <$> omap id (elements s) = elements s) as Hel.
    { assert (None ∉ elements s) as Hn' by (by rewrite elem_of_elements).
      induction (elements s) as [|[x|] xs IH]; [done| |set_solver].
      simpl. f_equal. apply IH. set_solver. }
    assert (Some <$> merge_sort String.le (omap id (elements s))
            ≡ₚ elements s) as Hp.
    { rewrite <-Hel at 2. apply fmap_Permutation, merge_sort_Permutation. }
    split.
    + rewrite Hp. apply NoDup_elements.
    + intros d. rewrite Hp. apply elem_of_elements.
Qed.

(** Without [None] among the dates the sort succeeds, in the order of
    the strings. *)
Lemma sorted_strings (s : gset pyval) :
  None ∉ s →
  ∃ l, sorted s = Ok (Some <$> l) ∧ Sorted String.le l.
Proof.
  intros Hn. unfold sorted. rewrite decide_False by done.
  eexists. split; [done|]. apply Sorted_merge_sort, _.
Qed.

Lemma combined_row_line a o d :
  dict_to_list COMBINED_COLUMNS (combined_row a o d) = Ok (combined_line a o d).
Proof.
  unfold dict_to_list. rewrite decide_True.
  - unfold combined_row, combined_line, COMBINED_COLUMNS, dict, get at 1 2 3 4 5.
    cbn [foldl fst snd cells fmap list_fmap].
    by simplify_map_eq.
  - split; [|done]. unfold combined_row, dict. cbn [foldl fst snd cells].
    rewrite !dom_insert_L, dom_empty_L. unfold COMBINED_COLUMNS.
    cbn [list_to_set foldr]. set_solver.
Qed.

(** The rebuild on a disk that does not fail: the combined file is
    [combined_view] of the two source files, written through the temporary
    file; when the view raises, or the directory is missing, nothing is
    written. *)
Lemma rebuild_run ds fs :
  rebuild_combined_log (mkSys ds fs None)
  = match combined_view (fs !! ACTIVITY_LOG) (fs !! ORDERS_LOG) with
    | Ok g =>
        if decide (LOG_DIR ∈ ds)
        then (mkSys ds (<[COMBINED_LOG := g]>
                          (delete (with_suffix COMBINED_LOG ".tmp") fs)) None,
              Ok tt)
        else (mkSys ds fs None, Raise FileNotFoundError)
    | Raise e => (mkSys ds fs None, Raise e)
    end.
Proof.
  assert (∀ p columns, _read_csv p columns (mkSys ds fs None)
                       = (mkSys ds fs None, Ok (rows_of (fs !! p)))) as Hread.
  { intros p columns. unfold _read_csv. rewrite io_bind_unfold.
    unfold exists_ at 1. cbn [files].
    destruct (fs !! p) as [g|] eqn:Hg.
    - rewrite bool_decide_true by eauto.
      rewrite io_bind_unfold. unfold read_grid. cbn [files]. by rewrite Hg.
    - rewrite bool_decide_false by (by intros [??]). done. }
  unfold rebuild_combined_log.
  rewrite io_bind_unfold, Hread, io_bind_unfold, Hread, io_bind_unfold.
  unfold lift at 1, combine, combined_view.
  destruct (by_date (rows_of (fs !! ACTIVITY_LOG)) ∅) as [a|e]; [|done].
  cbn [mbind result_mbind result_bind].
  destruct (by_date (rows_of (fs !! ORDERS_LOG)) ∅) as [o|e]; [|done].
  cbn [mbind result_mbind result_bind].
  destruct (sorted _) as [all_dates|e]; [|done].
  cbn [mbind result_mbind result_bind].
  destruct (decide (LOG_DIR ∈ ds)) as [Hd|Hd].
  - apply write_csv_run; [done|].
    apply Forall2_fmap, Forall_Forall2_diag, Forall_forall.
    intros d _. apply combined_row_line.
  - unfold _write_csv. rewrite io_bind_unfold. unfold open_w.
    rewrite io_bind_unfold. cbn [tick budget].
    by rewrite decide_False.
Qed.

End Combined.

Section CombinedPure.
Import Csv Fs ShipStation.

Lemma rebuild_output ds fs σ' :
  rebuild_combined_log (mkSys ds fs None) = (σ', Ok tt) →
  ∃ g, combined_view (fs !! ACTIVITY_LOG) (fs !! ORDERS_LOG) = Ok g ∧
       LOG_DIR ∈ ds ∧
       σ' = mkSys ds (<[COMBINED_LOG := g]>
                        (delete (with_suffix COMBINED_LOG ".tmp") fs)) None.
Proof.
  rewrite rebuild_run. destruct (combined_view _ _) as [g|e]; [|done].
  destruct (decide _); [|done]. intros [= <-]. eauto.
Qed.

(** Claim C4.  On a disk that does not fail, the outcome of a rebuild and
    the content of the combined file it writes are determined by the
    content of the activity file and of the orders file (and by whether
    the log directory exists): two disks that agree on these get the same
    outcome and, when the rebuild returns, the same combined file, cell
    for cell and so byte for byte in the text the writer emits.  In
    particular a second rebuild right after the first, the source files
    being unchanged, has the same outcome and leaves the whole disk,
    combined file included, exactly as the first left it. *)
Theorem rebuild_twice_identical ds fs ds2 fs2 :
  fs2 !! ACTIVITY_LOG = fs !! ACTIVITY_LOG →
  fs2 !! ORDERS_LOG = fs !! ORDERS_LOG →
  (LOG_DIR ∈ ds2 ↔ LOG_DIR ∈ ds) →
  let out1 := rebuild_combined_log (mkSys ds fs None) in
  let out2 := rebuild_combined_log (mkSys ds2 fs2 None) in
  out2.2 = out1.2 ∧
  (out1.2 = Ok tt →
   is_Some (files out1.1 !! COMBINED_LOG) ∧
   files out2.1 !! COMBINED_LOG = files out1.1 !! COMBINED_LOG ∧
   csv_text <$> files out2.1 !! COMBINED_LOG
   = csv_text <$> files out1.1 !! COMBINED_LOG) ∧
  rebuild_combined_log out1.1 = out1.
Proof.
  intros Ha Ho Hd out1 out2. subst out1 out2.
  rewrite !rebuild_run, Ha, Ho.
  destruct (combined_view _ _) as [g|e] eqn:Hg; cycle 1.
  { simpl. split; [done|]. split; [done|]. by rewrite rebuild_run, Hg. }
  destruct (decide (LOG_DIR ∈ ds)) as [Hin|Hin].
  - rewrite decide_True by tauto. simpl. split; [done|].
    split; [intros _; rewrite !lookup_insert_eq; eauto|].
    rewrite rebuild_run.
    rewrite !lookup_insert_ne, !lookup_delete_ne, Hg by done.
    rewrite decide_True by done. do 2 f_equal.
    apply map_eq. intros q.
    destruct (decide (q = COMBINED_LOG)) as [->|Hq];
      [by rewrite !lookup_insert_eq|].
    rewrite !lookup_insert_ne by done.
    destruct (decide (q = with_suffix COMBINED_LOG ".tmp")) as [->|Hq'];
      [by rewrite !lookup_delete_eq|].
    by rewrite !lookup_delete_ne, lookup_insert_ne, lookup_delete_ne by done.
  - rewrite decide_False by tauto. simpl. split; [done|]. split; [done|].
    by rewrite rebuild_run, Hg, decide_False.
Qed.

Lemma rebuild_twice_identical_witness :
  let fs : gmap Path (list (list string)) :=
    {[ORDERS_LOG := [ORDERS_COLUMNS; ["2024-06-03"; "7"; ""]]]} in
  let fs2 : gmap Path (list (list string)) :=
    <[COMBINED_LOG := [["stale"]]]> fs in
  let out1 := rebuild_combined_log (mkSys {[LOG_DIR]} fs None) in
  let out2 := rebuild_combined_log (mkSys {[LOG_DIR; "D:\"]} fs2 None) in
  out1.2 = Ok tt ∧
  files out1.1 !! COMBINED_LOG
    = Some [COMBINED_COLUMNS; ["2024-06-03"; ""; ""; "7"; ""]] ∧
  out2.2 = out1.2 ∧
  (out1.2 = Ok tt →
   is_Some (files out1.1 !! COMBINED_LOG) ∧
   files out2.1 !! COMBINED_LOG = files out1.1 !! COMBINED_LOG ∧
   csv_text <$> files out2.1 !! COMBINED_LOG
   = csv_text <$> files out1.1 !! COMBINED_LOG) ∧
  rebuild_combined_log out1.1 = out1.
Proof.
  intros fs fs2 out1 out2.
  split; [by vm_compute|]. split; [by vm_compute|].
  apply (rebuild_twice_identical {[LOG_DIR]} fs {[LOG_DIR; "D:\"]} fs2).
  - done.
  - done.
  - split; intros _; set_solver.
Defined.

End CombinedPure.

(** ** The combined view of conforming tables *)

Section CombinedConforming.
Import Csv Fs ShipStation.

Section OneTable.
Context (k2 k3 : string).
Hypothesis (H12 : "Date" ≠ k2) (H13 : "Date" ≠ k3) (H23 : k2 ≠ k3).
Context (file : option (list (list string))).
Hypothesis Hok : table_ok ["Date"; k2; k3] file.

Lemma table_lines_length : Forall (λ l, length l = 3) (table_lines file).
Proof.
  destruct file as [g|]; [|done]. by destruct Hok as (lines & -> & Hl).
Qed.

Lemma rows_of_conforms :
  rows_of file = dict_of_line ["Date"; k2; k3] <$> table_lines file.
Proof.
  destruct file as [g|]; [|done]. by apply DictReader_conforms.
Qed.

Lemma by_date_conforms_ok : ∀ acc, ∃ m, by_date (rows_of file) acc = Ok m.
Proof.
  rewrite rows_of_conforms.
  induction table_lines_length as [|l lines Hlen _ IH]; intros acc; [by eexists|].
  destruct l as [|a [|b [|c [|]]]]; try done.
  rewrite fmap_cons, dict_of_line3. cbn [by_date].
  rewrite getitem_row3_1 by done. apply IH.
Qed.

Lemma last_of_date_conforms d :
  last_of_date (Some d) (rows_of file)
  = dict_of_line ["Date"; k2; k3]
      <$> last (filter (λ l, line_date l = Some d) (table_lines file)).
Proof.
  unfold last_of_date. rewrite rows_of_conforms.
  rewrite filter_date_rows by (done || apply table_lines_length).
  apply fmap_last.
Qed.

Lemma by_date_conforms_dom m d :
  by_date (rows_of file) ∅ = Ok m →
  d ∈ dom m ↔ ∃ s, d = Some s ∧ has_date s (table_lines file).
Proof.
  intros Hm. rewrite (by_date_dom _ _ _ Hm), rows_of_conforms.
  pose proof table_lines_length as Hlen. rewrite Forall_forall in Hlen.
  split.
  - intros (r & Hr & Hd). apply list_elem_of_fmap in Hr as (l & -> & Hl).
    specialize (Hlen l Hl). destruct l as [|a [|b [|c [|]]]]; try done.
    rewrite dict_of_line3, getitem_row3_1 in Hd by done. injection Hd as <-.
    exists a. split; [done|]. by exists [a; b; c].
  - intros (s & -> & l & Hl & Hd). exists (dict_of_line ["Date"; k2; k3] l).
    split; [by apply list_elem_of_fmap_2|].
    specialize (Hlen l Hl). destruct l as [|a [|b [|c [|]]]]; try done.
    simpl in Hd. injection Hd as ->.
    by rewrite dict_of_line3, getitem_row3_1.
Qed.

(** The two cells the combined line takes from this table. *)
Lemma combined_cells m d :
  by_date (rows_of file) ∅ = Ok m →
  let r := default empty_row (m !! Some d) in
  [cell_str (get r k2 (Some "")); cell_str (get r k3 (Some ""))]
  = side_cells d (table_lines file).
Proof.
  intros Hm r. subst r.
  rewrite (by_date_lookup _ _ _ Hm), lookup_empty, last_of_date_conforms.
  unfold side_cells.
  destruct (last _) as [l|] eqn:Hl; [|done].
  apply last_Some_elem_of, list_elem_of_filter in Hl as [_ Hl].
  pose proof table_lines_length as Hlen. rewrite Forall_forall in Hlen.
  specialize (Hlen l Hl). destruct l as [|a [|b [|c [|]]]]; try done.
  change (dict_of_line ["Date"; k2; k3] <$> Some [a; b; c])
    with (Some (row3 "Date" k2 k3 (Some a) (Some b) (Some c))).
  cbn [from_option id].
  by destruct (get_row3 "Date" k2 k3 H12 H13 H23 (Some a) (Some b) (Some c)
                 (Some "")) as (_ & -> & ->).
Qed.

End OneTable.

(** The combined file of two conforming tables. *)
Lemma rebuild_conforming ds fs :
  LOG_DIR ∈ ds →
  table_ok Tracker.CSV_COLUMNS (fs !! ACTIVITY_LOG) →
  table_ok ORDERS_COLUMNS (fs !! ORDERS_LOG) →
  let act := table_lines (fs !! ACTIVITY_LOG) in
  let ord_ := table_lines (fs !! ORDERS_LOG) in
  ∃ σ' dates,
    rebuild_combined_log (mkSys ds fs None) = (σ', Ok tt) ∧
    files σ' !! COMBINED_LOG
    = Some (COMBINED_COLUMNS ::
              ((λ d, d :: side_cells d act ++ side_cells d ord_) <$> dates)) ∧
    NoDup dates ∧ Sorted String.le dates ∧
    ∀ d, d ∈ dates ↔ has_date d act ∨ has_date d ord_.
Proof.
  intros Hd Ha Ho act ord_. rewrite rebuild_run.
  unfold combined_view.
  destruct (by_date_conforms_ok "First Activity" "Last Activity"
              ltac:(done) ltac:(done) _ Ha ∅) as [a Hra].
  destruct (by_date_conforms_ok "Outstanding Orders" "Shipped Today"
              ltac:(done) ltac:(done) _ Ho ∅) as [o Hro].
  rewrite Hra, Hro. cbn [mbind result_mbind result_bind].
  pose proof (by_date_conforms_dom "First Activity" "Last Activity"
                ltac:(done) ltac:(done) _ Ha a) as Hda.
  pose proof (by_date_conforms_dom "Outstanding Orders" "Shipped Today"
                ltac:(done) ltac:(done) _ Ho o) as Hdo.
  destruct (sorted_strings (dom a ∪ dom o)) as (dates & Hs & Hsorted).
  { rewrite elem_of_union, Hda, Hdo by done. naive_solver. }
  destruct (sorted_spec _ _ Hs) as [Hnd Hin].
  rewrite Hs. cbn [mbind result_mbind result_bind].
  rewrite decide_True by done.
  eexists _, dates. split; [done|]. cbn [files].
  rewrite lookup_insert_eq. split; [|split; [|split]].
  - do 2 f_equal. rewrite <-list_fmap_compose.
    apply list_fmap_ext. intros _ d _. unfold compose, combined_line.
    pose proof (combined_cells "First Activity" "Last Activity"
                  ltac:(done) ltac:(done) ltac:(done) _ Ha a d Hra) as Hca.
    pose proof (combined_cells "Outstanding Orders" "Shipped Today"
                  ltac:(done) ltac:(done) ltac:(done) _ Ho o d Hro) as Hco.
    cbn zeta in Hca, Hco. fold act in Hca. fold ord_ in Hco.
    rewrite <-Hca, <-Hco. reflexivity.
  - by apply NoDup_fmap_1 in Hnd.
  - done.
  - intros d. specialize (Hin (Some d)).
    rewrite elem_of_union, Hda, Hdo in Hin by done.
    rewrite list_elem_of_fmap in Hin. naive_solver.
Qed.

End CombinedConforming.

Section CombinedClaims.
Import Csv Fs ShipStation.

Lemma filter_date_keyed (mk : string → list string) dates d :
  (∀ d', line_date (mk d') = Some d') →
  NoDup dates →
  filter (λ l, line_date l = Some d) (mk <$> dates)
  = if decide (d ∈ dates) then [mk d] else [].
Proof.
  intros Hmk Hnd. induction Hnd as [|d' dates Hnotin Hnd IH]; [done|].
  rewrite fmap_cons. destruct (decide (d' = d)) as [->|Hne].
  - rewrite filter_cons_True by (by rewrite Hmk).
    rewrite IH, decide_False, decide_True by set_solver. done.
  - rewrite filter_cons_False by (rewrite Hmk; congruence).
    rewrite IH. destruct (decide (d ∈ dates)).
    + by rewrite decide_True by set_solver.
    + by rewrite decide_False by set_solver.
Qed.

Lemma side_cells_two d lines : ∃ x y, side_cells d lines = [x; y].
Proof.
  unfold side_cells.
  destruct (last _) as [[|a [|b [|c [|]]]]|]; eauto.
Qed.

Lemma side_cells_none d lines :
  ¬ has_date d lines → side_cells d lines = [""; ""].
Proof.
  intros Hno. unfold side_cells.
  destruct (last _) as [l|] eqn:Hl; [|done]. exfalso. apply Hno.
  apply last_Some_elem_of, list_elem_of_filter in Hl as [??]. by exists l.
Qed.

Lemma last_line_of_date d (lines : list (list string)) :
  Forall (λ l, length l = 3) lines →
  has_date d lines →
  ∃ x y, last (filter (λ l, line_date l = Some d) lines) = Some [d; x; y].
Proof.
  intros Hlen (l & Hl & Hd).
  destruct (last (filter (λ l, line_date l = Some d) lines)) as [l'|] eqn:Hlast.
  - apply last_Some_elem_of, list_elem_of_filter in Hlast as Hl'.
    destruct Hl' as [Hd' Hl']. rewrite Forall_forall in Hlen.
    specialize (Hlen l' Hl'). destruct l' as [|a [|b [|c [|]]]]; try done.
    simpl in Hd'. injection Hd' as ->. eauto.
  - apply last_None in Hlast.
    assert (l ∈ filter (λ l, line_date l = Some d) lines) as Hin
      by (by apply list_elem_of_filter).
    rewrite Hlast in Hin. by apply elem_of_nil in Hin.
Qed.

Lemma conforming_lines_length columns (file : option (list (list string))) :
  length columns = 3 →
  table_ok columns file → Forall (λ l, length l = 3) (table_lines file).
Proof.
  intros Hc Hok. destruct file as [g|]; [|done].
  destruct Hok as (lines & -> & Hl). simpl. by rewrite Hc in Hl.
Qed.

(** Claim C5.  For an activity table and an orders table that are missing
    or conform to their schemas, on a disk that does not fail, the rebuild
    returns and: a date found only in the orders table has exactly one
    line in the combined file, with the two activity cells empty and the
    two orders cells of that date; a date found only in the activity table
    has exactly one line, with its two activity cells and the two orders
    cells empty.  In particular, with no activity table (missing, or with
    its header only) and an orders table of the single line 2024-06-03,7,
    the combined file is the header and the single line 2024-06-03,,,7, . *)
Theorem one_sided_dates :
  (∀ ds fs,
    LOG_DIR ∈ ds →
    table_ok Tracker.CSV_COLUMNS (fs !! ACTIVITY_LOG) →
    table_ok ORDERS_COLUMNS (fs !! ORDERS_LOG) →
    let act := table_lines (fs !! ACTIVITY_LOG) in
    let ord_ := table_lines (fs !! ORDERS_LOG) in
    ∃ σ' lines,
      rebuild_combined_log (mkSys ds fs None) = (σ', Ok tt) ∧
      files σ' !! COMBINED_LOG = Some (COMBINED_COLUMNS :: lines) ∧
      (∀ d,
         has_date d ord_ → ¬ has_date d act →
         ∃ o s,
           last (filter (λ l, line_date l = Some d) ord_) = Some [d; o; s] ∧
           filter (λ l, line_date l = Some d) lines = [[d; ""; ""; o; s]]) ∧
      (∀ d,
         has_date d act → ¬ has_date d ord_ →
         ∃ f l,
           last (filter (λ l, line_date l = Some d) act) = Some [d; f; l] ∧
           filter (λ l, line_date l = Some d) lines = [[d; f; l; ""; ""]])) ∧
  (∀ activity,
    activity = None ∨ activity = Some [Tracker.CSV_COLUMNS] →
    ∀ fs : gmap Path (list (list string)),
    fs !! ACTIVITY_LOG = activity →
    fs !! ORDERS_LOG = Some [ORDERS_COLUMNS; ["2024-06-03"; "7"; ""]] →
    ∃ σ',
      rebuild_combined_log (mkSys {[LOG_DIR]} fs None) = (σ', Ok tt) ∧
      files σ' !! COMBINED_LOG
      = Some [COMBINED_COLUMNS; ["2024-06-03"; ""; ""; "7"; ""]] ∧
      csv_line ["2024-06-03"; ""; ""; "7"; ""] = "2024-06-03,,,7,").
Proof.
  split.
  - intros ds fs Hd Ha Ho act ord_.
    destruct (rebuild_conforming ds fs Hd Ha Ho)
      as (σ' & dates & Hrun & Hfile & Hnd & _ & Hin).
    fold act ord_ in Hfile, Hin.
    eexists σ', _. split; [done|]. split; [done|].
    assert (Forall (λ l, length l = 3) act) as Hla
      by (by apply (conforming_lines_length Tracker.CSV_COLUMNS)).
    assert (Forall (λ l, length l = 3) ord_) as Hlo
      by (by apply (conforming_lines_length ORDERS_COLUMNS)).
    split.
    + intros d Hhas Hno.
      destruct (last_line_of_date d ord_ Hlo Hhas) as (o & s & Hlast).
      exists o, s. split; [done|].
      rewrite filter_date_keyed, decide_True; [|by apply Hin; right|done|done].
      rewrite (side_cells_none d act) by done.
      unfold side_cells. by rewrite Hlast.
    + intros d Hhas Hno.
      destruct (last_line_of_date d act Hla Hhas) as (f & l & Hlast).
      exists f, l. split; [done|].
      rewrite filter_date_keyed, decide_True; [|by apply Hin; left|done|done].
      rewrite (side_cells_none d ord_) by done.
      unfold side_cells. by rewrite Hlast.
  - intros activity Hact fs Ha Ho.
    rewrite rebuild_run, Ha, Ho.
    assert (combined_view activity
              (Some [ORDERS_COLUMNS; ["2024-06-03"; "7"; ""]])
            = Ok [COMBINED_COLUMNS; ["2024-06-03"; ""; ""; "7"; ""]]) as ->
      by (by destruct Hact as [->| ->]; vm_compute).
    rewrite decide_True by set_solver.
    eexists. split; [done|]. cbn [files].
    split; [by rewrite lookup_insert_eq|]. by vm_compute.
Qed.

Lemma one_sided_dates_witness :
  let fs : gmap Path (list (list string)) :=
    {[ACTIVITY_LOG :=
        [Tracker.CSV_COLUMNS; ["2024-06-02"; "08:00:00"; "17:00:00"]];
      ORDERS_LOG := [ORDERS_COLUMNS; ["2024-06-03"; "7"; ""]]]} in
  ∃ σ' lines,
    rebuild_combined_log (mkSys {[LOG_DIR]} fs None) = (σ', Ok tt) ∧
    files σ' !! COMBINED_LOG = Some (COMBINED_COLUMNS :: lines) ∧
    filter (λ l, line_date l = Some "2024-06-03") lines
      = [["2024-06-03"; ""; ""; "7"; ""]] ∧
    filter (λ l, line_date l = Some "2024-06-02") lines
      = [["2024-06-02"; "08:00:00"; "17:00:00"; ""; ""]].
Proof.
  intros fs.
  assert (LOG_DIR ∈ ({[LOG_DIR]} : gset string)) as Hd by set_solver.
  assert (fs !! ACTIVITY_LOG
          = Some [Tracker.CSV_COLUMNS; ["2024-06-02"; "08:00:00"; "17:00:00"]])
    as Ha by (by vm_compute).
  assert (fs !! ORDERS_LOG = Some [ORDERS_COLUMNS; ["2024-06-03"; "7"; ""]])
    as Ho by (by vm_compute).
  destruct (proj1 one_sided_dates {[LOG_DIR]} fs Hd) as
    (σ' & lines & Hrun & Hfile & Hord & Hact).
  - rewrite Ha. eexists. split; [done|]. by repeat constructor.
  - rewrite Ho. eexists. split; [done|]. by repeat constructor.
  - rewrite Ha, Ho in Hord, Hact. cbn [table_lines] in Hord, Hact.
    exists σ', lines. split; [done|]. split; [done|]. split.
    + destruct (Hord "2024-06-03") as (o & s & Hlast & Hline).
      * eexists. split; [by apply list_elem_of_singleton|done].
      * intros (l & Hl & Hdate).
        apply list_elem_of_singleton in Hl as ->. done.
      * injection Hlast as <- <-. exact Hline.
    + destruct (Hact "2024-06-02") as (f & l & Hlast & Hline).
      * eexists. split; [by apply list_elem_of_singleton|done].
      * intros (l & Hl & Hdate).
        apply list_elem_of_singleton in Hl as ->. done.
      * injection Hlast as <- <-. exact Hline.
Defined.

End CombinedClaims.

Section CombinedDuplicates.
Import Csv Fs ShipStation.

(** Whatever the two source files hold, a rebuild that returns has
    written at most one line per date. *)
Lemma combined_dates_nodup ds fs σ' :
  rebuild_combined_log (mkSys ds fs None) = (σ', Ok tt) →
  NoDup (line_date <$> table_lines (files σ' !! COMBINED_LOG)).
Proof.
  intros H. apply rebuild_output in H as (g & Hg & _ & ->).
  cbn [files]. rewrite lookup_insert_eq.
  revert Hg. unfold combined_view.
  destruct (by_date (rows_of (fs !! ACTIVITY_LOG)) ∅) as [a|];
    cbn [mbind result_mbind result_bind]; [|done].
  destruct (by_date (rows_of (fs !! ORDERS_LOG)) ∅) as [o|];
    cbn [mbind result_mbind result_bind]; [|done].
  destruct (sorted _) as [all_dates|] eqn:Hs;
    cbn [mbind result_mbind result_bind]; [|done].
  intros [= <-]. cbn [table_lines].
  rewrite <-list_fmap_compose.
  destruct (sorted_spec _ _ Hs) as [Hnd _].
  unfold sorted in Hs. destruct (decide _).
  - destruct (decide _); [|done]. injection Hs as <-. apply NoDup_singleton.
  - injection Hs as <-. rewrite <-list_fmap_compose. exact Hnd.
Qed.

(** Claim C9.  For an activity table and an orders table that are missing
    or conform to their schemas, with any number of lines for one date, on
    a disk that does not fail, the rebuild returns and the combined file
    has at most one line per date; for a date with lines in a source
    table, the cells of the combined line that come from that table are
    those of the table's last line of the date, in file order. *)
Theorem combined_one_row_per_date ds fs :
  LOG_DIR ∈ ds →
  table_ok Tracker.CSV_COLUMNS (fs !! ACTIVITY_LOG) →
  table_ok ORDERS_COLUMNS (fs !! ORDERS_LOG) →
  let act := table_lines (fs !! ACTIVITY_LOG) in
  let ord_ := table_lines (fs !! ORDERS_LOG) in
  ∃ σ' lines,
    rebuild_combined_log (mkSys ds fs None) = (σ', Ok tt) ∧
    files σ' !! COMBINED_LOG = Some (COMBINED_COLUMNS :: lines) ∧
    NoDup (line_date <$> lines) ∧
    (∀ d,
       has_date d act →
       ∃ f l o s,
         last (filter (λ l, line_date l = Some d) act) = Some [d; f; l] ∧
         filter (λ l, line_date l = Some d) lines = [[d; f; l; o; s]]) ∧
    (∀ d,
       has_date d ord_ →
       ∃ f l o s,
         last (filter (λ l, line_date l = Some d) ord_) = Some [d; o; s] ∧
         filter (λ l, line_date l = Some d) lines = [[d; f; l; o; s]]).
Proof.
  intros Hd Ha Ho act ord_.
  destruct (rebuild_conforming ds fs Hd Ha Ho)
    as (σ' & dates & Hrun & Hfile & Hnd & _ & Hin).
  fold act ord_ in Hfile, Hin.
  pose proof (combined_dates_nodup _ _ _ Hrun) as Hnodup.
  rewrite Hfile in Hnodup. cbn [table_lines] in Hnodup.
  eexists σ', _. split; [done|]. split; [done|]. split; [done|].
  assert (Forall (λ l, length l = 3) act) as Hla
    by (by apply (conforming_lines_length Tracker.CSV_COLUMNS)).
  assert (Forall (λ l, length l = 3) ord_) as Hlo
    by (by apply (conforming_lines_length ORDERS_COLUMNS)).
  split.
  - intros d Hhas.
    destruct (last_line_of_date d act Hla Hhas) as (f & l & Hlast).
    destruct (side_cells_two d ord_) as (o & s & Hos). exists f, l, o, s.
    split; [done|].
    rewrite filter_date_keyed, decide_True; [|by apply Hin; left|done|done].
    rewrite Hos. unfold side_cells. by rewrite Hlast.
  - intros d Hhas.
    destruct (last_line_of_date d ord_ Hlo Hhas) as (o & s & Hlast).
    destruct (side_cells_two d act) as (f & l & Hfl). exists f, l, o, s.
    split; [done|].
    rewrite filter_date_keyed, decide_True; [|by apply Hin; right|done|done].
    rewrite Hfl. unfold side_cells. by rewrite Hlast.
Qed.

Lemma combined_one_row_per_date_witness :
  let fs : gmap Path (list (list string)) :=
    {[ACTIVITY_LOG :=
        [Tracker.CSV_COLUMNS;
         ["2024-06-03"; "08:00:00"; "12:00:00"];
         ["2024-06-04"; "09:00:00"; "09:30:00"];
         ["2024-06-03"; "08:05:00"; "17:00:00"]];
      ORDERS_LOG :=
        [ORDERS_COLUMNS; ["2024-06-03"; "7"; ""]; ["2024-06-03"; "9"; "4"]]]} in
  ∃ σ',
    rebuild_combined_log (mkSys {[LOG_DIR]} fs None) = (σ', Ok tt) ∧
    files σ' !! COMBINED_LOG
    = Some [COMBINED_COLUMNS;
            ["2024-06-03"; "08:05:00"; "17:00:00"; "9"; "4"];
            ["2024-06-04"; "09:00:00"; "09:30:00"; ""; ""]].
Proof.
  intros fs.
  assert (LOG_DIR ∈ ({[LOG_DIR]} : gset string)) as Hd by set_solver.
  destruct (combined_one_row_per_date {[LOG_DIR]} fs Hd) as
    (σ' & lines & Hrun & Hfile & _).
  - eexists. split; [by vm_compute|]. by repeat constructor.
  - eexists. split; [by vm_compute|]. by repeat constructor.
  - exists σ'. split; [done|].
    assert ((rebuild_combined_log (mkSys {[LOG_DIR]} fs None)).1 = σ') as <-
      by (by rewrite Hrun).
    by vm_compute.
Defined.

End CombinedDuplicates.

(** ** A failed fetch *)

Section FetchFailure.
Import Csv Fs ShipStation.
Context (requests_get :
  string → gmap string string → gmap string string → result Response).

(** The fetch the mode [m] starts with. *)
Lemma main_runs_mode m weekday env_key today :
  weekday ∈ VALID_WEEKDAYS → env_key ≠ "" →
  main requests_get m weekday env_key today
  = match m with
    | morning => run_morning requests_get env_key today
    | afternoon => run_afternoon requests_get env_key today
    end.
Proof.
  intros Hw Hk. unfold main.
  rewrite decide_False by (by intros ?). by rewrite decide_False.
Qed.

(** What makes the fetch raise: the request itself, an error status, a
    body that is not JSON, a total [int()] rejects. *)
Lemma fetch_order_count_raises api_key params e :
  _fetch_order_count requests_get api_key params = Raise e ↔
  let sent := <["page" := "1"]> (<["page_size" := "1"]> params) in
  let reply := requests_get (SHIPSTATION_BASE +:+ "/orders")
                 (_api_headers api_key) sent in
  reply = Raise e ∨
  ∃ resp, reply = Ok resp ∧
    ((400 ≤ status_code resp < 600)%Z ∧ e = HTTPError ∨
     ¬ (400 ≤ status_code resp < 600)%Z ∧
       (body resp = None ∧ e = JSONDecodeError ∨
        body resp = Some TotalInvalid ∧ e = ValueError)).
Proof.
  unfold _fetch_order_count. cbn zeta.
  destruct (requests_get _ _ _) as [resp|e'];
    cbn [mbind result_mbind result_bind].
  2:{ split; [intros [= ->]; by left|].
      intros [[= ->]|(resp & [=] & _)]. done. }
  unfold raise_for_status.
  destruct (decide _) as [Hs|Hs]; cbn [mbind result_mbind result_bind].
  - split.
    + intros [= <-]. right. exists resp. split; [done|]. by left.
    + intros [[=]|(resp' & [= <-] & [[_ ->]|[Hn _]])]; done.
  - split.
    + intros H. right. exists resp. split; [done|]. right. split; [done|].
      destruct (body resp) as [[]|]; simplify_eq; auto.
    + intros [[=]|(resp' & [= <-] & [[Hy _]|[_ [[Hb ->]|[Hb ->]]]])];
        [done|by rewrite Hb..].
Qed.

(** Claim C8.  In both modes the count is fetched first.  When the fetch
    raises (the request itself, an HTTP error status, a body that is not
    JSON, a total that is not a number), the invocation ends with that
    exception and the disk is the one it started with: no upsert ran, the
    orders table is unchanged, and so is every other file.  Conversely an
    invocation that changed anything on the disk had fetched its count. *)
Theorem fetch_failure_no_upsert (api_key today : string) (σ σ' : Sys)
    (r : result unit) :
  (∀ e, get_awaiting_shipment_count requests_get api_key = Raise e →
        run_morning requests_get api_key today σ = (σ, Raise e)) ∧
  (∀ e, get_shipped_today_count requests_get api_key today = Raise e →
        run_afternoon requests_get api_key today σ = (σ, Raise e)) ∧
  (run_morning requests_get api_key today σ = (σ', r) → σ' ≠ σ →
   ∃ count, get_awaiting_shipment_count requests_get api_key = Ok count) ∧
  (run_afternoon requests_get api_key today σ = (σ', r) → σ' ≠ σ →
   ∃ count, get_shipped_today_count requests_get api_key today = Ok count).
Proof.
  unfold run_morning, run_afternoon. rewrite !io_bind_unfold. unfold lift.
  split; [|split; [|split]].
  - by intros e ->.
  - by intros e ->.
  - destruct (get_awaiting_shipment_count _ _) as [count|e]; [eauto|].
    by intros [= <- _] ?.
  - destruct (get_shipped_today_count _ _ _) as [count|e]; [eauto|].
    by intros [= <- _] ?.
Qed.

End FetchFailure.

Section FetchFailureWitness.
Import Csv Fs ShipStation.

Lemma fetch_failure_no_upsert_witness :
  let unauthorized : string → gmap string string → gmap string string
                     → result Response :=
    λ _ _ _, Ok (mkResponse 401 None) in
  let σ := mkSys {[LOG_DIR]}
             {[ORDERS_LOG := [ORDERS_COLUMNS; ["2024-06-03"; "7"; ""]]]}
             None in
  get_awaiting_shipment_count unauthorized "key" = Raise HTTPError ∧
  run_morning unauthorized "key" "2024-06-04" σ = (σ, Raise HTTPError) ∧
  get_shipped_today_count unauthorized "key" "2024-06-04" = Raise HTTPError ∧
  run_afternoon unauthorized "key" "2024-06-04" σ = (σ, Raise HTTPError).
Proof.
  intros unauthorized σ.
  assert (get_awaiting_shipment_count unauthorized "key" = Raise HTTPError)
    as Hm by reflexivity.
  assert (get_shipped_today_count unauthorized "key" "2024-06-04"
          = Raise HTTPError) as Ha by reflexivity.
  destruct (fetch_failure_no_upsert unauthorized "key" "2024-06-04" σ σ
              (Ok tt)) as (Hmorning & Hafternoon & _).
  split; [exact Hm|]. split; [exact (Hmorning _ Hm)|].
  split; [exact Ha|]. exact (Hafternoon _ Ha).
Defined.

End FetchFailureWitness.

(** ** Failures while a table is written *)

Section Atomic.
Import Csv Fs.

Lemma tmp_is_not_final path : suffix path ≠ ".tmp" → path ≠ with_suffix path ".tmp".
Proof. intros Hs Heq. apply Hs. by rewrite Heq. Qed.

Lemma read_csv_pure p columns σ σ' r :
  ShipStation._read_csv p columns σ = (σ', r) → σ' = σ.
Proof.
  unfold ShipStation._read_csv. rewrite io_bind_unfold. unfold exists_ at 1.
  destruct (bool_decide _); [|by intros [= <-]].
  rewrite io_bind_unfold. unfold read_grid.
  destruct (files σ !! p); by intros [= <-].
Qed.

(** [_write_csv], whatever the disk does: a write that raises leaves the
    file under the final path as it was; a write that returns has put the
    whole table there. *)
Lemma write_csv_atomic path columns rows σ σ' r :
  suffix path ≠ ".tmp" →
  ShipStation._write_csv path columns rows σ = (σ', r) →
  match r with
  | Raise _ => files σ' !! path = files σ !! path
  | Ok _ =>
      ∃ lines,
        Forall2 (λ row line, dict_to_list columns row = Ok line) rows lines ∧
        files σ' !! path = Some (columns :: lines)
  end.
Proof.
  intros Hs H. destruct r as [[]|e].
  - apply write_csv_ok in H as (lines & ? & ? & _). eauto.
  - apply write_csv_raise in H as [_ H]. by apply H, tmp_is_not_final.
Qed.

Lemma flush_today_atomic st σ σ' r g :
  files σ !! Tracker.LOG_FILE = Some g →
  Tracker._flush_today st σ = (σ', r) →
  match r with
  | Raise _ => files σ' !! Tracker.LOG_FILE = Some g
  | Ok _ =>
      Tracker._current_date st ≠ "" →
      ∃ lines, files σ' !! Tracker.LOG_FILE = Some (Tracker.CSV_COLUMNS :: lines)
  end.
Proof.
  intros Hg. unfold Tracker._flush_today.
  destruct (decide _) as [Hd|Hd]; [by intros [= <- <-]|]. intros H.
  apply io_bind_inv in H as [(e & H & ->)|([] & σ1 & H1 & H)].
  { by rewrite (ensure_keeps Tracker.LOG_FILE _ _ _ _ _ H Hg). }
  apply (ensure_keeps Tracker.LOG_FILE) with (g := g) in H1 as Hf1; [|done].
  rewrite io_bind_unfold in H. unfold exists_ at 1 in H.
  rewrite Hf1, bool_decide_true in H by eauto.
  rewrite io_bind_unfold, io_bind_unfold in H. unfold read_grid at 1 in H.
  rewrite Hf1, Hg in H. cbn [mret io_ret] in H.
  rewrite io_bind_unfold in H. unfold lift at 1 in H.
  destruct (Tracker.update_today _ _ _ _) as [[rows updated]|e].
  2:{ injection H as <- <-. by rewrite Hf1. }
  apply (write_csv_atomic Tracker.LOG_FILE Tracker.CSV_COLUMNS) in H; [|done].
  destruct r as [[]|e]; [|by rewrite H, Hf1].
  destruct H as (lines & _ & H). eauto.
Qed.

Lemma upsert_atomic today field value σ σ' r g :
  files σ !! ShipStation.ORDERS_LOG = Some g →
  ShipStation._upsert_orders_row today field value σ = (σ', r) →
  match r with
  | Raise _ => files σ' !! ShipStation.ORDERS_LOG = Some g
  | Ok _ =>
      ∃ lines, files σ' !! ShipStation.ORDERS_LOG
               = Some (ShipStation.ORDERS_COLUMNS :: lines)
  end.
Proof.
  intros Hg. unfold ShipStation._upsert_orders_row. intros H.
  apply io_bind_inv in H as [(e & H & ->)|([] & σ1 & H1 & H)].
  { by rewrite (ensure_keeps ShipStation.ORDERS_LOG _ _ _ _ _ H Hg). }
  apply (ensure_keeps ShipStation.ORDERS_LOG) with (g := g) in H1 as Hf1;
    [|done].
  apply io_bind_inv in H as [(e & H & ->)|(rows & σ2 & H2 & H)].
  { apply read_csv_pure in H as ->. by rewrite Hf1. }
  apply read_csv_pure in H2 as ->.
  rewrite io_bind_unfold in H. unfold lift at 1 in H.
  destruct (ShipStation.find_row _ _) as [found|e].
  2:{ injection H as <- <-. by rewrite Hf1. }
  destruct found as [i|];
    (apply (write_csv_atomic ShipStation.ORDERS_LOG ShipStation.ORDERS_COLUMNS)
       in H; [|done]);
    (destruct r as [[]|e]; [|by rewrite H, Hf1]);
    destruct H as (lines & _ & H); eauto.
Qed.

Lemma rebuild_atomic σ σ' e :
  ShipStation.rebuild_combined_log σ = (σ', Raise e) →
  files σ' !! ShipStation.COMBINED_LOG = files σ !! ShipStation.COMBINED_LOG.
Proof.
  unfold ShipStation.rebuild_combined_log. intros H.
  apply io_bind_inv in H as [(e' & H & _)|(arows & σ1 & H1 & H)].
  { by apply read_csv_pure in H as ->. }
  apply read_csv_pure in H1 as ->.
  apply io_bind_inv in H as [(e' & H & _)|(orows & σ2 & H2 & H)].
  { by apply read_csv_pure in H as ->. }
  apply read_csv_pure in H2 as ->.
  rewrite io_bind_unfold in H. unfold lift at 1 in H.
  destruct (ShipStation.combine _ _) as [combined|e'].
  2:{ by injection H as <- _. }
  by apply (write_csv_atomic ShipStation.COMBINED_LOG) in H.
Qed.

End Atomic.

(** ** A table file that does not exist *)

Section MissingFile.
Import Csv Fs.

Lemma insert_under_final {V} (p tmp : Path) (new old : V) (fs : gmap Path V) :
  <[p := new]> (delete tmp (<[p := old]> fs)) = <[p := new]> (delete tmp fs).
Proof.
  apply map_eq. intros q.
  destruct (decide (q = p)) as [->|Hq]; [by rewrite !lookup_insert_eq|].
  rewrite !lookup_insert_ne by done.
  destruct (decide (q = tmp)) as [->|Hq']; [by rewrite !lookup_delete_eq|].
  by rewrite !lookup_delete_ne, lookup_insert_ne by done.
Qed.

(** Claim C6.  Reading a table whose file does not exist returns the
    empty list of records, whatever the path and the columns, leaves the
    disk alone and raises nothing.  Each consumer treats a missing file as
    the empty table: on a disk that does not fail, a flush and an upsert
    return and leave the disk exactly as they would had the file held its
    header only; a rebuild has the outcome and writes the combined file it
    would had the missing source file held its header only, and with both
    source files missing it returns and writes a combined file with its
    header only. *)
Theorem missing_file_is_empty_table :
  (∀ path columns σ,
     files σ !! path = None →
     ShipStation._read_csv path columns σ = (σ, Ok [])) ∧
  (∀ st ds fs,
     Tracker._current_date st ≠ "" →
     fs !! Tracker.LOG_FILE = None →
     let out := Tracker._flush_today st (mkSys ds fs None) in
     out.2 = Ok tt ∧
     out = Tracker._flush_today st
             (mkSys ds (<[Tracker.LOG_FILE := [Tracker.CSV_COLUMNS]]> fs) None)) ∧
  (∀ today field value ds fs,
     field ∈ ShipStation.ORDERS_COLUMNS →
     fs !! ShipStation.ORDERS_LOG = None →
     let out := ShipStation._upsert_orders_row today field value
                  (mkSys ds fs None) in
     out.2 = Ok tt ∧
     out = ShipStation._upsert_orders_row today field value
             (mkSys ds (<[ShipStation.ORDERS_LOG :=
                            [ShipStation.ORDERS_COLUMNS]]> fs) None)) ∧
  (∀ ds fs source header,
     (source = ShipStation.ACTIVITY_LOG ∧ header = Tracker.CSV_COLUMNS) ∨
     (source = ShipStation.ORDERS_LOG ∧ header = ShipStation.ORDERS_COLUMNS) →
     fs !! source = None →
     let out := ShipStation.rebuild_combined_log (mkSys ds fs None) in
     let out' := ShipStation.rebuild_combined_log
                   (mkSys ds (<[source := [header]]> fs) None) in
     out.2 = out'.2 ∧
     files out.1 !! ShipStation.COMBINED_LOG
     = files out'.1 !! ShipStation.COMBINED_LOG) ∧
  (∀ ds fs,
     ShipStation.LOG_DIR ∈ ds →
     fs !! ShipStation.ACTIVITY_LOG = None →
     fs !! ShipStation.ORDERS_LOG = None →
     let out := ShipStation.rebuild_combined_log (mkSys ds fs None) in
     out.2 = Ok tt ∧
     files out.1 !! ShipStation.COMBINED_LOG
     = Some [ShipStation.COMBINED_COLUMNS]).
Proof.
  split; [|split; [|split; [|split]]].
  - intros path columns σ Hp. unfold ShipStation._read_csv.
    rewrite io_bind_unfold. unfold exists_ at 1.
    by rewrite Hp, bool_decide_false by (by intros [??]).
  - intros st ds fs Hd Hp out. subst out.
    rewrite !flush_today_run; [|done| |done|].
    + by rewrite lookup_insert_eq, Hp, insert_under_final.
    + rewrite lookup_insert_eq. by exists [].
    + by rewrite Hp.
  - intros today field value ds fs Hf Hp out. subst out.
    rewrite !upsert_orders_row_run; [|done| |done|].
    + by rewrite lookup_insert_eq, Hp, insert_under_final.
    + rewrite lookup_insert_eq. by exists [].
    + by rewrite Hp.
  - intros ds fs source header Hsrc Hp out out'. subst out out'.
    rewrite !rebuild_run.
    assert (ShipStation.combined_view
              (<[source := [header]]> fs !! ShipStation.ACTIVITY_LOG)
              (<[source := [header]]> fs !! ShipStation.ORDERS_LOG)
            = ShipStation.combined_view
                (fs !! ShipStation.ACTIVITY_LOG)
                (fs !! ShipStation.ORDERS_LOG)) as ->.
    { destruct Hsrc as [[-> ->]|[-> ->]].
      - by rewrite lookup_insert_eq, lookup_insert_ne, Hp.
      - by rewrite lookup_insert_eq, lookup_insert_ne, Hp. }
    assert (source ≠ ShipStation.COMBINED_LOG) as Hne
      by (by destruct Hsrc as [[-> _]|[-> _]]).
    destruct (ShipStation.combined_view _ _) as [g|e]; simpl.
    + destruct (decide _); simpl.
      * by rewrite !lookup_insert_eq.
      * by rewrite lookup_insert_ne.
    + by rewrite lookup_insert_ne.
  - intros ds fs Hd Ha Ho out. subst out.
    rewrite rebuild_run, Ha, Ho.
    assert (ShipStation.combined_view None None
            = Ok [ShipStation.COMBINED_COLUMNS]) as -> by (by vm_compute).
    lazy beta iota.
    rewrite decide_True by done. simpl. by rewrite lookup_insert_eq.
Qed.

Lemma missing_file_is_empty_table_witness :
  let st := Tracker.mkState "2024-06-03"
              (Some (Tracker.mkDatetime 2024 6 3 9 2 11 0))
              (Some (Tracker.mkDatetime 2024 6 3 9 2 45 0)) in
  let out := Tracker._flush_today st (mkSys ∅ ∅ None) in
  out.2 = Ok tt ∧
  out = Tracker._flush_today st
          (mkSys ∅ (<[Tracker.LOG_FILE := [Tracker.CSV_COLUMNS]]> ∅) None) ∧
  files out.1 !! Tracker.LOG_FILE
  = Some [Tracker.CSV_COLUMNS; ["2024-06-03"; "09:02:11"; "09:02:45"]].
Proof.
  intros st out.
  destruct missing_file_is_empty_table as (_ & Hflush & _).
  destruct (Hflush st ∅ ∅) as [Hok Heq]; [done|done|].
  split; [exact Hok|]. split; [exact Heq|]. by vm_compute.
Defined.

End MissingFile.

(** * Further properties of the code *)

(** ** Inputs of one day *)

Section DayInputs.
Import Tracker.

Lemma listen_recorded ins : ∀ st, listen ins st = record_all (recorded ins) st.
Proof.
  induction ins as [|[i now] ins IH]; intros st; [done|].
  unfold listen, recorded in *. cbn [foldl omap list_omap fst snd].
  destruct i as [key|x y|x y button [|]|x y dx dy];
    cbn [on_input _on_keyboard_press _on_mouse_move _on_mouse_click
         _on_mouse_scroll]; by rewrite IH.
Qed.

(** Within a day the first timestamp, once set, stays and the last
    follows the events. *)
Lemma record_all_within_day ts : ∀ st f,
  _first_activity st = Some f →
  Forall (λ t, strftime_date t = _current_date st) ts →
  record_all ts st
  = mkState (_current_date st) (Some f)
      (match last ts with Some t => Some t | None => _last_activity st end).
Proof.
  induction ts as [|t ts IH]; intros st f Hf Hts.
  - destruct st; simpl in *. by subst.
  - apply Forall_cons in Hts as [Ht Hts].
    change (record_all (t :: ts) st) with (record_all ts (_record_activity t st)).
    assert (_record_activity t st = mkState (_current_date st) (Some f) (Some t))
      as ->.
    { unfold _record_activity. rewrite decide_False by (by rewrite Ht; intros []).
      by rewrite Hf. }
    rewrite (IH _ f) by done. cbn [_current_date _last_activity].
    rewrite last_cons. by destruct (last ts).
Qed.

Lemma record_all_day t0 ts st D :
  Forall (λ t, strftime_date t = D) (t0 :: ts) →
  record_all (t0 :: ts) st
  = mkState D
      (if decide (_current_date st = D)
       then match _first_activity st with Some f => Some f | None => Some t0 end
       else Some t0)
      (last (t0 :: ts)).
Proof.
  intros Hts. apply Forall_cons in Hts as [Ht Hts].
  change (record_all (t0 :: ts) st) with (record_all ts (_record_activity t0 st)).
  assert (∃ f, _record_activity t0 st = mkState D (Some f) (Some t0) ∧
               Some f = if decide (_current_date st = D)
                        then match _first_activity st with
                             | Some f => Some f
                             | None => Some t0
                             end
                        else Some t0) as (f & -> & Hf).
  { unfold _record_activity. rewrite Ht.
    destruct (decide (_current_date st = D)) as [HD|HD].
    - rewrite decide_False by (by intros []). rewrite HD.
      destruct (_first_activity st); eauto.
    - rewrite decide_True by done. eauto. }
  rewrite (record_all_within_day ts _ f) by done.
  cbn [_current_date _last_activity]. rewrite <-Hf, last_cons.
  by destruct (last ts).
Qed.

(** Property X1.  Take the inputs of one day, in the order their handlers
    run: key presses, mouse moves, clicks and scrolls.  Releases of a
    mouse button are ignored.  If the others are all stamped with the date
    [D] and there is at least one, the state afterwards holds [D] and the
    time of the last of them as last activity; its first activity is the
    one the state held if the state was already on [D] with a first
    activity set, and the time of the first of these inputs otherwise (a
    state of another date, or of [D] with nothing recorded yet). *)
Theorem day_first_and_last ins st D t0 ts :
  recorded ins = t0 :: ts →
  Forall (λ t, strftime_date t = D) (t0 :: ts) →
  _current_date (listen ins st) = D ∧
  _last_activity (listen ins st) = last (t0 :: ts) ∧
  (_current_date st ≠ D ∨ _first_activity st = None →
   _first_activity (listen ins st) = Some t0) ∧
  (∀ f, _current_date st = D → _first_activity st = Some f →
        _first_activity (listen ins st) = Some f).
Proof.
  intros Hrec Hts. rewrite listen_recorded, Hrec, (record_all_day _ _ _ D) by done.
  cbn [_current_date _first_activity _last_activity].
  split; [done|]. split; [done|]. split.
  - intros [Hne|Hnone].
    + by rewrite decide_False.
    + rewrite Hnone. by destruct (decide _).
  - intros f HD Hf. by rewrite decide_True, Hf.
Qed.

Lemma day_first_and_last_witness :
  let t1 := mkDatetime 2024 6 3 9 2 11 0 in
  let t2 := mkDatetime 2024 6 3 9 2 45 0 in
  let t3 := mkDatetime 2024 6 3 9 3 0 0 in
  let ins := [(MouseMove 10 20, t1); (MouseClick 10 20 "left" true, t2);
              (MouseClick 10 20 "left" false, t3)] in
  let st := mkState "2024-06-03" None None in
  _current_date (listen ins st) = "2024-06-03" ∧
  _last_activity (listen ins st) = Some t2 ∧
  _first_activity (listen ins st) = Some t1.
Proof.
  intros t1 t2 t3 ins st.
  destruct (day_first_and_last ins st "2024-06-03" t1 [t2])
    as (Hd & Hl & Hf & _).
  - reflexivity.
  - repeat constructor.
  - split; [exact Hd|]. split; [exact Hl|]. apply Hf. by right.
Defined.

End DayInputs.

(** ** What a flush writes *)

Section FlushEffect.
Import Csv Fs Tracker.

Lemma flush_lines_length3 D f l lines :
  Forall (λ l, length l = 3) lines →
  Forall (λ l, length l = 3) (flush_lines D f l lines).
Proof.
  intros Hl. induction Hl as [|x lines Hx Hl IH]; simpl.
  - by repeat constructor.
  - destruct (decide _); by constructor.
Qed.

Lemma flush_lines_dates D f l lines :
  line_date <$> flush_lines D f l lines
  = if decide (Some D ∈ line_date <$> lines) then line_date <$> lines
    else (line_date <$> lines) ++ [Some D].
Proof.
  induction lines as [|x lines IH]; cbn [flush_lines].
  - rewrite fmap_nil. destruct (decide _) as [H|_]; [|done].
    by apply elem_of_nil in H.
  - rewrite (fmap_cons line_date x lines).
    destruct (decide (line_date x = Some D)) as [Hx|Hx].
    + rewrite fmap_cons. rewrite decide_True by (rewrite <-Hx; left).
      cbn [line_date head]. by rewrite <-Hx.
    + rewrite fmap_cons, IH.
      destruct (decide (Some D ∈ line_date <$> lines)).
      * rewrite decide_True by (by right). done.
      * rewrite decide_False; [done|].
        intros [?|?]%elem_of_cons; congruence.
Qed.

Lemma flush_lines_date D f l lines :
  filter (λ x, line_date x = Some D) (flush_lines D f l lines)
  = [D; f; l] :: tail (filter (λ x, line_date x = Some D) lines).
Proof.
  induction lines as [|x lines IH]; simpl.
  - by rewrite filter_cons_True.
  - destruct (decide (line_date x = Some D)) as [Hx|Hx].
    + by rewrite !filter_cons_True.
    + by rewrite !filter_cons_False.
Qed.

Lemma flush_lines_again D f1 l1 f2 l2 lines :
  flush_lines D f2 l2 (flush_lines D f1 l1 lines) = flush_lines D f2 l2 lines.
Proof.
  induction lines as [|x lines IH]; simpl.
  - by rewrite decide_True.
  - destruct (decide (line_date x = Some D)) as [Hx|Hx]; simpl.
    + by rewrite decide_True.
    + rewrite decide_False by done. by f_equal.
Qed.

Lemma flush_lines_nodup D f l lines :
  NoDup (line_date <$> lines) →
  NoDup (line_date <$> flush_lines D f l lines).
Proof.
  intros Hnd. rewrite flush_lines_dates. destruct (decide _); [done|].
  apply NoDup_app. split; [done|]. split; [|apply NoDup_singleton].
  intros d Hd ->%list_elem_of_singleton. done.
Qed.

Lemma insert_under_final_tmp {V} (p tmp : Path) (new old : V)
    (fs : gmap Path V) :
  <[p := new]> (delete tmp (<[p := old]> (delete tmp fs)))
  = <[p := new]> (delete tmp fs).
Proof.
  apply map_eq. intros q.
  destruct (decide (q = p)) as [->|Hq]; [by rewrite !lookup_insert_eq|].
  rewrite !lookup_insert_ne by done.
  destruct (decide (q = tmp)) as [->|Hq']; [by rewrite !lookup_delete_eq|].
  by rewrite !lookup_delete_ne, lookup_insert_ne, lookup_delete_ne by done.
Qed.

Lemma log_dir_twice (ds : gset string) :
  {[LOG_DIR]} ∪ ({[LOG_DIR]} ∪ ds) = {[LOG_DIR]} ∪ ds.
Proof. set_solver. Qed.

(** Property X2.  On a disk that does not fail, with an activity table
    that is missing or conforms to its schema, a flush of a state whose
    date [D] is set returns and leaves a conforming table in which the
    first line of [D] shows the state's first and last activity (empty
    where unset); any further lines of [D] and the lines of every other
    date are as they were, in their order; a line is added, at the end,
    only when the table had none of [D].  The log directory exists
    afterwards, the temporary file does not, and no other file has
    changed. *)
Theorem flush_writes_the_day st ds fs :
  _current_date st ≠ "" →
  table_ok CSV_COLUMNS (fs !! LOG_FILE) →
  let D := _current_date st in
  let lines := table_lines (fs !! LOG_FILE) in
  ∃ σ' lines',
    _flush_today st (mkSys ds fs None) = (σ', Ok tt) ∧
    files σ' !! LOG_FILE = Some (CSV_COLUMNS :: lines') ∧
    Forall (λ x, length x = 3) lines' ∧
    filter (λ x, line_date x = Some D) lines'
      = [D; _fmt (_first_activity st); _fmt (_last_activity st)]
          :: tail (filter (λ x, line_date x = Some D) lines) ∧
    filter (λ x, line_date x ≠ Some D) lines'
      = filter (λ x, line_date x ≠ Some D) lines ∧
    line_date <$> lines'
      = (if decide (Some D ∈ line_date <$> lines) then line_date <$> lines
         else (line_date <$> lines) ++ [Some D]) ∧
    LOG_DIR ∈ dirs σ' ∧
    files σ' !! with_suffix LOG_FILE ".tmp" = None ∧
    ∀ q, q ≠ LOG_FILE → q ≠ with_suffix LOG_FILE ".tmp" →
         files σ' !! q = fs !! q.
Proof.
  intros Hd Hok D lines. rewrite flush_today_run by done.
  eexists _, _. split; [done|]. cbn [files dirs].
  split; [by rewrite lookup_insert_eq|].
  split.
  { apply flush_lines_length3.
    by apply (conforming_lines_length CSV_COLUMNS). }
  split; [apply flush_lines_date|].
  split; [apply flush_lines_others|].
  split; [apply flush_lines_dates|].
  split; [set_solver|].
  split; [by rewrite lookup_insert_ne, lookup_delete_eq|].
  intros q Hq Hq'. by rewrite lookup_insert_ne, lookup_delete_ne.
Qed.

Lemma flush_writes_the_day_witness :
  let st := mkState "2024-06-03" (Some (mkDatetime 2024 6 3 9 2 11 0))
              (Some (mkDatetime 2024 6 3 9 2 45 0)) in
  let fs : gmap Path (list (list string)) :=
    {[LOG_FILE := [CSV_COLUMNS; ["2024-06-02"; "08:00:00"; "17:00:00"];
                   ["2024-06-03"; "09:02:11"; "09:02:30"]]]} in
  ∃ σ',
    _flush_today st (mkSys ∅ fs None) = (σ', Ok tt) ∧
    files σ' !! LOG_FILE
    = Some [CSV_COLUMNS; ["2024-06-02"; "08:00:00"; "17:00:00"];
            ["2024-06-03"; "09:02:11"; "09:02:45"]].
Proof.
  intros st fs.
  destruct (flush_writes_the_day st ∅ fs) as (σ' & lines' & Hrun & _).
  - done.
  - eexists. split; [by vm_compute|]. by repeat constructor.
  - exists σ'. split; [exact Hrun|].
    assert ((_flush_today st (mkSys ∅ fs None)).1 = σ') as <- by (by rewrite Hrun).
    by vm_compute.
Defined.

(** Property X3.  Two flushes of the same day, with nothing but input
    events between them, leave the disk exactly as the second alone would:
    the later flush overwrites the day's line and adds none.  In
    particular flushing an unchanged state twice is the same as flushing
    it once. *)
Theorem flush_overwrites_earlier_flush st1 st2 ds fs :
  _current_date st1 ≠ "" →
  _current_date st2 = _current_date st1 →
  table_ok CSV_COLUMNS (fs !! LOG_FILE) →
  (_ ← _flush_today st1; _flush_today st2) (mkSys ds fs None)
  = _flush_today st2 (mkSys ds fs None).
Proof.
  intros Hd Hsame Hok.
  rewrite io_bind_unfold, flush_today_run by done.
  rewrite !flush_today_run; [|congruence|done|congruence|].
  - rewrite lookup_insert_eq. cbn [table_lines].
    rewrite Hsame, flush_lines_again, log_dir_twice.
    by rewrite insert_under_final_tmp.
  - rewrite lookup_insert_eq. eexists. split; [done|].
    apply flush_lines_length3. by apply (conforming_lines_length CSV_COLUMNS).
Qed.

Lemma flush_overwrites_earlier_flush_witness :
  let st1 := mkState "2024-06-03" (Some (mkDatetime 2024 6 3 9 2 11 0))
               (Some (mkDatetime 2024 6 3 9 2 45 0)) in
  let st2 := mkState "2024-06-03" (Some (mkDatetime 2024 6 3 9 2 11 0))
               (Some (mkDatetime 2024 6 3 17 30 0 0)) in
  (_ ← _flush_today st1; _flush_today st2) (mkSys ∅ ∅ None)
  = _flush_today st2 (mkSys ∅ ∅ None) ∧
  files (_flush_today st2 (mkSys ∅ ∅ None)).1 !! LOG_FILE
  = Some [CSV_COLUMNS; ["2024-06-03"; "09:02:11"; "17:30:00"]].
Proof.
  intros st1 st2. split; [|by vm_compute].
  by apply (flush_overwrites_earlier_flush st1 st2 ∅ ∅).
Defined.

End FlushEffect.

(** ** The activity table over the life of the process *)

Section ProcessTable.
Import Csv Fs Tracker.

Lemma flush_keeps_table st ds fs :
  table_inv (fs !! LOG_FILE) →
  ∃ ds' fs',
    _flush_today st (mkSys ds fs None) = (mkSys ds' fs' None, Ok tt) ∧
    table_inv (fs' !! LOG_FILE) ∧
    (line_date <$> table_lines (fs !! LOG_FILE))
      `prefix_of` (line_date <$> table_lines (fs' !! LOG_FILE)).
Proof.
  intros [Hok Hnd]. destruct (decide (_current_date st = "")) as [Hd|Hd].
  - exists ds, fs. split; [|done].
    unfold _flush_today. by rewrite decide_True.
  - rewrite flush_today_run by done. eexists _, _. split; [done|].
    rewrite lookup_insert_eq. cbn [table_lines]. split; [split|].
    + eexists. split; [done|]. apply flush_lines_length3.
      by apply (conforming_lines_length CSV_COLUMNS).
    + by apply flush_lines_nodup.
    + rewrite flush_lines_dates. destruct (decide _); [done|].
      by apply prefix_app_r.
Qed.

Lemma step_keeps_table ev p ds fs :
  table_inv (fs !! LOG_FILE) →
  ∃ ds' fs' p',
    step ev p (mkSys ds fs None) = (mkSys ds' fs' None, Ok p') ∧
    table_inv (fs' !! LOG_FILE) ∧
    (line_date <$> table_lines (fs !! LOG_FILE))
      `prefix_of` (line_date <$> table_lines (fs' !! LOG_FILE)).
Proof.
  intros Hinv.
  destruct (flush_keeps_table (state p) ds fs Hinv)
    as (ds' & fs' & Hflush & Hinv' & Hpre).
  destruct ev as [now| |now|]; cbn [step].
  - by eexists ds, fs, _.
  - rewrite io_bind_unfold, Hflush. by eexists ds', fs', _.
  - unfold _date_rollover_check. destruct (decide _).
    + rewrite !io_bind_unfold, Hflush. by eexists ds', fs', _.
    + by eexists ds, fs, _.
  - rewrite io_bind_unfold, Hflush. by eexists ds', fs', _.
Qed.

(** Property X4.  Take the process on a disk that does not fail, with an
    activity table that is missing or conforms to its schema and has at
    most one line per date, and a run whose steps follow one another
    without overlap: each input event, each flush of the timer, each
    wake-up of the rollover detector (its flush and its reset) and the
    exit has run to completion when the next begins.  In whatever order
    these steps come and with whatever clock readings, no step raises, the
    table stays conforming with at most one line per date, and the dates
    it held are still there in their order: days are only ever added at
    the end, never dropped or reordered.  (Two flushes that overlap in
    time share the temporary file; such runs are outside this
    statement.) *)
Theorem run_keeps_table evs : ∀ p ds fs,
  table_inv (fs !! LOG_FILE) →
  ∃ ds' fs' p',
    run evs p (mkSys ds fs None) = (mkSys ds' fs' None, Ok p') ∧
    table_inv (fs' !! LOG_FILE) ∧
    (line_date <$> table_lines (fs !! LOG_FILE))
      `prefix_of` (line_date <$> table_lines (fs' !! LOG_FILE)).
Proof.
  induction evs as [|ev evs IH]; intros p ds fs Hinv.
  - by exists ds, fs, p.
  - destruct (step_keeps_table ev p ds fs Hinv)
      as (ds1 & fs1 & p1 & Hstep & Hinv1 & Hpre1).
    destruct (IH p1 ds1 fs1 Hinv1) as (ds2 & fs2 & p2 & Hrun & Hinv2 & Hpre2).
    exists ds2, fs2, p2. cbn [run]. rewrite io_bind_unfold, Hstep.
    split; [done|]. split; [done|]. by etrans.
Qed.

Lemma run_keeps_table_witness :
  let t1 := mkDatetime 2024 6 3 23 59 0 0 in
  let t2 := mkDatetime 2024 6 4 0 0 30 0 in
  let t3 := mkDatetime 2024 6 4 0 1 0 0 in
  let evs := [Activity t1; FlushTimer; DateCheck t2; Activity t3; ExitApp] in
  let p := mkProc (mkState "2024-06-03" None None) "2024-06-03" in
  let fs : gmap Path (list (list string)) :=
    {[LOG_FILE := [CSV_COLUMNS; ["2024-06-02"; "08:00:00"; "17:00:00"]]]} in
  ∃ ds' fs' p',
    run evs p (mkSys ∅ fs None) = (mkSys ds' fs' None, Ok p') ∧
    table_inv (fs' !! LOG_FILE) ∧
    (line_date <$> table_lines (fs !! LOG_FILE))
      `prefix_of` (line_date <$> table_lines (fs' !! LOG_FILE)).
Proof.
  intros t1 t2 t3 evs p fs. apply (run_keeps_table evs p ∅ fs).
  split.
  - eexists. split; [by vm_compute|]. by repeat constructor.
  - assert (table_lines (fs !! LOG_FILE)
            = [["2024-06-02"; "08:00:00"; "17:00:00"]]) as -> by (by vm_compute).
    apply NoDup_singleton.
Defined.

End ProcessTable.

(** ** A flush that fails, and the next one *)

Section FlushRetry.
Import Csv Fs Tracker.

Lemma tick_files σ σ' r : tick σ = (σ', r) → files σ' = files σ ∧ dirs σ' = dirs σ.
Proof.
  unfold tick. destruct (budget σ) as [[|n]|]; by intros [= <- <-].
Qed.

Lemma mkdir_files d σ σ' r : mkdir d σ = (σ', r) → files σ' = files σ.
Proof.
  unfold mkdir. intros H.
  apply io_bind_inv in H as [(e & H & _)|([] & σ1 & H1 & H)].
  - by apply tick_files in H as [-> _].
  - apply tick_files in H1 as [<- _]. by injection H as <- _.
Qed.

Lemma open_w_files p σ σ' r :
  open_w p σ = (σ', r) →
  match r with
  | Ok _ => files σ' = <[p := []]> (files σ)
  | Raise _ => files σ' = files σ
  end.
Proof.
  unfold open_w. intros H.
  apply io_bind_inv in H as [(e & H & ->)|([] & σ1 & H1 & H)].
  - by apply tick_files in H as [-> _].
  - apply tick_files in H1 as [<- _]. simpl in H.
    destruct (decide _); by injection H as <- <-.
Qed.

Lemma write_line_files p line σ σ' r :
  write_line p line σ = (σ', r) →
  match r with
  | Ok _ => files σ' = alter (λ g, g ++ [line]) p (files σ)
  | Raise _ => files σ' = files σ
  end.
Proof.
  unfold write_line. intros H.
  apply io_bind_inv in H as [(e & H & ->)|([] & σ1 & H1 & H)].
  - by apply tick_files in H as [-> _].
  - apply tick_files in H1 as [<- _]. by injection H as <- <-.
Qed.

(** The creation of a missing table file, whatever the disk does: the
    file ends up absent, empty, or with its header, and with its header
    when the creation returns. *)
Lemma ensure_outcomes (p : Path) (columns : list string) σ σ' r :
  files σ !! p = None →
  (_ ← mkdir (parent p); e ← exists_ p;
   if (e : bool) then mret tt
   else _ ← open_w p; writeheader p columns) σ = (σ', r) →
  match r with
  | Ok _ => files σ' !! p = Some [columns]
  | Raise _ => files σ' !! p = None ∨ files σ' !! p = Some []
  end.
Proof.
  intros Hp H.
  apply io_bind_inv in H as [(e & H & ->)|([] & σ1 & H1 & H)].
  { apply mkdir_files in H. left. by rewrite H. }
  apply mkdir_files in H1.
  rewrite io_bind_unfold in H. unfold exists_ at 1 in H.
  rewrite H1, Hp, bool_decide_false in H by (by intros [??]).
  apply io_bind_inv in H as [(e & H & ->)|([] & σ2 & H2 & H)].
  { apply open_w_files in H. left. by rewrite H, H1. }
  apply open_w_files in H2. unfold writeheader in H.
  apply write_line_files in H. destruct r as [[]|e].
  - by rewrite H, H2, lookup_alter_eq, lookup_insert_eq.
  - right. by rewrite H, H2, lookup_insert_eq.
Qed.

Lemma flush_today_run_empty st ds fs :
  _current_date st ≠ "" →
  fs !! LOG_FILE = Some [] →
  _flush_today st (mkSys ds fs None)
  = (mkSys ({[LOG_DIR]} ∪ ds)
       (<[LOG_FILE := [CSV_COLUMNS;
                       [_current_date st; _fmt (_first_activity st);
                        _fmt (_last_activity st)]]]>
          (delete (with_suffix LOG_FILE ".tmp") fs)) None, Ok tt).
Proof.
  intros Hd Hp. unfold _flush_today. rewrite decide_False by done.
  rewrite io_bind_unfold. unfold _ensure_log_file.
  rewrite (ensure_run LOG_FILE CSV_COLUMNS), Hp.
  rewrite io_bind_unfold. unfold exists_ at 1. cbn [files].
  rewrite bool_decide_true by (rewrite Hp; eauto).
  rewrite io_bind_unfold, io_bind_unfold. unfold read_grid at 1. cbn [files].
  rewrite Hp. cbn [mret io_ret DictReader].
  rewrite io_bind_unfold. unfold lift at 1. cbn [update_today].
  apply flush_write_run; [set_solver|].
  constructor; [|done]. unfold CSV_COLUMNS. rewrite dict3.
  by apply dict_to_list_row3.
Qed.

(** What a failed flush leaves under the path of the table. *)
Lemma flush_failure_leaves st ds fs b σ' e :
  table_ok CSV_COLUMNS (fs !! LOG_FILE) →
  _flush_today st (mkSys ds fs b) = (σ', Raise e) →
  files σ' !! LOG_FILE = fs !! LOG_FILE ∨
  fs !! LOG_FILE = None ∧
    (files σ' !! LOG_FILE = Some [] ∨
     files σ' !! LOG_FILE = Some [CSV_COLUMNS]).
Proof.
  intros Hok H. destruct (fs !! LOG_FILE) as [g|] eqn:Hg.
  { left. by apply (flush_today_atomic st _ _ _ g) in H. }
  unfold _flush_today in H. destruct (decide _) as [Hd|Hd]; [done|].
  apply io_bind_inv in H as [(e' & H & _)|([] & σ1 & H1 & H)].
  { apply (ensure_outcomes LOG_FILE) in H; [|done]. naive_solver. }
  apply (ensure_outcomes LOG_FILE) in H1; [|done]. cbn beta iota in H1.
  right. split; [done|]. right.
  rewrite io_bind_unfold in H. unfold exists_ at 1 in H.
  rewrite H1, bool_decide_true in H by eauto.
  rewrite io_bind_unfold, io_bind_unfold in H. unfold read_grid at 1 in H.
  rewrite H1 in H. cbn [mret io_ret] in H.
  rewrite io_bind_unfold in H. unfold lift at 1 in H.
  destruct (update_today _ _ _ _) as [[rows updated]|e'].
  2:{ by injection H as <- _. }
  apply (write_csv_atomic LOG_FILE CSV_COLUMNS) in H; [|done].
  by rewrite H.
Qed.

(** Property X5.  A flush that raises, at whichever disk operation, does
    no harm to the next one: once the disk works again, a flush (of the
    same or of a later state) returns and leaves the table exactly as it
    would have had the failed flush never run.  This holds also when the
    failure hit the creation of the table file and left it empty. *)
Theorem flush_retry_after_failure st st2 ds fs b σ' e :
  _current_date st2 ≠ "" →
  table_ok CSV_COLUMNS (fs !! LOG_FILE) →
  _flush_today st (mkSys ds fs b) = (σ', Raise e) →
  let retry := _flush_today st2 (mkSys (dirs σ') (files σ') None) in
  retry.2 = Ok tt ∧
  files retry.1 !! LOG_FILE
  = files (_flush_today st2 (mkSys ds fs None)).1 !! LOG_FILE.
Proof.
  intros Hd Hok H retry. subst retry.
  rewrite (flush_today_run st2 ds fs) by done. cbn [fst files].
  rewrite lookup_insert_eq.
  destruct (flush_failure_leaves _ _ _ _ _ _ Hok H)
    as [Hsame|[Hnone [Hempty|Hheader]]].
  - rewrite flush_today_run by (done || by rewrite Hsame).
    cbn [fst snd files]. by rewrite lookup_insert_eq, Hsame.
  - rewrite flush_today_run_empty by done.
    cbn [fst snd files]. by rewrite lookup_insert_eq, Hnone.
  - rewrite flush_today_run; [|done|rewrite Hheader; by exists []].
    cbn [fst snd files]. by rewrite lookup_insert_eq, Hheader, Hnone.
Qed.

Lemma flush_retry_after_failure_witness :
  let st := mkState "2024-06-03" (Some (mkDatetime 2024 6 3 9 2 11 0))
              (Some (mkDatetime 2024 6 3 9 2 45 0)) in
  let st2 := mkState "2024-06-03" (Some (mkDatetime 2024 6 3 9 2 11 0))
               (Some (mkDatetime 2024 6 3 9 17 45 0)) in
  (* the disk fails while the header of the new table file is written *)
  let failed := _flush_today st (mkSys ∅ ∅ (Some 2)) in
  let retry := _flush_today st2 (mkSys (dirs failed.1) (files failed.1) None) in
  failed.2 = Raise OSError ∧
  files failed.1 !! LOG_FILE = Some [] ∧
  retry.2 = Ok tt ∧
  files retry.1 !! LOG_FILE
  = Some [CSV_COLUMNS; ["2024-06-03"; "09:02:11"; "09:17:45"]].
Proof.
  intros st st2 failed retry.
  assert (failed.2 = Raise OSError) as Hr by (by vm_compute).
  destruct (flush_retry_after_failure st st2 ∅ ∅ (Some 2) failed.1 OSError)
    as [Hok Hfile].
  - done.
  - done.
  - rewrite <-Hr. apply surjective_pairing.
  - split; [exact Hr|]. split; [by vm_compute|]. split; [exact Hok|].
    subst retry. rewrite Hfile. by vm_compute.
Defined.

End FlushRetry.

(** ** The rollover detector *)

Section Detector.
Import Csv Fs Tracker.

(** Property X6.  A wake-up of the rollover detector on the date it
    already knows changes nothing: not the state, not its remembered
    date, not the disk.  On a new date, with the state still holding the
    day that ended, a conforming table and a disk that does not fail, it
    writes that day's first and last activity as they stand under that
    day's date, leaves the lines of every other date alone, resets the
    state to the new date with both timestamps unset and remembers the
    new date; its later wake-ups on that date then change nothing, and
    the next input event of the new day sets first and last to its own
    time. *)
Theorem detector_flushes_then_resets now st lkd ds fs :
  (strftime_date now = lkd →
   ∀ σ, _date_rollover_check now st lkd σ = (σ, Ok (st, lkd))) ∧
  (strftime_date now ≠ lkd →
   _current_date st ≠ "" →
   table_ok CSV_COLUMNS (fs !! LOG_FILE) →
   let D := _current_date st in
   let today := strftime_date now in
   let st' := mkState today None None in
   ∃ σ' lines',
     _date_rollover_check now st lkd (mkSys ds fs None)
       = (σ', Ok (st', today)) ∧
     files σ' !! LOG_FILE = Some (CSV_COLUMNS :: lines') ∧
     filter (λ x, line_date x = Some D) lines'
       = [D; _fmt (_first_activity st); _fmt (_last_activity st)]
           :: tail (filter (λ x, line_date x = Some D)
                      (table_lines (fs !! LOG_FILE))) ∧
     filter (λ x, line_date x ≠ Some D) lines'
       = filter (λ x, line_date x ≠ Some D) (table_lines (fs !! LOG_FILE)) ∧
     (∀ now2, strftime_date now2 = today →
        _date_rollover_check now2 st' today σ' = (σ', Ok (st', today))) ∧
     (∀ now2, strftime_date now2 = today →
        _record_activity now2 st' = mkState today (Some now2) (Some now2))).
Proof.
  split.
  - intros Heq σ. unfold _date_rollover_check. by rewrite decide_False by auto.
  - intros Hnew Hd Hok D today st'. unfold _date_rollover_check at 1.
    rewrite decide_True by done.
    rewrite io_bind_unfold, flush_today_run by done.
    eexists _, _. split; [done|]. cbn [files].
    split; [by rewrite lookup_insert_eq|].
    split; [apply flush_lines_date|].
    split; [apply flush_lines_others|].
    split.
    + intros now2 Hnow2. unfold _date_rollover_check.
      by rewrite decide_False by auto.
    + intros now2 Hnow2. unfold _record_activity. cbn [_current_date].
      by rewrite decide_False by auto.
Qed.

Lemma detector_flushes_then_resets_witness :
  let st := mkState "2024-06-03" (Some (mkDatetime 2024 6 3 9 2 11 0))
              (Some (mkDatetime 2024 6 3 17 30 0 0)) in
  let now := mkDatetime 2024 6 4 0 0 40 0 in
  let fs : gmap Path (list (list string)) :=
    {[LOG_FILE := [CSV_COLUMNS; ["2024-06-03"; "09:02:11"; "17:15:00"]]]} in
  ∃ σ',
    _date_rollover_check now st "2024-06-03" (mkSys ∅ fs None)
      = (σ', Ok (mkState "2024-06-04" None None, "2024-06-04")) ∧
    files σ' !! LOG_FILE
    = Some [CSV_COLUMNS; ["2024-06-03"; "09:02:11"; "17:30:00"]].
Proof.
  intros st now fs.
  destruct (proj2 (detector_flushes_then_resets now st "2024-06-03" ∅ fs))
    as (σ' & lines' & Hrun & _).
  - done.
  - done.
  - eexists. split; [by vm_compute|]. by repeat constructor.
  - exists σ'. split; [exact Hrun|].
    assert ((_date_rollover_check now st "2024-06-03" (mkSys ∅ fs None)).1 = σ')
      as <- by (by rewrite Hrun).
    by vm_compute.
Defined.

End Detector.

(** ** The text of a date *)

Section DateText.
Import Tracker.

Lemma string_compare_refl s : String.compare s s = Eq.
Proof.
  pose proof (String.compare_antisym s s) as H.
  by destruct (String.compare s s).
Qed.

Lemma string_compare_lt_trans a b c :
  String.compare a b = Lt → String.compare b c = Lt → String.compare a c = Lt.
Proof.
  intros Hab Hbc.
  assert (String.le a b) as Lab by (unfold String.le, String.leb; by rewrite Hab).
  assert (String.le b c) as Lbc by (unfold String.le, String.leb; by rewrite Hbc).
  assert (String.le a c) as Lac by (by etrans).
  unfold String.le, String.leb in Lac.
  destruct (String.compare a c) eqn:Hac; [|done|done].
  apply String.compare_eq_iff in Hac as ->.
  rewrite String.compare_antisym, Hbc in Hab. done.
Qed.

(** Strings that start with parts of one length compare part by part. *)
Lemma string_compare_app a : ∀ b s t,
  String.length a = String.length b →
  String.compare (a +:+ s) (b +:+ t)
  = match String.compare a b with
    | Eq => String.compare s t
    | c => c
    end.
Proof.
  induction a as [|x a IH]; intros [|y b] s t Hlen; try done.
  simpl in *. destruct (Ascii.compare x y); [|done..].
  apply IH. congruence.
Qed.

(** The numbers below a power of ten, padded to its width, all have
    that width and stand in increasing order. *)
Lemma pad_steps (width : nat) (bound : nat) :
  forallb (λ n, Nat.eqb (String.length (pad width (Z.of_nat n))) width)
    (seq 0 bound) = true →
  forallb (λ n, String.ltb (pad width (Z.of_nat n))
                  (pad width (Z.of_nat (S n)))) (seq 0 (pred bound)) = true →
  ∀ i j, (i < j < bound)%nat →
    String.length (pad width (Z.of_nat i)) = width ∧
    String.length (pad width (Z.of_nat j)) = width ∧
    String.compare (pad width (Z.of_nat i)) (pad width (Z.of_nat j)) = Lt.
Proof.
  rewrite !forallb_forall. intros Hlen Hstep.
  assert (∀ n, (n < bound)%nat →
               String.length (pad width (Z.of_nat n)) = width) as Hlen'.
  { intros n Hn. apply Nat.eqb_eq, Hlen, in_seq. lia. }
  assert (∀ n, (S n < bound)%nat →
               String.compare (pad width (Z.of_nat n))
                 (pad width (Z.of_nat (S n))) = Lt) as Hstep'.
  { intros n Hn. specialize (Hstep n). unfold String.ltb in Hstep.
    destruct (String.compare _ _); [|done|];
      (enough (false = true) by done; apply Hstep, in_seq; lia). }
  intros i j [Hij Hj]. split; [apply Hlen'; lia|]. split; [by apply Hlen'|].
  induction j as [|j IH]; [lia|].
  destruct (decide (i = j)) as [->|Hne]; [by apply Hstep'|].
  eapply string_compare_lt_trans; [apply IH; lia|by apply Hstep'].
Qed.

Lemma pad_compare (width bound : nat) (x y : Z) :
  (∀ i j, (i < j < bound)%nat →
     String.length (pad width (Z.of_nat i)) = width ∧
     String.length (pad width (Z.of_nat j)) = width ∧
     String.compare (pad width (Z.of_nat i)) (pad width (Z.of_nat j)) = Lt) →
  (0 ≤ x < Z.of_nat bound)%Z → (0 ≤ y < Z.of_nat bound)%Z →
  String.compare (pad width x) (pad width y) = (x ?= y)%Z.
Proof.
  intros Hpad Hx Hy.
  rewrite <-(Z2Nat.id x), <-(Z2Nat.id y) by lia.
  destruct (Z.compare_spec (Z.of_nat (Z.to_nat x)) (Z.of_nat (Z.to_nat y)))
    as [Heq|Hlt|Hgt].
  - rewrite Heq. apply string_compare_refl.
  - apply Hpad. lia.
  - rewrite String.compare_antisym.
    destruct (Hpad (Z.to_nat y) (Z.to_nat x)) as (_ & _ & ->); [lia|done].
Qed.

Lemma pad4_steps : ∀ i j, (i < j < Z.to_nat 10000)%nat →
  String.length (pad 4 (Z.of_nat i)) = 4%nat ∧
  String.length (pad 4 (Z.of_nat j)) = 4%nat ∧
  String.compare (pad 4 (Z.of_nat i)) (pad 4 (Z.of_nat j)) = Lt.
Proof. apply pad_steps; by vm_compute. Qed.

Lemma pad2_steps : ∀ i j, (i < j < Z.to_nat 100)%nat →
  String.length (pad 2 (Z.of_nat i)) = 2%nat ∧
  String.length (pad 2 (Z.of_nat j)) = 2%nat ∧
  String.compare (pad 2 (Z.of_nat i)) (pad 2 (Z.of_nat j)) = Lt.
Proof. apply pad_steps; by vm_compute. Qed.

Lemma pad_length4 x : (0 ≤ x < 10000)%Z → String.length (pad 4 x) = 4%nat.
Proof.
  intros Hx. rewrite <-(Z2Nat.id x) by lia.
  destruct (decide (Z.to_nat x = 0)%nat) as [->|Hne].
  - by vm_compute.
  - by destruct (pad4_steps 0 (Z.to_nat x)) as (_ & ? & _); [lia|].
Qed.

Lemma pad_length2 x : (0 ≤ x < 100)%Z → String.length (pad 2 x) = 2%nat.
Proof.
  intros Hx. rewrite <-(Z2Nat.id x) by lia.
  destruct (decide (Z.to_nat x = 0)%nat) as [->|Hne].
  - by vm_compute.
  - by destruct (pad2_steps 0 (Z.to_nat x)) as (_ & ? & _); [lia|].
Qed.

Lemma strftime_date_compare a b :
  calendar_date a → calendar_date b →
  String.compare (strftime_date a) (strftime_date b)
  = lex_compare (date_key a) (date_key b).
Proof.
  intros (Hy & Hm & Hd) (Hy' & Hm' & Hd'). unfold strftime_date, date_key.
  rewrite string_compare_app by (rewrite !pad_length4; [done|lia..]).
  rewrite (pad_compare 4 (Z.to_nat 10000)) by (apply pad4_steps || lia).
  cbn [lex_compare]. destruct (year a ?= year b)%Z; [|done..].
  change ("-" +:+ ?s) with (String "-" s). cbn [String.compare Ascii.compare].
  change (String.compare (String "-" ?s) (String "-" ?t))
    with (String.compare s t).
  rewrite string_compare_app by (rewrite !pad_length2; [done|lia..]).
  rewrite (pad_compare 2 (Z.to_nat 100)) by (apply pad2_steps || lia).
  destruct (month a ?= month b)%Z; [|done..].
  change ("-" +:+ ?s) with (String "-" s).
  change (String.compare (String "-" ?s) (String "-" ?t))
    with (String.compare s t).
  rewrite (pad_compare 2 (Z.to_nat 100)) by (apply pad2_steps || lia).
  by destruct (day a ?= day b)%Z.
Qed.

Lemma dt_le_date_key a b :
  dt_le a b → lex_compare (date_key a) (date_key b) ≠ Gt.
Proof.
  unfold dt_le, dt_key, date_key. cbn [lex_compare].
  destruct (year a ?= year b)%Z; [|done..].
  destruct (month a ?= month b)%Z; [|done..].
  by destruct (day a ?= day b)%Z.
Qed.

(** Property X7.  For clock readings with a calendar date of four-digit
    year, the text [%Y-%m-%d] orders as the calendar does: comparing two
    date texts as strings is comparing year, then month, then day.  So
    two readings have the same text exactly when they are on the same
    day, and a later reading never has a text that sorts before an
    earlier one's: the table's dates, sorted as strings, are in
    calendar order. *)
Theorem date_text_orders_as_calendar a b :
  calendar_date a → calendar_date b →
  String.compare (strftime_date a) (strftime_date b)
    = lex_compare (date_key a) (date_key b) ∧
  (strftime_date a = strftime_date b ↔ date_key a = date_key b) ∧
  (dt_le a b → String.le (strftime_date a) (strftime_date b)).
Proof.
  intros Ha Hb. pose proof (strftime_date_compare a b Ha Hb) as Hcmp.
  split; [done|]. split; [split|].
  - intros Heq. rewrite Heq, string_compare_refl in Hcmp.
    unfold date_key in *. cbn [lex_compare] in Hcmp.
    destruct (Z.compare_spec (year a) (year b)); [|done..].
    destruct (Z.compare_spec (month a) (month b)); [|done..].
    destruct (Z.compare_spec (day a) (day b)); [|done..].
    congruence.
  - unfold date_key, strftime_date. by intros [= -> -> ->].
  - intros Hle%dt_le_date_key. unfold String.le, String.leb.
    rewrite Hcmp. by destruct (lex_compare _ _).
Qed.

Lemma date_text_orders_as_calendar_witness :
  let a := mkDatetime 2024 9 30 23 59 59 0 in
  let b := mkDatetime 2024 10 1 0 0 1 0 in
  strftime_date a = "2024-09-30" ∧ strftime_date b = "2024-10-01" ∧
  String.compare (strftime_date a) (strftime_date b) = Lt ∧
  String.le (strftime_date a) (strftime_date b).
Proof.
  intros a b.
  assert (calendar_date a) as Ha by (unfold calendar_date; simpl; lia).
  assert (calendar_date b) as Hb by (unfold calendar_date; simpl; lia).
  destruct (date_text_orders_as_calendar a b Ha Hb) as (Hcmp & _ & Hle).
  split; [by vm_compute|]. split; [by vm_compute|].
  split; [by rewrite Hcmp|]. by apply Hle.
Defined.

End DateText.

(** ** Writing a table and reading it back *)

Section RoundTrip.
Import Csv Fs ShipStation.

Lemma lookup_foldl_insert {V} (g : string → V) (l : list string) : ∀ acc k,
  foldl (λ (d : gmap string V) kv, <[kv.1 := kv.2]> d) acc
    ((λ key, (key, g key)) <$> l) !! k
  = if decide (k ∈ l) then Some (g k) else acc !! k.
Proof.
  induction l as [|x l IH]; intros acc k; cbn [fmap list_fmap foldl].
  - rewrite decide_False; [done|]. by intros ?%elem_of_nil.
  - rewrite IH. cbn [fst snd]. destruct (decide (k ∈ l)) as [Hin|Hnin].
    + by rewrite decide_True by (by right).
    + destruct (decide (k = x)) as [->|Hne].
      * rewrite decide_True by left. by rewrite lookup_insert_eq.
      * rewrite decide_False by (intros [?|?]%elem_of_cons; done).
        by rewrite lookup_insert_ne.
Qed.

Lemma zip_fmap_same {A B} (f : A → B) (l : list A) :
  zip l (f <$> l) = (λ x, (x, f x)) <$> l.
Proof. induction l as [|x l IH]; [done|]. simpl. by f_equal. Qed.

Lemma dict_of_line_written columns row line :
  dict_to_list columns row = Ok line →
  dict_of_line columns line = written_row columns row ∧
  length line = length columns.
Proof.
  unfold dict_to_list. destruct (decide _); [|done]. intros [= <-].
  split; [|by rewrite length_fmap].
  unfold dict_of_line, written_row, dict.
  rewrite !length_fmap, Nat.sub_diag. cbn [replicate]. rewrite app_nil_r.
  rewrite decide_False by lia. f_equal. f_equal.
  by rewrite <-list_fmap_compose, zip_fmap_same.
Qed.

Lemma written_row_plain columns row :
  plain_row columns row → written_row columns row = row.
Proof.
  intros (Hdom & Hstr & Hrest). destruct row as [c r]. simpl in *. subst r.
  unfold written_row, dict. f_equal. apply map_eq. intros k.
  rewrite lookup_foldl_insert, lookup_empty. unfold get. cbn [cells].
  destruct (decide (k ∈ columns)) as [Hin|Hnin].
  - assert (k ∈ dom c) as [v Hv]%elem_of_dom by (rewrite Hdom; set_solver).
    rewrite Hv. destruct (Hstr k v Hv) as [s ->]. done.
  - symmetry. apply not_elem_of_dom. rewrite Hdom. set_solver.
Qed.

(** Property X8.  A table written by [_write_csv] under at least one
    column reads back by [_read_csv] as the rows that were written, each
    with exactly the columns as keys and, for each, the text written in
    its cell ([None] and a missing key having been written as the empty
    string).  Rows whose keys are the columns and whose cells are all
    strings read back unchanged. *)
Theorem write_then_read path columns columns' rows σ σ' :
  columns ≠ [] →
  _write_csv path columns rows σ = (σ', Ok tt) →
  _read_csv path columns' σ' = (σ', Ok (written_row columns <$> rows)) ∧
  (Forall (plain_row columns) rows → written_row columns <$> rows = rows).
Proof.
  intros Hcols H. apply write_csv_ok in H as (lines & Hrows & Hfile & _).
  split.
  - assert (dict_of_line columns <$> filter (λ l, l ≠ []) lines
            = written_row columns <$> rows) as Hlist.
    { clear Hfile.
      induction Hrows as [|row line rows lines Hrow Hrows IH]; [done|].
      apply dict_of_line_written in Hrow as [Hrow Hlen].
      rewrite filter_cons_True.
      - rewrite !fmap_cons. by f_equal.
      - intros ->. destruct columns; done. }
    unfold _read_csv. rewrite io_bind_unfold. unfold exists_ at 1.
    rewrite bool_decide_true by (rewrite Hfile; eauto).
    rewrite io_bind_unfold. unfold read_grid. rewrite Hfile.
    cbn [mret io_ret DictReader]. by rewrite Hlist.
  - intros Hplain. clear Hrows Hfile lines.
    induction Hplain as [|row rows' Hrow _ IH]; [done|].
    rewrite fmap_cons. f_equal; [by apply written_row_plain|done].
Qed.

Lemma write_then_read_witness :
  let rows := [dict [("Date", Some "2024-06-03");
                     ("Outstanding Orders", Some "7");
                     ("Shipped Today", None)]] in
  let σ := mkSys {[LOG_DIR]} ∅ None in
  let σ' := (_write_csv ORDERS_LOG ORDERS_COLUMNS rows σ).1 in
  _read_csv ORDERS_LOG ORDERS_COLUMNS σ'
  = (σ', Ok [dict [("Date", Some "2024-06-03");
                   ("Outstanding Orders", Some "7");
                   ("Shipped Today", Some "")]]).
Proof.
  intros rows σ σ'.
  destruct (write_then_read ORDERS_LOG ORDERS_COLUMNS ORDERS_COLUMNS rows σ σ')
    as [Hread _].
  - done.
  - by vm_compute.
  - rewrite Hread. do 2 f_equal.
Defined.

End RoundTrip.

(** ** Upserts for one date compose like assignments *)

Section UpsertCompose.
Import Csv Fs ShipStation.

Lemma union_twice (d : string) (ds : gset string) :
  {[d]} ∪ ({[d]} ∪ ds) = {[d]} ∪ ds.
Proof. set_solver. Qed.

Lemma set_field_commute A B va vb l :
  A ∈ value_fields → B ∈ value_fields → A ≠ B → length l = 3 →
  set_field B vb (set_field A va l) = set_field A va (set_field B vb l).
Proof.
  unfold value_fields. rewrite !elem_of_cons, !elem_of_nil.
  destruct l as [|a [|b [|c [|]]]]; try done.
  by intros [->|[->|[]]] [->|[->|[]]] ? _.
Qed.

Lemma set_field_again A v1 v2 l :
  A ∈ value_fields → length l = 3 →
  set_field A v2 (set_field A v1 l) = set_field A v2 l.
Proof.
  unfold value_fields. rewrite !elem_of_cons, !elem_of_nil.
  destruct l as [|a [|b [|c [|]]]]; try done.
  by intros [->|[->|[]]] _.
Qed.

Lemma upsert_lines_commute D A B va vb lines :
  A ∈ value_fields → B ∈ value_fields → A ≠ B →
  Forall (λ l, length l = 3) lines →
  upsert_lines D B vb (upsert_lines D A va lines)
  = upsert_lines D A va (upsert_lines D B vb lines).
Proof.
  intros HA HB HAB Hl. induction Hl as [|l lines Hlen Hl IH]; simpl.
  - rewrite !decide_True by (by rewrite set_field_date).
    by rewrite set_field_commute.
  - destruct (decide (line_date l = Some D)) as [Hd|Hd]; simpl.
    + rewrite !decide_True by (by rewrite set_field_date).
      by rewrite set_field_commute.
    + rewrite !decide_False by done. by f_equal.
Qed.

Lemma upsert_lines_again D A v1 v2 lines :
  A ∈ value_fields →
  Forall (λ l, length l = 3) lines →
  upsert_lines D A v2 (upsert_lines D A v1 lines) = upsert_lines D A v2 lines.
Proof.
  intros HA Hl. induction Hl as [|l lines Hlen Hl IH]; simpl.
  - rewrite !decide_True by (by rewrite set_field_date).
    by rewrite set_field_again.
  - destruct (decide (line_date l = Some D)) as [Hd|Hd]; simpl.
    + rewrite !decide_True by (by rewrite set_field_date).
      by rewrite set_field_again.
    + rewrite !decide_False by done. by f_equal.
Qed.

Lemma value_field_column A : A ∈ value_fields → A ∈ ORDERS_COLUMNS.
Proof. unfold value_fields, ORDERS_COLUMNS. rewrite !elem_of_cons. naive_solver. Qed.

(** Two upserts in a row, on a disk that does not fail. *)
Lemma upsert_twice_run D A B va vb ds fs :
  A ∈ value_fields → B ∈ value_fields →
  table_ok ORDERS_COLUMNS (fs !! ORDERS_LOG) →
  (_ ← _upsert_orders_row D A va; _upsert_orders_row D B vb) (mkSys ds fs None)
  = (mkSys ({[LOG_DIR]} ∪ ds)
       (<[ORDERS_LOG := ORDERS_COLUMNS ::
            upsert_lines D B (pretty vb)
              (upsert_lines D A (pretty va) (table_lines (fs !! ORDERS_LOG)))]>
          (delete (with_suffix ORDERS_LOG ".tmp") fs)) None, Ok tt).
Proof.
  intros HA HB Hok.
  rewrite io_bind_unfold, upsert_orders_row_run
    by (done || by apply value_field_column).
  rewrite upsert_orders_row_run; [|by apply value_field_column|].
  - rewrite lookup_insert_eq. cbn [table_lines].
    by rewrite union_twice, insert_under_final_tmp.
  - rewrite lookup_insert_eq. eexists. split; [done|].
    apply upsert_lines_conforms.
    by apply (conforming_lines_length ORDERS_COLUMNS).
Qed.

(** Property X9.  On a disk that does not fail and an orders table that
    is missing or conforms to its schema, the upserts of the two fields
    for one date commute: the morning count and the afternoon count of a
    day can be written in either order, and the disk ends up the same. *)
Theorem upserts_of_a_day_commute D A B va vb ds fs :
  A ∈ value_fields → B ∈ value_fields → A ≠ B →
  table_ok ORDERS_COLUMNS (fs !! ORDERS_LOG) →
  (_ ← _upsert_orders_row D A va; _upsert_orders_row D B vb) (mkSys ds fs None)
  = (_ ← _upsert_orders_row D B vb; _upsert_orders_row D A va)
      (mkSys ds fs None).
Proof.
  intros HA HB HAB Hok. rewrite !upsert_twice_run by done.
  rewrite upsert_lines_commute; [done..|].
  by apply (conforming_lines_length ORDERS_COLUMNS).
Qed.

Lemma upserts_of_a_day_commute_witness :
  let fs : gmap Path (list (list string)) :=
    {[ORDERS_LOG := [ORDERS_COLUMNS; ["2024-06-03"; "7"; ""]]]} in
  let run1 := (_ ← _upsert_orders_row "2024-06-04" "Outstanding Orders" 5;
               _upsert_orders_row "2024-06-04" "Shipped Today" 12)
                (mkSys ∅ fs None) in
  let run2 := (_ ← _upsert_orders_row "2024-06-04" "Shipped Today" 12;
               _upsert_orders_row "2024-06-04" "Outstanding Orders" 5)
                (mkSys ∅ fs None) in
  run1 = run2 ∧
  files run1.1 !! ORDERS_LOG
  = Some [ORDERS_COLUMNS; ["2024-06-03"; "7"; ""]; ["2024-06-04"; "5"; "12"]].
Proof.
  intros fs run1 run2. split; [|by vm_compute].
  apply (upserts_of_a_day_commute "2024-06-04" "Outstanding Orders"
           "Shipped Today" 5 12 ∅ fs).
  - unfold value_fields. set_solver.
  - unfold value_fields. set_solver.
  - done.
  - eexists. split; [by vm_compute|]. by repeat constructor.
Defined.

(** For two dates that both are new to the table the order shows: each
    upsert adds its line at the end. *)
Example upserts_of_two_days_do_not_commute :
  let σ := mkSys {[LOG_DIR]} ∅ None in
  files ((_ ← _upsert_orders_row "2024-06-03" "Outstanding Orders" 7;
          _upsert_orders_row "2024-06-04" "Outstanding Orders" 5) σ).1
    !! ORDERS_LOG
  ≠ files ((_ ← _upsert_orders_row "2024-06-04" "Outstanding Orders" 5;
            _upsert_orders_row "2024-06-03" "Outstanding Orders" 7) σ).1
      !! ORDERS_LOG.
Proof. by vm_compute. Qed.

(** Property X10.  On a disk that does not fail and an orders table that
    is missing or conforms to its schema, a second upsert of the same
    field for the same date replaces the value of the first and leaves
    the disk exactly as the second alone would: running a mode twice in a
    day keeps the later count and adds no line. *)
Theorem upsert_replaces_earlier_value D A v1 v2 ds fs :
  A ∈ value_fields →
  table_ok ORDERS_COLUMNS (fs !! ORDERS_LOG) →
  (_ ← _upsert_orders_row D A v1; _upsert_orders_row D A v2) (mkSys ds fs None)
  = _upsert_orders_row D A v2 (mkSys ds fs None).
Proof.
  intros HA Hok. rewrite upsert_twice_run by done.
  rewrite upsert_orders_row_run by (done || by apply value_field_column).
  rewrite upsert_lines_again; [done..|].
  by apply (conforming_lines_length ORDERS_COLUMNS).
Qed.

Lemma upsert_replaces_earlier_value_witness :
  let fs : gmap Path (list (list string)) :=
    {[ORDERS_LOG := [ORDERS_COLUMNS; ["2024-06-03"; "7"; "2"]]]} in
  let twice := (_ ← _upsert_orders_row "2024-06-03" "Outstanding Orders" 5;
                _upsert_orders_row "2024-06-03" "Outstanding Orders" 6)
                 (mkSys ∅ fs None) in
  twice = _upsert_orders_row "2024-06-03" "Outstanding Orders" 6
            (mkSys ∅ fs None) ∧
  files twice.1 !! ORDERS_LOG
  = Some [ORDERS_COLUMNS; ["2024-06-03"; "6"; "2"]].
Proof.
  intros fs twice. split; [|by vm_compute].
  apply (upsert_replaces_earlier_value "2024-06-03" "Outstanding Orders" 5 6 ∅ fs).
  - unfold value_fields. set_solver.
  - eexists. split; [by vm_compute|]. by repeat constructor.
Defined.

End UpsertCompose.

(** ** Each writer stays within its own files *)

Section Footprint.
Import Csv Fs.

Lemma mkdir_dirs d σ σ' r :
  mkdir d σ = (σ', r) → dirs σ' = dirs σ ∨ dirs σ' = {[d]} ∪ dirs σ.
Proof.
  unfold mkdir. intros H.
  apply io_bind_inv in H as [(e & H & _)|([] & σ1 & H1 & H)].
  - left. by apply tick_files in H as [_ ->].
  - apply tick_files in H1 as [_ <-]. right. by injection H as <- _.
Qed.

Lemma replace_frame src dst σ σ' r :
  replace src dst σ = (σ', r) →
  dirs σ' = dirs σ ∧
  ∀ q, q ≠ src → q ≠ dst → files σ' !! q = files σ !! q.
Proof.
  unfold replace. intros H.
  apply io_bind_inv in H as [(e & H & _)|([] & σ1 & H1 & H)].
  - by apply tick_files in H as [-> ->].
  - apply tick_files in H1 as [<- <-]. simpl in H.
    destruct (files σ1 !! src); injection H as <- _; [|done].
    split; [done|]. intros q Hs Hd. simpl.
    by rewrite lookup_insert_ne, lookup_delete_ne.
Qed.

Lemma write_csv_frame path columns rows σ σ' r :
  ShipStation._write_csv path columns rows σ = (σ', r) →
  dirs σ' = dirs σ ∧
  ∀ q, q ≠ path → q ≠ with_suffix path ".tmp" →
       files σ' !! q = files σ !! q.
Proof.
  unfold ShipStation._write_csv. set (tmp := with_suffix path ".tmp").
  intros H.
  assert (touches_only tmp
            (_ ← open_w tmp; _ ← writeheader tmp columns;
             writerows tmp columns rows)) as T.
  { apply touches_only_bind; [apply touches_only_open_w|]. intros _.
    apply touches_only_bind; [apply touches_only_write_line|]. intros _.
    apply touches_only_writerows. }
  apply io_bind_inv in H as [(e & H1 & _)|([] & σ1 & H1 & H)].
  - assert ((_ ← open_w tmp; _ ← writeheader tmp columns;
             writerows tmp columns rows) σ = (σ', Raise e)) as H'
      by (by rewrite io_bind_unfold, H1).
    apply T in H' as [Hd Hf]. split; [done|]. intros q _ Hq. by apply Hf.
  - apply io_bind_inv in H as [(e & H2 & _)|([] & σ2 & H2 & H)].
    + assert ((_ ← open_w tmp; _ ← writeheader tmp columns;
               writerows tmp columns rows) σ = (σ', Raise e)) as H'
        by (by rewrite io_bind_unfold, H1, io_bind_unfold, H2).
      apply T in H' as [Hd Hf]. split; [done|]. intros q _ Hq. by apply Hf.
    + apply io_bind_inv in H as [(e & H3 & _)|([] & σ3 & H3 & H)].
      * assert ((_ ← open_w tmp; _ ← writeheader tmp columns;
                 writerows tmp columns rows) σ = (σ', Raise e)) as H'
          by (by rewrite io_bind_unfold, H1, io_bind_unfold, H2).
        apply T in H' as [Hd Hf]. split; [done|]. intros q _ Hq. by apply Hf.
      * assert ((_ ← open_w tmp; _ ← writeheader tmp columns;
                 writerows tmp columns rows) σ = (σ3, Ok tt)) as H'
          by (by rewrite io_bind_unfold, H1, io_bind_unfold, H2).
        apply T in H' as [Hd Hf]. apply replace_frame in H as [Hd' Hf'].
        split; [congruence|]. intros q Hq1 Hq2.
        rewrite Hf', Hf; done.
Qed.

(** The creation of a table file changes no other file, and adds no
    directory but the file's own. *)
Lemma ensure_frame (p : Path) (columns : list string) σ σ' r :
  (_ ← mkdir (parent p); e ← exists_ p;
   if (e : bool) then mret tt
   else _ ← open_w p; writeheader p columns) σ = (σ', r) →
  (dirs σ' = dirs σ ∨ dirs σ' = {[parent p]} ∪ dirs σ) ∧
  ∀ q, q ≠ p → files σ' !! q = files σ !! q.
Proof.
  intros H.
  apply io_bind_inv in H as [(e & H & _)|([] & σ1 & H1 & H)].
  { split; [by apply mkdir_dirs in H|].
    apply mkdir_files in H. by rewrite H. }
  assert (touches_only p
            (e ← exists_ p;
             if (e : bool) then mret tt
             else _ ← open_w p; writeheader p columns)) as T.
  { apply touches_only_bind; [by intros ??? [= <- _]|]. intros [].
    - apply touches_only_ret.
    - apply touches_only_bind; [apply touches_only_open_w|]. intros _.
      apply touches_only_write_line. }
  apply T in H as [Hd Hf]. rewrite Hd. split; [by apply mkdir_dirs in H1|].
  apply mkdir_files in H1. intros q Hq. rewrite Hf, H1; done.
Qed.

(** Property X11.  Whatever the disk does, and whatever the files hold,
    each of the three writers stays within its own files: a flush of the
    tracker changes no file but the activity table and its temporary
    file, an upsert none but the orders table and its temporary file, a
    rebuild none but the combined file and its temporary file; the first
    two add no directory but the log directory, the rebuild adds none.  So
    the orders script never writes to the activity table it reads, and the
    tracker never writes to the orders table or to the combined file. *)
Theorem writers_keep_to_their_files σ :
  (∀ st,
     let σ' := (Tracker._flush_today st σ).1 in
     (dirs σ' = dirs σ ∨ dirs σ' = {[Tracker.LOG_DIR]} ∪ dirs σ) ∧
     ∀ q, q ≠ Tracker.LOG_FILE → q ≠ with_suffix Tracker.LOG_FILE ".tmp" →
          files σ' !! q = files σ !! q) ∧
  (∀ today field value,
     let σ' := (ShipStation._upsert_orders_row today field value σ).1 in
     (dirs σ' = dirs σ ∨ dirs σ' = {[ShipStation.LOG_DIR]} ∪ dirs σ) ∧
     ∀ q, q ≠ ShipStation.ORDERS_LOG →
          q ≠ with_suffix ShipStation.ORDERS_LOG ".tmp" →
          files σ' !! q = files σ !! q) ∧
  (let σ' := (ShipStation.rebuild_combined_log σ).1 in
   dirs σ' = dirs σ ∧
   ∀ q, q ≠ ShipStation.COMBINED_LOG →
        q ≠ with_suffix ShipStation.COMBINED_LOG ".tmp" →
        files σ' !! q = files σ !! q).
Proof.
  split; [|split].
  - intros st σ'. subst σ'.
    destruct (Tracker._flush_today st σ) as [σ' r] eqn:H. cbn [fst].
    unfold Tracker._flush_today in H.
    destruct (decide _); [injection H as <- _; by split; [left|]|].
    apply io_bind_inv in H as [(e & H & _)|([] & σ1 & H1 & H)].
    { apply (ensure_frame Tracker.LOG_FILE) in H as [Hd Hf].
      split; [done|]. intros q Hq _. by apply Hf. }
    apply (ensure_frame Tracker.LOG_FILE) in H1 as [Hd1 Hf1].
    assert (dirs σ' = dirs σ1 ∧
            ∀ q, q ≠ Tracker.LOG_FILE →
                 q ≠ with_suffix Tracker.LOG_FILE ".tmp" →
                 files σ' !! q = files σ1 !! q) as [Hd Hf].
    { rewrite io_bind_unfold in H. unfold exists_ at 1 in H.
      destruct (bool_decide _).
      - rewrite io_bind_unfold, io_bind_unfold in H.
        unfold read_grid at 1 in H.
        destruct (files σ1 !! Tracker.LOG_FILE);
          [|by injection H as <- _].
        cbn [mret io_ret] in H.
        rewrite io_bind_unfold in H. unfold lift at 1 in H.
        destruct (Tracker.update_today _ _ _ _) as [[rows updated]|e];
          [|by injection H as <- _].
        by apply write_csv_frame in H.
      - rewrite io_bind_unfold in H. cbn [mret io_ret] in H.
        rewrite io_bind_unfold in H. unfold lift at 1 in H.
        destruct (Tracker.update_today _ _ _ _) as [[rows updated]|e];
          [|by injection H as <- _].
        by apply write_csv_frame in H. }
    rewrite Hd. split; [done|]. intros q Hq1 Hq2. rewrite Hf, Hf1; done.
  - intros today field value σ'. subst σ'.
    destruct (ShipStation._upsert_orders_row today field value σ)
      as [σ' r] eqn:H. cbn [fst].
    unfold ShipStation._upsert_orders_row in H.
    apply io_bind_inv in H as [(e & H & _)|([] & σ1 & H1 & H)].
    { apply (ensure_frame ShipStation.ORDERS_LOG) in H as [Hd Hf].
      split; [done|]. intros q Hq _. by apply Hf. }
    apply (ensure_frame ShipStation.ORDERS_LOG) in H1 as [Hd1 Hf1].
    assert (dirs σ' = dirs σ1 ∧
            ∀ q, q ≠ ShipStation.ORDERS_LOG →
                 q ≠ with_suffix ShipStation.ORDERS_LOG ".tmp" →
                 files σ' !! q = files σ1 !! q) as [Hd Hf].
    { apply io_bind_inv in H as [(e & H & _)|(rows & σ2 & H2 & H)];
        [by apply read_csv_pure in H as ->|].
      apply read_csv_pure in H2 as ->.
      rewrite io_bind_unfold in H. unfold lift at 1 in H.
      destruct (ShipStation.find_row _ _) as [found|e];
        [|by injection H as <- _].
      destruct found; by apply write_csv_frame in H. }
    rewrite Hd. split; [done|]. intros q Hq1 Hq2. rewrite Hf, Hf1; done.
  - intros σ'. subst σ'.
    destruct (ShipStation.rebuild_combined_log σ) as [σ' r] eqn:H. cbn [fst].
    unfold ShipStation.rebuild_combined_log in H.
    apply io_bind_inv in H as [(e & H & _)|(arows & σ1 & H1 & H)];
      [by apply read_csv_pure in H as ->|].
    apply read_csv_pure in H1 as ->.
    apply io_bind_inv in H as [(e & H & _)|(orows & σ2 & H2 & H)];
      [by apply read_csv_pure in H as ->|].
    apply read_csv_pure in H2 as ->.
    rewrite io_bind_unfold in H. unfold lift at 1 in H.
    destruct (ShipStation.combine _ _) as [combined|e];
      [|by injection H as <- _].
    by apply write_csv_frame in H.
Qed.

End Footprint.

(** ** A table whose header has no date column *)

Section NoDateColumn.
Import Csv Fs.

Lemma lookup_foldl_insert_other (kvs : list (string * pyval)) :
  ∀ (acc : gmap string pyval) k,
  k ∉ kvs.*1 →
  foldl (λ d kv, <[kv.1 := kv.2]> d) acc kvs !! k = acc !! k.
Proof.
  induction kvs as [|[k' v] kvs IH]; intros acc k Hk; [done|].
  rewrite fmap_cons, not_elem_of_cons in Hk. destruct Hk as [Hne Hk].
  cbn [foldl]. rewrite IH by done. by rewrite lookup_insert_ne.
Qed.

Lemma dict_of_line_other_key fieldnames line k :
  k ∉ fieldnames → cells (dict_of_line fieldnames line) !! k = None.
Proof.
  intros Hk. unfold dict_of_line. cbn [cells].
  rewrite lookup_foldl_insert_other; [done|].
  intros Hin. apply list_elem_of_fmap in Hin as ([k' v] & -> & Hin).
  by apply elem_of_zip_l in Hin.
Qed.

Lemma first_row_without_date header lines :
  "Date" ∉ header → (∃ l, l ∈ lines ∧ l ≠ []) →
  ∃ r rs, DictReader (header :: lines) = r :: rs ∧
          getitem r "Date" = Raise KeyError.
Proof.
  intros Hh (l & Hl & Hne). cbn [DictReader].
  assert (l ∈ filter (λ l, l ≠ []) lines) as Hin
    by (by apply list_elem_of_filter).
  destruct (filter _ lines) as [|l' ls]; [by apply elem_of_nil in Hin|].
  eexists _, _. split; [by rewrite fmap_cons|].
  unfold getitem. by rewrite dict_of_line_other_key.
Qed.

Lemma by_date_raises rows : ∀ acc e,
  ShipStation.by_date rows acc = Raise e → e = KeyError.
Proof.
  induction rows as [|r rows IH]; intros acc e; [done|].
  cbn [ShipStation.by_date]. unfold getitem.
  destruct (cells r !! "Date"); cbn [mbind result_mbind result_bind].
  - apply IH.
  - by intros [= <-].
Qed.

(** Property X12.  A table file whose header has no column [Date] and
    which holds at least one line that is not blank stops all three
    operations, on a disk that does not fail: a flush of a day (when it is
    the activity table) and an upsert (when it is the orders table) raise
    [KeyError] having changed no file, and so does a rebuild when it is
    either of the two source tables. *)
Theorem table_without_date_column header lines ds fs :
  "Date" ∉ header → (∃ l, l ∈ lines ∧ l ≠ []) →
  (fs !! Tracker.LOG_FILE = Some (header :: lines) →
   ∀ st, Tracker._current_date st ≠ "" →
     Tracker._flush_today st (mkSys ds fs None)
     = (mkSys ({[Tracker.LOG_DIR]} ∪ ds) fs None, Raise KeyError)) ∧
  (fs !! ShipStation.ORDERS_LOG = Some (header :: lines) →
   ∀ today field value,
     ShipStation._upsert_orders_row today field value (mkSys ds fs None)
     = (mkSys ({[ShipStation.LOG_DIR]} ∪ ds) fs None, Raise KeyError)) ∧
  (fs !! ShipStation.ACTIVITY_LOG = Some (header :: lines) ∨
   fs !! ShipStation.ORDERS_LOG = Some (header :: lines) →
   ShipStation.rebuild_combined_log (mkSys ds fs None)
   = (mkSys ds fs None, Raise KeyError)).
Proof.
  intros Hh Hl.
  destruct (first_row_without_date header lines Hh Hl) as (r & rs & Hrows & Hr).
  split; [|split].
  - intros Hfile st Hd. unfold Tracker._flush_today.
    rewrite decide_False by done.
    rewrite io_bind_unfold. unfold Tracker._ensure_log_file.
    rewrite (ensure_run Tracker.LOG_FILE Tracker.CSV_COLUMNS), Hfile.
    rewrite io_bind_unfold. unfold exists_ at 1. cbn [files].
    rewrite bool_decide_true by (rewrite Hfile; eauto).
    rewrite io_bind_unfold, io_bind_unfold. unfold read_grid at 1.
    cbn [files]. rewrite Hfile. cbn [mret io_ret].
    rewrite io_bind_unfold. unfold lift at 1.
    rewrite Hrows. cbn [Tracker.update_today]. by rewrite Hr.
  - intros Hfile today field value. unfold ShipStation._upsert_orders_row.
    rewrite io_bind_unfold. unfold ShipStation._ensure_orders_log.
    rewrite (ensure_run ShipStation.ORDERS_LOG ShipStation.ORDERS_COLUMNS),
      Hfile.
    rewrite io_bind_unfold. unfold ShipStation._read_csv at 1.
    rewrite io_bind_unfold. unfold exists_ at 1. cbn [files].
    rewrite bool_decide_true by (rewrite Hfile; eauto).
    rewrite io_bind_unfold. unfold read_grid at 1. cbn [files].
    rewrite Hfile. cbn [mret io_ret].
    rewrite io_bind_unfold. unfold lift at 1.
    rewrite Hrows. cbn [ShipStation.find_row]. by rewrite Hr.
  - intros Hfile. rewrite rebuild_run. unfold ShipStation.combined_view.
    destruct Hfile as [Hfile|Hfile].
    + rewrite Hfile. cbn [ShipStation.rows_of from_option].
      rewrite Hrows. cbn [ShipStation.by_date]. by rewrite Hr.
    + destruct (ShipStation.by_date
                  (ShipStation.rows_of (fs !! ShipStation.ACTIVITY_LOG)) ∅)
        as [a|e] eqn:Ha.
      * cbn [mbind result_mbind result_bind].
        rewrite Hfile. cbn [ShipStation.rows_of from_option].
        rewrite Hrows. cbn [ShipStation.by_date]. by rewrite Hr.
      * by apply by_date_raises in Ha as ->.
Qed.

Lemma table_without_date_column_witness :
  let header := ["Day"; "First Activity"; "Last Activity"] in
  let lines := [["2024-06-03"; "08:00:00"; "16:30:00"]] in
  let fs : gmap Path (list (list string)) :=
    {[ShipStation.ACTIVITY_LOG := header :: lines]} in
  Tracker._flush_today
    (Tracker.mkState "2024-06-04" None None) (mkSys ∅ fs None)
  = (mkSys ({[Tracker.LOG_DIR]} ∪ ∅) fs None, Raise KeyError) ∧
  ShipStation.rebuild_combined_log (mkSys ∅ fs None)
  = (mkSys ∅ fs None, Raise KeyError).
Proof.
  intros header lines fs.
  assert ("Date" ∉ header) as Hh by (by vm_compute; set_solver).
  assert (∃ l, l ∈ lines ∧ l ≠ []) as Hl
    by (eexists; split; [apply list_elem_of_here|done]).
  destruct (table_without_date_column header lines ∅ fs Hh Hl)
    as (Hflush & _ & Hrebuild).
  split.
  - by apply Hflush.
  - apply Hrebuild. by left.
Defined.

End NoDateColumn.

(** ** The dates of the combined file *)

Section CombinedDates.
Import Csv Fs ShipStation.

(** Property X13.  For an activity table and an orders table that are
    missing or conform to their schemas, on a disk that does not fail, the
    rebuild returns and the combined file conforms to its own schema of
    five columns; the dates of its lines are exactly the dates found in
    either source table, each once, in ascending order of their text. *)
Theorem combined_dates_ascending ds fs :
  LOG_DIR ∈ ds →
  table_ok Tracker.CSV_COLUMNS (fs !! ACTIVITY_LOG) →
  table_ok ORDERS_COLUMNS (fs !! ORDERS_LOG) →
  ∃ σ' lines dates,
    rebuild_combined_log (mkSys ds fs None) = (σ', Ok tt) ∧
    files σ' !! COMBINED_LOG = Some (COMBINED_COLUMNS :: lines) ∧
    conforms COMBINED_COLUMNS (COMBINED_COLUMNS :: lines) ∧
    line_date <$> lines = Some <$> dates ∧
    Sorted String.le dates ∧ NoDup dates ∧
    ∀ d, d ∈ dates ↔ has_date d (table_lines (fs !! ACTIVITY_LOG)) ∨
                     has_date d (table_lines (fs !! ORDERS_LOG)).
Proof.
  intros Hd Ha Ho.
  destruct (rebuild_conforming ds fs Hd Ha Ho)
    as (σ' & dates & Hrun & Hfile & Hnd & Hsorted & Hin).
  eexists σ', _, dates. split; [done|]. split; [done|].
  split; [|split; [|done]].
  - eexists. split; [done|]. apply Forall_fmap, Forall_forall.
    intros d _. cbn [compose length].
    destruct (side_cells_two d (table_lines (fs !! ACTIVITY_LOG)))
      as (f & l & ->).
    by destruct (side_cells_two d (table_lines (fs !! ORDERS_LOG)))
      as (o & s & ->).
  - rewrite <-list_fmap_compose. by apply list_fmap_ext.
Qed.

Lemma combined_dates_ascending_witness :
  let fs : gmap Path (list (list string)) :=
    {[ACTIVITY_LOG := [Tracker.CSV_COLUMNS;
                       ["2024-06-04"; "08:01:00"; "16:29:00"];
                       ["2024-06-03"; "08:00:00"; "16:30:00"]];
      ORDERS_LOG := [ORDERS_COLUMNS;
                     ["2024-06-05"; "4"; ""];
                     ["2024-06-03"; "7"; "12"]]]} in
  ∃ σ' lines dates,
    rebuild_combined_log (mkSys {[LOG_DIR]} fs None) = (σ', Ok tt) ∧
    files σ' !! COMBINED_LOG = Some (COMBINED_COLUMNS :: lines) ∧
    conforms COMBINED_COLUMNS (COMBINED_COLUMNS :: lines) ∧
    line_date <$> lines = Some <$> dates ∧
    Sorted String.le dates ∧ NoDup dates ∧
    ∀ d, d ∈ dates ↔ has_date d (table_lines (fs !! ACTIVITY_LOG)) ∨
                     has_date d (table_lines (fs !! ORDERS_LOG)).
Proof.
  intros fs. apply (combined_dates_ascending {[LOG_DIR]} fs).
  - set_solver.
  - eexists. split; [by vm_compute|]. by repeat constructor.
  - eexists. split; [by vm_compute|]. by repeat constructor.
Defined.

Example combined_dates_ascending_example :
  let fs : gmap Path (list (list string)) :=
    {[ACTIVITY_LOG := [Tracker.CSV_COLUMNS;
                       ["2024-06-04"; "08:01:00"; "16:29:00"];
                       ["2024-06-03"; "08:00:00"; "16:30:00"]];
      ORDERS_LOG := [ORDERS_COLUMNS;
                     ["2024-06-05"; "4"; ""];
                     ["2024-06-03"; "7"; "12"]]]} in
  files (rebuild_combined_log (mkSys {[LOG_DIR]} fs None)).1 !! COMBINED_LOG
  = Some [COMBINED_COLUMNS;
          ["2024-06-03"; "08:00:00"; "16:30:00"; "7"; "12"];
          ["2024-06-04"; "08:01:00"; "16:29:00"; ""; ""];
          ["2024-06-05"; ""; ""; "4"; ""]].
Proof. by vm_compute. Qed.

End CombinedDates.

(** ** A run of the orders script *)

Section OrdersRun.
Import Csv Fs ShipStation.
Context (requests_get :
  string → gmap string string → gmap string string → result Response).

Lemma field_of_set_field field v a b c :
  field ∈ value_fields →
  field_of field (set_field field v [a; b; c]) = Some v.
Proof.
  unfold value_fields. rewrite !elem_of_cons, elem_of_nil.
  by intros [->|[->|[]]].
Qed.

Lemma mode_field_value m : mode_field m ∈ value_fields.
Proof. unfold value_fields. destruct m; set_solver. Qed.

(** After an upsert for a date with at most one line, the one line of the
    date holds the value. *)
Lemma upsert_lines_single D field v lines :
  field ∈ value_fields →
  Forall (λ l, length l = 3) lines →
  (length (filter (λ l, line_date l = Some D) lines) ≤ 1)%nat →
  ∃ o s,
    filter (λ l, line_date l = Some D) (upsert_lines D field v lines)
    = [[D; o; s]] ∧
    field_of field [D; o; s] = Some v.
Proof.
  intros Hf Hl Hone. rewrite upsert_lines_date by done.
  destruct (filter _ lines) as [|l ls] eqn:Hfl.
  - exists (default "" (set_field field v [D; ""; ""] !! 1)),
           (default "" (set_field field v [D; ""; ""] !! 2)).
    revert Hf. unfold value_fields. rewrite !elem_of_cons, elem_of_nil.
    by intros [->|[->|[]]].
  - destruct ls; [|simpl in Hone; lia].
    assert (l ∈ filter (λ l, line_date l = Some D) lines) as Hin
      by (rewrite Hfl; apply list_elem_of_here).
    apply list_elem_of_filter in Hin as [Hd Hin].
    rewrite Forall_forall in Hl. specialize (Hl l Hin).
    destruct l as [|a [|b [|c [|]]]]; try done.
    simpl in Hd. injection Hd as ->.
    revert Hf. unfold value_fields. rewrite !elem_of_cons, elem_of_nil.
    intros [->|[->|[]]]; by eexists _, _.
Qed.

(** Property X14.  A run of the orders script, on a disk that does not
    fail.  On a day outside Monday to Thursday it exits with status 0, and
    on a valid day without an API key with status 1, in both cases before
    any request and without touching the disk.  Otherwise, when the
    request returns the count and the two source tables are missing or
    conform to their schemas, the run returns; the orders table is the
    earlier one with the count upserted in the column of the mode; the
    activity table is untouched; the combined file is the combined view of
    the two source tables as they now are on the disk; and, the orders
    table having had at most one line for today, the one combined line of
    today shows the count in the column of the mode, next to the activity
    cells of today. *)
Theorem orders_script_run m weekday env_key today :
  (weekday ∉ VALID_WEEKDAYS →
   ∀ σ, main requests_get m weekday env_key today σ
        = (σ, Raise (SystemExit 0))) ∧
  (weekday ∈ VALID_WEEKDAYS → env_key = "" →
   ∀ σ, main requests_get m weekday env_key today σ
        = (σ, Raise (SystemExit 1))) ∧
  (weekday ∈ VALID_WEEKDAYS → env_key ≠ "" →
   ∀ count ds fs,
     mode_count requests_get m env_key today = Ok count →
     table_ok Tracker.CSV_COLUMNS (fs !! ACTIVITY_LOG) →
     table_ok ORDERS_COLUMNS (fs !! ORDERS_LOG) →
     ∃ σ' lines,
       main requests_get m weekday env_key today (mkSys ds fs None)
       = (σ', Ok tt) ∧
       files σ' !! ORDERS_LOG
       = Some (ORDERS_COLUMNS ::
                 upsert_lines today (mode_field m) (pretty count)
                   (table_lines (fs !! ORDERS_LOG))) ∧
       files σ' !! ACTIVITY_LOG = fs !! ACTIVITY_LOG ∧
       files σ' !! COMBINED_LOG = Some (COMBINED_COLUMNS :: lines) ∧
       combined_view (files σ' !! ACTIVITY_LOG) (files σ' !! ORDERS_LOG)
       = Ok (COMBINED_COLUMNS :: lines) ∧
       ((length (filter (λ l, line_date l = Some today)
                   (table_lines (fs !! ORDERS_LOG))) ≤ 1)%nat →
        ∃ o s,
          filter (λ l, line_date l = Some today) lines
          = [today :: side_cells today (table_lines (fs !! ACTIVITY_LOG))
                   ++ [o; s]] ∧
          field_of (mode_field m) [today; o; s] = Some (pretty count))).
Proof.
  split; [|split].
  - intros Hw σ. unfold main. by rewrite decide_True.
  - intros Hw -> σ. unfold main.
    rewrite decide_False by (by intros ?). by rewrite decide_True.
  - intros Hw Hk count ds fs Hcount Ha Ho.
    rewrite main_runs_mode by done.
    assert (match m with
            | morning => run_morning requests_get env_key today
            | afternoon => run_afternoon requests_get env_key today
            end (mkSys ds fs None)
            = (_ ← _upsert_orders_row today (mode_field m) count;
               rebuild_combined_log) (mkSys ds fs None)) as ->.
    { destruct m; unfold run_morning, run_afternoon;
        rewrite io_bind_unfold; unfold lift at 1;
        cbn [mode_count] in Hcount; by rewrite Hcount. }
    rewrite io_bind_unfold, upsert_orders_row_run
      by (done || apply value_field_column, mode_field_value).
    set (ord_ := upsert_lines today (mode_field m) (pretty count)
                   (table_lines (fs !! ORDERS_LOG))).
    set (fs1 := <[ORDERS_LOG := ORDERS_COLUMNS :: ord_]>
                  (delete (with_suffix ORDERS_LOG ".tmp") fs)).
    assert (Forall (λ l, length l = 3) (table_lines (fs !! ORDERS_LOG)))
      as Hlen by (by apply (conforming_lines_length ORDERS_COLUMNS)).
    assert (fs1 !! ORDERS_LOG = Some (ORDERS_COLUMNS :: ord_)) as Ho1
      by (by subst fs1; rewrite lookup_insert_eq).
    assert (fs1 !! ACTIVITY_LOG = fs !! ACTIVITY_LOG) as Ha1
      by (by subst fs1; rewrite lookup_insert_ne, lookup_delete_ne).
    destruct (rebuild_conforming ({[LOG_DIR]} ∪ ds) fs1)
      as (σ' & dates & Hrun & Hfile & Hnd & _ & Hin).
    { set_solver. }
    { by rewrite Ha1. }
    { rewrite Ho1. eexists. split; [done|].
      by apply upsert_lines_conforms. }
    rewrite Ha1, Ho1 in Hfile, Hin. cbn [table_lines] in Hfile, Hin.
    pose proof Hrun as Hout.
    apply rebuild_output in Hout as (g & Hview & _ & ->).
    cbn [files] in Hfile. rewrite lookup_insert_eq in Hfile.
    injection Hfile as ->.
    eexists _, _. split; [exact Hrun|]. cbn [files].
    rewrite (lookup_insert_ne _ COMBINED_LOG ORDERS_LOG) by done.
    rewrite (lookup_delete_ne _ _ ORDERS_LOG) by done.
    rewrite (lookup_insert_ne _ COMBINED_LOG ACTIVITY_LOG) by done.
    rewrite (lookup_delete_ne _ _ ACTIVITY_LOG) by done.
    rewrite lookup_insert_eq.
    split; [done|]. split; [done|]. split; [done|]. split; [done|].
    intros Hone.
    destruct (upsert_lines_single today (mode_field m) (pretty count)
                (table_lines (fs !! ORDERS_LOG)) (mode_field_value m)
                Hlen Hone) as (o & s & Hline & Hfield).
    fold ord_ in Hline. exists o, s. split; [|done].
    rewrite filter_date_keyed, decide_True; [|apply Hin; right|done|done].
    + unfold side_cells at 2. by rewrite Hline.
    + exists [today; o; s]. split; [|done].
      assert ([today; o; s] ∈ filter (λ l, line_date l = Some today) ord_)
        as Hel by (rewrite Hline; apply list_elem_of_here).
      by apply list_elem_of_filter in Hel as [_ ?].
Qed.

End OrdersRun.

Section OrdersRunWitness.
Import Csv Fs ShipStation.

Lemma orders_script_run_witness :
  let requests_get := λ (_ : string) (_ _ : gmap string string),
    Ok (mkResponse 200 (Some (TotalInt 12))) in
  let fs : gmap Path (list (list string)) :=
    {[ACTIVITY_LOG := [Tracker.CSV_COLUMNS;
                       ["2024-06-03"; "08:00:00"; "16:30:00"]];
      ORDERS_LOG := [ORDERS_COLUMNS; ["2024-06-03"; "7"; ""]]]} in
  main requests_get afternoon 5 "key" "2024-06-08" (mkSys ∅ fs None)
  = (mkSys ∅ fs None, Raise (SystemExit 0)) ∧
  main requests_get afternoon 0 "" "2024-06-03" (mkSys ∅ fs None)
  = (mkSys ∅ fs None, Raise (SystemExit 1)) ∧
  ∃ σ' lines,
    main requests_get afternoon 0 "key" "2024-06-03" (mkSys ∅ fs None)
    = (σ', Ok tt) ∧
    files σ' !! COMBINED_LOG = Some (COMBINED_COLUMNS :: lines) ∧
    ∃ o s,
      filter (λ l, line_date l = Some "2024-06-03") lines
      = ["2024-06-03" :: side_cells "2024-06-03"
                           (table_lines (fs !! ACTIVITY_LOG)) ++ [o; s]] ∧
      field_of "Shipped Today" ["2024-06-03"; o; s] = Some "12".
Proof.
  intros requests_get fs.
  assert ((0:Z) ∈ VALID_WEEKDAYS) as H0 by (unfold VALID_WEEKDAYS; set_solver).
  assert ((5:Z) ∉ VALID_WEEKDAYS) as H5 by (unfold VALID_WEEKDAYS; set_solver).
  split; [|split].
  - by apply (orders_script_run requests_get afternoon 5 "key" "2024-06-08").
  - by apply (orders_script_run requests_get afternoon 0 "" "2024-06-03").
  - destruct (orders_script_run requests_get afternoon 0 "key" "2024-06-03")
      as (_ & _ & Hrun).
    destruct (Hrun H0 ltac:(done) 12%Z ∅ fs)
      as (σ' & lines & Hmain & _ & _ & Hfile & _ & Hline).
    + by vm_compute.
    + eexists. split; [by vm_compute|]. by repeat constructor.
    + eexists. split; [by vm_compute|]. by repeat constructor.
    + exists σ', lines. split; [done|]. split; [done|].
      apply Hline. vm_compute. lia.
Defined.

End OrdersRunWitness.

(** ** From the tracker's flush to the combined file *)

Section FlushToCombined.
Import Csv Fs.

(** Property X15.  The two programs meet in the activity table.  On a
    disk that does not fail, with an activity table and an orders table
    that are missing or conform to their schemas, and at most one line for
    the tracker's day [D] in the activity table: a flush of the tracker
    followed by a rebuild of the orders script returns, and the one
    combined line of [D] shows the first and last activity just flushed as
    its first and last click, next to the orders cells of [D]. *)
Theorem flushed_day_reaches_combined st ds fs :
  let D := Tracker._current_date st in
  D ≠ "" →
  table_ok Tracker.CSV_COLUMNS (fs !! Tracker.LOG_FILE) →
  table_ok ShipStation.ORDERS_COLUMNS (fs !! ShipStation.ORDERS_LOG) →
  (length (filter (λ l, line_date l = Some D)
             (table_lines (fs !! Tracker.LOG_FILE))) ≤ 1)%nat →
  ∃ σ' lines,
    (_ ← Tracker._flush_today st; ShipStation.rebuild_combined_log)
      (mkSys ds fs None) = (σ', Ok tt) ∧
    files σ' !! ShipStation.COMBINED_LOG
    = Some (ShipStation.COMBINED_COLUMNS :: lines) ∧
    filter (λ l, line_date l = Some D) lines
    = [[D; Tracker._fmt (Tracker._first_activity st);
           Tracker._fmt (Tracker._last_activity st)]
       ++ ShipStation.side_cells D
            (table_lines (fs !! ShipStation.ORDERS_LOG))].
Proof.
  intros D Hd Ha Ho Hone.
  rewrite io_bind_unfold, flush_today_run by done. fold D.
  set (act := Tracker.flush_lines D _ _ _).
  set (fs1 := <[Tracker.LOG_FILE := Tracker.CSV_COLUMNS :: act]> _).
  assert (fs1 !! ShipStation.ACTIVITY_LOG
          = Some (Tracker.CSV_COLUMNS :: act)) as Ha1
    by (subst fs1; apply lookup_insert_eq).
  assert (fs1 !! ShipStation.ORDERS_LOG = fs !! ShipStation.ORDERS_LOG)
    as Ho1 by (by subst fs1; rewrite lookup_insert_ne, lookup_delete_ne).
  destruct (rebuild_conforming ({[Tracker.LOG_DIR]} ∪ ds) fs1)
    as (σ' & dates & Hrun & Hfile & Hnd & _ & Hin).
  { apply elem_of_union_l, elem_of_singleton. done. }
  { rewrite Ha1. eexists. split; [done|].
    apply flush_lines_length3.
    by apply (conforming_lines_length Tracker.CSV_COLUMNS). }
  { by rewrite Ho1. }
  rewrite Ha1, Ho1 in Hfile, Hin. cbn [table_lines] in Hfile, Hin.
  eexists σ', _. split; [done|]. split; [done|].
  assert (filter (λ l, line_date l = Some D) act
          = [[D; Tracker._fmt (Tracker._first_activity st);
              Tracker._fmt (Tracker._last_activity st)]]) as Hline.
  { subst act. rewrite flush_lines_date.
    destruct (filter _ (table_lines _)) as [|l [|l' ls]]; [done..|].
    simpl in Hone. lia. }
  rewrite filter_date_keyed, decide_True; [|apply Hin; left|done|done].
  - unfold ShipStation.side_cells at 1. by rewrite Hline.
  - exists [D; Tracker._fmt (Tracker._first_activity st);
            Tracker._fmt (Tracker._last_activity st)].
    split; [|done].
    assert ([D; Tracker._fmt (Tracker._first_activity st);
             Tracker._fmt (Tracker._last_activity st)]
            ∈ filter (λ l, line_date l = Some D) act) as Hel
      by (rewrite Hline; apply list_elem_of_here).
    apply list_elem_of_filter in Hel as [_ Hel]. exact Hel.
Qed.

Lemma flushed_day_reaches_combined_witness :
  let st := Tracker.mkState "2024-06-03"
              (Some (Tracker.mkDatetime 2024 6 3 8 0 5 0))
              (Some (Tracker.mkDatetime 2024 6 3 16 30 0 0)) in
  let fs : gmap Path (list (list string)) :=
    {[Tracker.LOG_FILE := [Tracker.CSV_COLUMNS;
                           ["2024-06-03"; "08:00:05"; "12:00:00"]];
      ShipStation.ORDERS_LOG := [ShipStation.ORDERS_COLUMNS;
                                 ["2024-06-03"; "7"; ""]]]} in
  ∃ σ' lines,
    (_ ← Tracker._flush_today st; ShipStation.rebuild_combined_log)
      (mkSys ∅ fs None) = (σ', Ok tt) ∧
    files σ' !! ShipStation.COMBINED_LOG
    = Some (ShipStation.COMBINED_COLUMNS :: lines) ∧
    filter (λ l, line_date l = Some "2024-06-03") lines
    = [["2024-06-03"; "08:00:05"; "16:30:00"; "7"; ""]].
Proof.
  intros st fs.
  destruct (flushed_day_reaches_combined st ∅ fs)
    as (σ' & lines & Hrun & Hfile & Hline).
  - by vm_compute.
  - eexists. split; [by vm_compute|]. by repeat constructor.
  - eexists. split; [by vm_compute|]. by repeat constructor.
  - vm_compute. lia.
  - exists σ', lines. split; [exact Hrun|]. split; [exact Hfile|].
    etrans; [exact Hline|]. by vm_compute.
Defined.

(** The hypothesis on the day's lines cannot be dropped: the flush
    updates the first line of the day, the combined view shows the
    last. *)
Example flushed_day_hidden_by_duplicate :
  let st := Tracker.mkState "2024-06-03"
              (Some (Tracker.mkDatetime 2024 6 3 8 0 5 0))
              (Some (Tracker.mkDatetime 2024 6 3 16 30 0 0)) in
  let fs : gmap Path (list (list string)) :=
    {[Tracker.LOG_FILE := [Tracker.CSV_COLUMNS;
                           ["2024-06-03"; "08:00:05"; "12:00:00"];
                           ["2024-06-03"; "09:00:00"; "10:00:00"]]]} in
  files ((_ ← Tracker._flush_today st; ShipStation.rebuild_combined_log)
           (mkSys ∅ fs None)).1 !! ShipStation.COMBINED_LOG
  = Some [ShipStation.COMBINED_COLUMNS;
          ["2024-06-03"; "09:00:00"; "10:00:00"; ""; ""]].
Proof. by vm_compute. Qed.

End FlushToCombined.

(** ** Rows the writer refuses *)

Section UnwritableRow.
Import Csv Fs.

Lemma dict_to_list_raises columns r e :
  dict_to_list columns r = Raise e → e = ValueError.
Proof. unfold dict_to_list. destruct (decide _); [done|]. by intros [= <-]. Qed.

Lemma dict_to_list_restkey columns r :
  restkey r ≠ None → dict_to_list columns r = Raise ValueError.
Proof.
  intros Hr. unfold dict_to_list. rewrite decide_False; [done|].
  by intros [_ ?].
Qed.

Lemma dict_to_list_extra_key columns r k :
  k ∉ columns → is_Some (cells r !! k) →
  dict_to_list columns r = Raise ValueError.
Proof.
  intros Hk Hin. unfold dict_to_list. rewrite decide_False; [done|].
  intros [Hsub _]. apply elem_of_dom in Hin. apply Hsub in Hin.
  by apply elem_of_list_to_set in Hin.
Qed.

(** The rows before the first one the writer refuses are written, then
    [ValueError] is raised. *)
Lemma writerows_bad_row p columns rows : ∀ ds fs,
  Exists (λ r, dict_to_list columns r = Raise ValueError) rows →
  ∃ fs', writerows p columns rows (mkSys ds fs None)
         = (mkSys ds fs' None, Raise ValueError) ∧
         ∀ q, q ≠ p → fs' !! q = fs !! q.
Proof.
  induction rows as [|row rows IH]; intros ds fs Hex.
  { by apply Exists_nil in Hex. }
  cbn [writerows]. rewrite io_bind_unfold. unfold lift at 1.
  destruct (dict_to_list columns row) as [line|e] eqn:Hrow.
  - apply Exists_cons in Hex as [Hbad|Hex]; [congruence|].
    rewrite io_bind_unfold, write_line_run.
    destruct (IH ds (alter (λ g, g ++ [line]) p fs) Hex) as (fs' & -> & Hf).
    exists fs'. split; [done|]. intros q Hq.
    by rewrite Hf, lookup_alter_ne.
  - apply dict_to_list_raises in Hrow as ->. by exists fs.
Qed.

Lemma write_csv_bad_row path columns rows ds fs :
  parent path ∈ ds →
  Exists (λ r, dict_to_list columns r = Raise ValueError) rows →
  ∃ fs', ShipStation._write_csv path columns rows (mkSys ds fs None)
         = (mkSys ds fs' None, Raise ValueError) ∧
         ∀ q, q ≠ with_suffix path ".tmp" → fs' !! q = fs !! q.
Proof.
  intros Hd Hex. unfold ShipStation._write_csv, writeheader.
  rewrite io_bind_unfold, open_w_run by done.
  rewrite io_bind_unfold, write_line_run, io_bind_unfold.
  destruct (writerows_bad_row (with_suffix path ".tmp") columns rows ds
              (alter (λ g, g ++ [columns]) (with_suffix path ".tmp")
                 (<[with_suffix path ".tmp" := []]> fs)) Hex)
    as (fs' & -> & Hf).
  exists fs'. split; [done|]. intros q Hq.
  by rewrite Hf, lookup_alter_ne, lookup_insert_ne.
Qed.

(** Every row read under a header that starts with the date column has
    a date. *)
Lemma dict_of_line_first_key k ks line :
  k ∉ ks → is_Some (cells (dict_of_line (k :: ks) line) !! k).
Proof.
  intros Hk. unfold dict_of_line. cbn [cells].
  assert (∀ vs : list pyval, k ∉ (zip ks vs).*1) as Hz.
  { intros vs Hin. apply list_elem_of_fmap in Hin as ([k' v] & -> & Hin).
    by apply elem_of_zip_l in Hin. }
  destruct line as [|a line].
  - cbn [fmap list_fmap app length]. rewrite Nat.sub_0_r.
    cbn [replicate zip zip_with foldl fst snd].
    rewrite lookup_foldl_insert_other by apply Hz.
    rewrite lookup_insert_eq. eauto.
  - rewrite fmap_cons. cbn [app zip zip_with foldl fst snd].
    rewrite lookup_foldl_insert_other by apply Hz.
    rewrite lookup_insert_eq. eauto.
Qed.

Lemma rows_have_date ks (lines : list (list string)) :
  "Date" ∉ ks →
  Forall (λ r, is_Some (cells r !! "Date"))
    (DictReader (("Date" :: ks) :: lines)).
Proof.
  intros Hk. cbn [DictReader]. apply Forall_fmap, Forall_forall.
  intros l _. by apply dict_of_line_first_key.
Qed.

Lemma rows_have_restkey columns (lines : list (list string)) :
  (∃ l, l ∈ lines ∧ length columns < length l) →
  Exists (λ r, restkey r ≠ None) (DictReader (columns :: lines)).
Proof.
  intros (l & Hl & Hlen). cbn [DictReader].
  apply Exists_exists. exists (dict_of_line columns l). split.
  - apply list_elem_of_fmap_2, list_elem_of_filter. split; [|done].
    intros ->. simpl in Hlen. lia.
  - unfold dict_of_line. cbn [restkey]. by rewrite decide_True.
Qed.

Lemma update_today_total date first last rows :
  Forall (λ r, is_Some (cells r !! "Date")) rows →
  ∃ rows' updated,
    Tracker.update_today date first last rows = Ok (rows', updated) ∧
    (Exists (λ r, restkey r ≠ None) rows →
     Exists (λ r, restkey r ≠ None) rows').
Proof.
  induction 1 as [|r rows [v Hv] _ IH].
  - by exists [], false.
  - cbn [Tracker.update_today]. unfold getitem. rewrite Hv.
    cbn [mbind result_mbind result_bind].
    destruct (decide (v = Some date)).
    + eexists _, true. split; [done|]. intros Hex.
      apply Exists_cons in Hex as [Hr|Hex];
        [by apply Exists_cons_hd|by apply Exists_cons_tl].
    + destruct IH as (rows' & updated & -> & Hkeep).
      cbn [mbind result_mbind result_bind].
      eexists _, updated. split; [done|]. intros Hex.
      apply Exists_cons in Hex as [Hr|Hex];
        [by apply Exists_cons_hd|by apply Exists_cons_tl, Hkeep].
Qed.

Lemma find_row_total today rows :
  Forall (λ r, is_Some (cells r !! "Date")) rows →
  ∃ found, ShipStation.find_row today rows = Ok found ∧
           ∀ i, found = Some i → (i < length rows)%nat.
Proof.
  induction 1 as [|r rows [v Hv] _ IH].
  - exists None. by split.
  - cbn [ShipStation.find_row]. unfold getitem. rewrite Hv.
    cbn [mbind result_mbind result_bind].
    destruct (decide (v = Some today)).
    + exists (Some 0%nat). split; [done|]. intros i [= <-]. simpl. lia.
    + destruct IH as (found & -> & Hb).
      cbn [mbind result_mbind result_bind].
      eexists. split; [done|]. intros i Hi.
      destruct found as [j|]; [|done]. injection Hi as <-.
      specialize (Hb j eq_refl). simpl. lia.
Qed.

Lemma alter_keeps_restkey k v rows : ∀ i : nat,
  Exists (λ r, restkey r ≠ None) rows →
  Exists (λ r, restkey r ≠ None) (alter (setitem k v) i rows).
Proof.
  induction rows as [|r rows IH]; intros i Hex; [by destruct i|].
  apply Exists_cons in Hex as [Hr|Hex]; destruct i as [|i];
    cbn [alter list_alter].
  - by apply Exists_cons_hd.
  - by apply Exists_cons_hd.
  - by apply Exists_cons_tl.
  - by apply Exists_cons_tl, IH.
Qed.

Lemma alter_sets_key k v rows : ∀ i : nat,
  (i < length rows)%nat →
  Exists (λ r, is_Some (cells r !! k)) (alter (setitem k v) i rows).
Proof.
  induction rows as [|r rows IH]; intros i Hi; [simpl in Hi; lia|].
  destruct i as [|i]; cbn [alter list_alter].
  - apply Exists_cons_hd. cbn [setitem cells]. rewrite lookup_insert_eq. eauto.
  - apply Exists_cons_tl, IH. simpl in Hi. lia.
Qed.

(** The rows an upsert hands to the writer. *)
Lemma upsert_run_bad_rows today field value ds fs g :
  fs !! ShipStation.ORDERS_LOG = Some g →
  (∃ found,
     ShipStation.find_row today (DictReader g) = Ok found ∧
     Exists (λ r, dict_to_list ShipStation.ORDERS_COLUMNS r
                  = Raise ValueError)
       (match found with
        | Some i =>
            alter (setitem field (Some (pretty value))) i (DictReader g)
        | None =>
            alter (setitem field (Some (pretty value)))
              (length (DictReader g))
              (DictReader g ++
                 [dict [("Date", Some today); ("Outstanding Orders", Some "");
                        ("Shipped Today", Some "")]])
        end)) →
  ∃ fs',
    ShipStation._upsert_orders_row today field value (mkSys ds fs None)
    = (mkSys ({[ShipStation.LOG_DIR]} ∪ ds) fs' None, Raise ValueError) ∧
    ∀ q, q ≠ with_suffix ShipStation.ORDERS_LOG ".tmp" → fs' !! q = fs !! q.
Proof.
  intros Hfile (found & Hfind & Hex). unfold ShipStation._upsert_orders_row.
  rewrite io_bind_unfold. unfold ShipStation._ensure_orders_log.
  rewrite (ensure_run ShipStation.ORDERS_LOG ShipStation.ORDERS_COLUMNS),
    Hfile.
  rewrite io_bind_unfold. unfold ShipStation._read_csv at 1.
  rewrite io_bind_unfold. unfold exists_ at 1. cbn [files].
  rewrite bool_decide_true by (rewrite Hfile; eauto).
  rewrite io_bind_unfold. unfold read_grid at 1. cbn [files].
  rewrite Hfile. cbn [mret io_ret].
  rewrite io_bind_unfold. unfold lift at 1. rewrite Hfind.
  destruct found as [i|];
    apply write_csv_bad_row; (set_solver || done).
Qed.

(** Property X16.  A data line with more cells than the header stops the
    two writers of its table, on a disk that does not fail: read back,
    the line gives a row with surplus cells, which the writer refuses.  A
    flush of a day, when the activity table holds such a line, and an
    upsert, when the orders table does, raise [ValueError]; the table and
    every other file but the temporary one are as they were, so the table
    is not updated until the line is repaired. *)
Theorem overlong_line_blocks_writes lines ds fs :
  (∃ l, l ∈ lines ∧ (3 < length l)%nat) →
  (fs !! Tracker.LOG_FILE = Some (Tracker.CSV_COLUMNS :: lines) →
   ∀ st, Tracker._current_date st ≠ "" →
     ∃ fs',
       Tracker._flush_today st (mkSys ds fs None)
       = (mkSys ({[Tracker.LOG_DIR]} ∪ ds) fs' None, Raise ValueError) ∧
       ∀ q, q ≠ with_suffix Tracker.LOG_FILE ".tmp" → fs' !! q = fs !! q) ∧
  (fs !! ShipStation.ORDERS_LOG = Some (ShipStation.ORDERS_COLUMNS :: lines) →
   ∀ today field value,
     ∃ fs',
       ShipStation._upsert_orders_row today field value (mkSys ds fs None)
       = (mkSys ({[ShipStation.LOG_DIR]} ∪ ds) fs' None, Raise ValueError) ∧
       ∀ q, q ≠ with_suffix ShipStation.ORDERS_LOG ".tmp" →
            fs' !! q = fs !! q).
Proof.
  intros Hlong. split.
  - intros Hfile st Hd. unfold Tracker._flush_today.
    rewrite decide_False by done.
    rewrite io_bind_unfold. unfold Tracker._ensure_log_file.
    rewrite (ensure_run Tracker.LOG_FILE Tracker.CSV_COLUMNS), Hfile.
    rewrite io_bind_unfold. unfold exists_ at 1. cbn [files].
    rewrite bool_decide_true by (rewrite Hfile; eauto).
    rewrite io_bind_unfold, io_bind_unfold. unfold read_grid at 1.
    cbn [files]. rewrite Hfile. cbn [mret io_ret].
    rewrite io_bind_unfold. unfold lift at 1.
    destruct (update_today_total (Tracker._current_date st)
                (Tracker._first_activity st) (Tracker._last_activity st)
                (DictReader (Tracker.CSV_COLUMNS :: lines)))
      as (rows' & updated & -> & Hkeep).
    { apply rows_have_date. set_solver. }
    apply (write_csv_bad_row Tracker.LOG_FILE Tracker.CSV_COLUMNS);
      [set_solver|].
    eapply Exists_impl; [|intros r; apply dict_to_list_restkey].
    specialize (Hkeep (rows_have_restkey Tracker.CSV_COLUMNS lines Hlong)).
    destruct updated; [done|]. by apply Exists_app; left.
  - intros Hfile today field value.
    apply (upsert_run_bad_rows today field value ds fs _ Hfile).
    destruct (find_row_total today
                (DictReader (ShipStation.ORDERS_COLUMNS :: lines)))
      as (found & Hfind & _).
    { apply rows_have_date. set_solver. }
    exists found. split; [done|].
    eapply Exists_impl; [|intros r; apply dict_to_list_restkey].
    pose proof (rows_have_restkey ShipStation.ORDERS_COLUMNS lines Hlong)
      as Hex.
    destruct found; apply alter_keeps_restkey; [done|].
    by apply Exists_app; left.
Qed.

Lemma overlong_line_blocks_writes_witness :
  let lines := [["2024-06-03"; "08:00:05"; "12:00:00"; "note"]] in
  let fs : gmap Path (list (list string)) :=
    {[Tracker.LOG_FILE := Tracker.CSV_COLUMNS :: lines]} in
  ∃ fs',
    Tracker._flush_today (Tracker.mkState "2024-06-04" None None)
      (mkSys ∅ fs None)
    = (mkSys ({[Tracker.LOG_DIR]} ∪ ∅) fs' None, Raise ValueError) ∧
    ∀ q, q ≠ with_suffix Tracker.LOG_FILE ".tmp" → fs' !! q = fs !! q.
Proof.
  intros lines fs.
  assert (∃ l, l ∈ lines ∧ (3 < length l)%nat) as Hlong
    by (eexists; split; [apply list_elem_of_here|simpl; lia]).
  destruct (overlong_line_blocks_writes lines ∅ fs Hlong) as [Hflush _].
  by apply Hflush.
Defined.

(** Property X17.  An upsert of a field that is no column of the orders
    table, on a disk that does not fail and an orders table that is
    missing or conforms to its schema, raises [ValueError]: the field is
    set on the row of the date all the same, and the writer refuses the
    row.  The orders table keeps its lines (a missing one has been created
    with its header), and no other file but the temporary one has
    changed. *)
Theorem upsert_unknown_field today field value ds fs :
  field ∉ ShipStation.ORDERS_COLUMNS →
  table_ok ShipStation.ORDERS_COLUMNS (fs !! ShipStation.ORDERS_LOG) →
  ∃ fs',
    ShipStation._upsert_orders_row today field value (mkSys ds fs None)
    = (mkSys ({[ShipStation.LOG_DIR]} ∪ ds) fs' None, Raise ValueError) ∧
    fs' !! ShipStation.ORDERS_LOG
    = Some (ShipStation.ORDERS_COLUMNS ::
              table_lines (fs !! ShipStation.ORDERS_LOG)) ∧
    ∀ q, q ≠ ShipStation.ORDERS_LOG →
         q ≠ with_suffix ShipStation.ORDERS_LOG ".tmp" →
         fs' !! q = fs !! q.
Proof.
  intros Hfield Hok.
  set (lines := table_lines (fs !! ShipStation.ORDERS_LOG)).
  set (fs1 := <[ShipStation.ORDERS_LOG := ShipStation.ORDERS_COLUMNS :: lines]>
                fs).
  assert (ShipStation._upsert_orders_row today field value (mkSys ds fs None)
          = ShipStation._upsert_orders_row today field value
              (mkSys ds fs1 None)) as ->.
  { unfold ShipStation._upsert_orders_row.
    rewrite !(io_bind_unfold ShipStation._ensure_orders_log).
    unfold ShipStation._ensure_orders_log.
    rewrite !(ensure_run ShipStation.ORDERS_LOG ShipStation.ORDERS_COLUMNS).
    subst fs1. rewrite lookup_insert_eq.
    destruct (fs !! ShipStation.ORDERS_LOG) as [g|] eqn:Hg; [|done].
    destruct Hok as (lines' & -> & _). subst lines. cbn [table_lines].
    by rewrite insert_id. }
  destruct (upsert_run_bad_rows today field value ds fs1
              (ShipStation.ORDERS_COLUMNS :: lines))
    as (fs' & Hrun & Hf).
  { subst fs1. apply lookup_insert_eq. }
  { destruct (find_row_total today
                (DictReader (ShipStation.ORDERS_COLUMNS :: lines)))
      as (found & Hfind & Hb).
    { apply rows_have_date. set_solver. }
    exists found. split; [done|].
    eapply Exists_impl;
      [|intros r; apply (dict_to_list_extra_key _ _ field Hfield)].
    destruct found as [i|]; apply alter_sets_key; [by apply Hb|].
    rewrite length_app. simpl. lia. }
  exists fs'. split; [done|]. split.
  - rewrite Hf by done. subst fs1. apply lookup_insert_eq.
  - intros q Hq Hq'. rewrite Hf by done. subst fs1.
    by rewrite lookup_insert_ne.
Qed.

Lemma upsert_unknown_field_witness :
  let fs : gmap Path (list (list string)) :=
    {[ShipStation.ORDERS_LOG :=
        [ShipStation.ORDERS_COLUMNS; ["2024-06-03"; "7"; ""]]]} in
  ∃ fs',
    ShipStation._upsert_orders_row "2024-06-03" "Shipped" 12 (mkSys ∅ fs None)
    = (mkSys ({[ShipStation.LOG_DIR]} ∪ ∅) fs' None, Raise ValueError) ∧
    fs' !! ShipStation.ORDERS_LOG
    = Some (ShipStation.ORDERS_COLUMNS ::
              table_lines (fs !! ShipStation.ORDERS_LOG)) ∧
    ∀ q, q ≠ ShipStation.ORDERS_LOG →
         q ≠ with_suffix ShipStation.ORDERS_LOG ".tmp" →
         fs' !! q = fs !! q.
Proof.
  intros fs. apply (upsert_unknown_field "2024-06-03" "Shipped" 12 ∅ fs).
  - unfold ShipStation.ORDERS_COLUMNS. set_solver.
  - eexists. split; [by vm_compute|]. by repeat constructor.
Defined.

End UnwritableRow.

(** ** A working day of the tracker *)

Section WorkingDay.
Import Csv Fs Tracker.

Lemma strftime_date_nonempty t : strftime_date t ≠ "".
Proof. unfold strftime_date. by destruct (pad 4 (year t)). Qed.

Lemma run_app evs1 evs2 : ∀ p σ,
  run (evs1 ++ evs2) p σ = (p' ← run evs1 p; run evs2 p') σ.
Proof.
  induction evs1 as [|ev evs1 IH]; intros p σ; [done|].
  cbn [app run]. rewrite !io_bind_unfold.
  destruct (step ev p σ) as [σ1 [p1|e]]; [|done].
  by rewrite IH, io_bind_unfold.
Qed.

(** The steps of one day, from a state of that day that has seen the
    activity times [seen]. *)
Lemma run_within_day D evs : ∀ seen ds fs,
  D ≠ "" →
  Forall (on_date D) evs →
  table_ok CSV_COLUMNS (fs !! LOG_FILE) →
  (length (filter (λ x, line_date x = Some D)
             (table_lines (fs !! LOG_FILE))) ≤ 1)%nat →
  ∃ ds' fs',
    run evs (mkProc (mkState D (head seen) (last seen)) D) (mkSys ds fs None)
    = (mkSys ds' fs' None,
       Ok (mkProc (mkState D (head (seen ++ activity_times evs))
                     (last (seen ++ activity_times evs))) D)) ∧
    table_ok CSV_COLUMNS (fs' !! LOG_FILE) ∧
    (length (filter (λ x, line_date x = Some D)
               (table_lines (fs' !! LOG_FILE))) ≤ 1)%nat ∧
    filter (λ x, line_date x ≠ Some D) (table_lines (fs' !! LOG_FILE))
    = filter (λ x, line_date x ≠ Some D) (table_lines (fs !! LOG_FILE)).
Proof.
  intros seen ds fs HD Hevs. revert seen ds fs.
  induction Hevs as [|ev evs Hev _ IH]; intros seen ds fs Hok Hone.
  { exists ds, fs. by rewrite app_nil_r. }
  assert (∀ ds1 fs1,
            table_ok CSV_COLUMNS (fs !! LOG_FILE) →
            _flush_today (mkState D (head seen) (last seen)) (mkSys ds fs None)
            = (mkSys ds1 fs1 None, Ok tt) →
            table_ok CSV_COLUMNS (fs1 !! LOG_FILE) ∧
            (length (filter (λ x, line_date x = Some D)
                       (table_lines (fs1 !! LOG_FILE))) ≤ 1)%nat ∧
            filter (λ x, line_date x ≠ Some D) (table_lines (fs1 !! LOG_FILE))
            = filter (λ x, line_date x ≠ Some D)
                (table_lines (fs !! LOG_FILE))) as Hflush.
  { intros ds1 fs1 _. rewrite flush_today_run by done. intros [= <- <-].
    rewrite lookup_insert_eq. cbn [table_lines _current_date].
    split; [|split].
    - eexists. split; [done|]. apply flush_lines_length3.
      by apply (conforming_lines_length CSV_COLUMNS).
    - rewrite flush_lines_date.
      destruct (filter _ (table_lines _)) as [|l [|l' ls]];
        simpl in *; lia.
    - apply flush_lines_others. }
  destruct ev as [now| |now|]; cbn [on_date] in Hev.
  - cbn [run step state last_known_date]. rewrite io_bind_unfold.
    cbn [mret io_ret].
    assert (_record_activity now (mkState D (head seen) (last seen))
            = mkState D (head (seen ++ [now])) (last (seen ++ [now]))) as ->.
    { unfold _record_activity. cbn [_current_date _first_activity].
      rewrite decide_False by (by intros H; apply H).
      rewrite last_snoc. by destruct seen. }
    destruct (IH (seen ++ [now]) ds fs Hok Hone) as (ds' & fs' & Hrun & Hrest).
    exists ds', fs'. split; [|done].
    rewrite Hrun. cbn [activity_times omap].
    by rewrite <-(assoc_L (++)).
  - cbn [run step state]. rewrite io_bind_unfold, io_bind_unfold.
    rewrite flush_today_run by done.
    edestruct Hflush as (Hok1 & Hone1 & Hothers1);
      [done|by apply flush_today_run|].
    cbn [mret io_ret].
    edestruct IH as (ds' & fs' & Hrun & Hok' & Hone' & Hothers');
      [exact Hok1|exact Hone1|].
    exists ds', fs'. split; [exact Hrun|].
    split; [done|]. split; [done|]. by rewrite Hothers'.
  - cbn [run step state last_known_date]. rewrite io_bind_unfold.
    unfold _date_rollover_check.
    rewrite decide_False by (by intros H; apply H).
    rewrite io_bind_unfold. cbn [mret io_ret].
    destruct (IH seen ds fs Hok Hone) as (ds' & fs' & Hrun & Hrest).
    by exists ds', fs'.
  - cbn [run step state]. rewrite io_bind_unfold, io_bind_unfold.
    rewrite flush_today_run by done.
    edestruct Hflush as (Hok1 & Hone1 & Hothers1);
      [done|by apply flush_today_run|].
    cbn [mret io_ret].
    edestruct IH as (ds' & fs' & Hrun & Hok' & Hone' & Hothers');
      [exact Hok1|exact Hone1|].
    exists ds', fs'. split; [exact Hrun|].
    split; [done|]. split; [done|]. by rewrite Hothers'.
Qed.

(** Property X18.  A working day of the tracker, on a disk that does not
    fail, in a run whose steps follow one another without overlap (each
    input event, each flush and each wake-up of the detector has run to
    completion when the next step begins; in particular no flush of the
    timer is still under way when Exit flushes).  The program starts on
    the day [D], the rollover detector's thread too, with an activity
    table that is missing or conforms to its schema and holds at most one
    line of [D]; then come input events, wake-ups of the flush timer and
    of the rollover detector, all on the day [D] and in any order and
    number; then the tray menu's Exit.  The run returns, and the table
    holds exactly one line of [D], with the time of the first input event
    of the run as first activity and the time of the last one as last
    activity (both empty when there was no input); the lines of the other
    dates are as they were. *)
Theorem working_day t0 started evs ds fs :
  let D := strftime_date t0 in
  let ts := activity_times evs in
  strftime_date started = D →
  Forall (on_date D) evs →
  table_ok CSV_COLUMNS (fs !! LOG_FILE) →
  (length (filter (λ x, line_date x = Some D)
             (table_lines (fs !! LOG_FILE))) ≤ 1)%nat →
  ∃ σ' lines',
    (p ← main t0 started; run (evs ++ [ExitApp]) p) (mkSys ds fs None)
    = (σ', Ok (mkProc (mkState D (head ts) (last ts)) D)) ∧
    files σ' !! LOG_FILE = Some (CSV_COLUMNS :: lines') ∧
    filter (λ x, line_date x = Some D) lines'
    = [[D; _fmt (head ts); _fmt (last ts)]] ∧
    filter (λ x, line_date x ≠ Some D) lines'
    = filter (λ x, line_date x ≠ Some D) (table_lines (fs !! LOG_FILE)).
Proof.
  intros D ts Hstarted Hevs Hok Hone.
  pose proof (strftime_date_nonempty t0) as HD. fold D in HD.
  rewrite io_bind_unfold. unfold main.
  rewrite io_bind_unfold. unfold _ensure_log_file.
  rewrite (ensure_run LOG_FILE CSV_COLUMNS). cbn [mret io_ret].
  rewrite Hstarted. fold D.
  set (fs0 := match fs !! LOG_FILE with Some _ => fs | None => _ end).
  assert (table_ok CSV_COLUMNS (fs0 !! LOG_FILE) ∧
          table_lines (fs0 !! LOG_FILE) = table_lines (fs !! LOG_FILE))
    as [Hok0 Hlines0].
  { subst fs0. destruct (fs !! LOG_FILE) as [g|] eqn:Hg.
    - by rewrite Hg.
    - rewrite lookup_insert_eq. split; [|done]. by exists []. }
  rewrite run_app, io_bind_unfold.
  destruct (run_within_day D evs [] ({[parent LOG_FILE]} ∪ ds) fs0)
    as (ds1 & fs1 & Hrun & Hok1 & Hone1 & Hothers1);
    [done|done|done|by rewrite Hlines0|].
  cbn [head last] in Hrun. rewrite Hrun. cbn [app]. fold ts.
  cbn [run step state]. rewrite io_bind_unfold, io_bind_unfold.
  rewrite flush_today_run by done. cbn [mret io_ret _current_date].
  eexists _, _. split; [done|]. cbn [files].
  split; [by rewrite lookup_insert_eq|].
  cbn [_first_activity _last_activity]. split.
  - rewrite flush_lines_date.
    destruct (filter _ (table_lines (fs1 !! LOG_FILE))) as [|l [|l' ls]];
      [done..|]. simpl in Hone1. lia.
  - by rewrite flush_lines_others, Hothers1, Hlines0.
Qed.

Lemma working_day_witness :
  let t0 := mkDatetime 2024 6 3 7 55 0 0 in
  let started := mkDatetime 2024 6 3 7 55 1 0 in
  let t1 := mkDatetime 2024 6 3 8 0 5 0 in
  let t2 := mkDatetime 2024 6 3 12 0 0 0 in
  let t3 := mkDatetime 2024 6 3 16 30 0 0 in
  let evs := [DateCheck t0; Activity t1; FlushTimer; Activity t2;
              DateCheck t2; Activity t3] in
  let fs : gmap Path (list (list string)) :=
    {[LOG_FILE := [CSV_COLUMNS; ["2024-06-02"; "08:00:00"; "17:00:00"]]]} in
  ∃ σ' lines',
    (p ← main t0 started; run (evs ++ [ExitApp]) p) (mkSys ∅ fs None)
    = (σ', Ok (mkProc (mkState "2024-06-03" (Some t1) (Some t3))
                 "2024-06-03")) ∧
    files σ' !! LOG_FILE = Some (CSV_COLUMNS :: lines') ∧
    filter (λ x, line_date x = Some "2024-06-03") lines'
    = [["2024-06-03"; "08:00:05"; "16:30:00"]] ∧
    filter (λ x, line_date x ≠ Some "2024-06-03") lines'
    = [["2024-06-02"; "08:00:00"; "17:00:00"]].
Proof.
  intros t0 started t1 t2 t3 evs fs.
  destruct (working_day t0 started evs ∅ fs)
    as (σ' & lines' & Hrun & Hfile & Hday & Hothers).
  - by vm_compute.
  - by repeat constructor.
  - eexists. split; [by vm_compute|]. by repeat constructor.
  - vm_compute. lia.
  - exists σ', lines'. split; [exact Hrun|]. split; [exact Hfile|]. split.
    + etrans; [exact Hday|]. by vm_compute.
    + etrans; [exact Hothers|]. by vm_compute.
Defined.

End WorkingDay.

(** ** Across midnight, the detector first *)

Section Overnight.
Import Csv Fs Tracker.

Lemma filter_filter_impl {A} (P Q : A → Prop)
    `{!∀ x, Decision (P x)} `{!∀ x, Decision (Q x)} (l : list A) :
  (∀ x, P x → Q x) → filter P (filter Q l) = filter P l.
Proof.
  intros HPQ. induction l as [|x l IH]; [done|].
  destruct (decide (Q x)) as [HQ|HQ].
  - rewrite (filter_cons_True Q) by done.
    destruct (decide (P x)).
    + rewrite !(filter_cons_True P) by done. by f_equal.
    + by rewrite !(filter_cons_False P).
  - rewrite (filter_cons_False Q) by done.
    rewrite (filter_cons_False P); [done|]. intros HP. by apply HQ, HPQ.
Qed.

Lemma filter_through {A} (P Q : A → Prop)
    `{!∀ x, Decision (P x)} `{!∀ x, Decision (Q x)} (l1 l2 : list A) :
  (∀ x, P x → Q x) → filter Q l1 = filter Q l2 → filter P l1 = filter P l2.
Proof.
  intros HPQ Heq.
  rewrite <-(filter_filter_impl P Q l1), <-(filter_filter_impl P Q l2) by done.
  by rewrite Heq.
Qed.

(** Property X19.  A session across midnight in which the rollover
    detector's wake-up on the new day has run to completion, its flush and
    its reset both, before the first input of the new day is handled; on
    a disk that does not fail, and in a run whose steps follow one another
    without overlap (no two flushes overlap, and no input lands between
    the detector's flush and its reset).  The program starts on the day
    [D1], the detector's thread too; steps of [D1] follow; the detector
    wakes on the day [D2] and flushes and resets; steps of [D2] follow;
    then Exit.  With an activity table that is missing or conforms to its
    schema and holds at most one line of each of the two days, the run
    returns and the table holds exactly one line of [D1], with the first
    and last input time of [D1], and exactly one line of [D2], with the
    first and last input time of [D2]; the lines of the other dates are as
    they were.  (An input of [D2] handled before the detector's reset has
    ended is outside this statement: the reset discards it.) *)
Theorem overnight_session t0 started evs1 tc evs2 ds fs :
  let D1 := strftime_date t0 in
  let D2 := strftime_date tc in
  let ts1 := activity_times evs1 in
  let ts2 := activity_times evs2 in
  strftime_date started = D1 →
  D1 ≠ D2 →
  Forall (on_date D1) evs1 →
  Forall (on_date D2) evs2 →
  table_ok CSV_COLUMNS (fs !! LOG_FILE) →
  (length (filter (λ x, line_date x = Some D1)
             (table_lines (fs !! LOG_FILE))) ≤ 1)%nat →
  (length (filter (λ x, line_date x = Some D2)
             (table_lines (fs !! LOG_FILE))) ≤ 1)%nat →
  ∃ σ' lines',
    (p ← main t0 started;
     run (evs1 ++ DateCheck tc :: evs2 ++ [ExitApp]) p)
      (mkSys ds fs None)
    = (σ', Ok (mkProc (mkState D2 (head ts2) (last ts2)) D2)) ∧
    files σ' !! LOG_FILE = Some (CSV_COLUMNS :: lines') ∧
    filter (λ x, line_date x = Some D1) lines'
    = [[D1; _fmt (head ts1); _fmt (last ts1)]] ∧
    filter (λ x, line_date x = Some D2) lines'
    = [[D2; _fmt (head ts2); _fmt (last ts2)]] ∧
    filter (λ x, line_date x ≠ Some D1 ∧ line_date x ≠ Some D2) lines'
    = filter (λ x, line_date x ≠ Some D1 ∧ line_date x ≠ Some D2)
        (table_lines (fs !! LOG_FILE)).
Proof.
  intros D1 D2 ts1 ts2 Hstarted Hne Hevs1 Hevs2 Hok Hone1 Hone2.
  pose proof (strftime_date_nonempty t0) as HD1. fold D1 in HD1.
  pose proof (strftime_date_nonempty tc) as HD2. fold D2 in HD2.
  rewrite io_bind_unfold. unfold main.
  rewrite io_bind_unfold. unfold _ensure_log_file.
  rewrite (ensure_run LOG_FILE CSV_COLUMNS). cbn [mret io_ret].
  rewrite Hstarted. fold D1.
  set (fs0 := match fs !! LOG_FILE with Some _ => fs | None => _ end).
  assert (table_ok CSV_COLUMNS (fs0 !! LOG_FILE) ∧
          table_lines (fs0 !! LOG_FILE) = table_lines (fs !! LOG_FILE))
    as [Hok0 Hlines0].
  { subst fs0. destruct (fs !! LOG_FILE) as [g|] eqn:Hg.
    - by rewrite Hg.
    - rewrite lookup_insert_eq. split; [|done]. by exists []. }
  (* the first day *)
  rewrite run_app, io_bind_unfold.
  destruct (run_within_day D1 evs1 [] ({[parent LOG_FILE]} ∪ ds) fs0)
    as (ds1 & fs1 & Hrun1 & Hok1 & Hone1' & Hothers1);
    [done|done|done|by rewrite Hlines0|].
  cbn [head last] in Hrun1. rewrite Hrun1. cbn [app]. fold ts1.
  rewrite Hlines0 in Hothers1.
  (* the detector *)
  cbn [run step state last_known_date].
  rewrite io_bind_unfold, io_bind_unfold. unfold _date_rollover_check.
  fold D2. rewrite decide_True by (by intros ?).
  rewrite io_bind_unfold, flush_today_run by done.
  cbn [mret io_ret _current_date _first_activity _last_activity].
  set (lines2 := flush_lines D1 _ _ _).
  set (fs2 := <[LOG_FILE := CSV_COLUMNS :: lines2]> _).
  assert (fs2 !! LOG_FILE = Some (CSV_COLUMNS :: lines2)) as Hfile2
    by (subst fs2; apply lookup_insert_eq).
  assert (filter (λ x, line_date x ≠ Some D1) lines2
          = filter (λ x, line_date x ≠ Some D1)
              (table_lines (fs !! LOG_FILE))) as Hothers2
    by (subst lines2; by rewrite flush_lines_others).
  assert (filter (λ x, line_date x = Some D1) lines2
          = [[D1; _fmt (head ts1); _fmt (last ts1)]]) as Hday1.
  { subst lines2. rewrite flush_lines_date.
    destruct (filter _ (table_lines (fs1 !! LOG_FILE))) as [|l [|l' ls]];
      [done..|]. simpl in Hone1'. lia. }
  (* the second day *)
  rewrite run_app, io_bind_unfold.
  destruct (run_within_day D2 evs2 [] ({[LOG_DIR]} ∪ ds1) fs2)
    as (ds3 & fs3 & Hrun2 & Hok3 & Hone3 & Hothers3);
    [done|done| | |].
  { rewrite Hfile2. eexists. split; [done|]. subst lines2.
    apply flush_lines_length3.
    by apply (conforming_lines_length CSV_COLUMNS). }
  { rewrite Hfile2. cbn [table_lines].
    rewrite (filter_through _ (λ x, line_date x ≠ Some D1) lines2
               (table_lines (fs !! LOG_FILE))); [done| |done].
    intros x ->. congruence. }
  rewrite Hfile2 in Hothers3. cbn [table_lines] in Hothers3.
  cbn [head last] in Hrun2. rewrite Hrun2. cbn [app]. fold ts2.
  (* the exit *)
  cbn [run step state]. rewrite io_bind_unfold, io_bind_unfold.
  rewrite flush_today_run by done. cbn [mret io_ret _current_date].
  eexists _, _. split; [done|]. cbn [files].
  split; [by rewrite lookup_insert_eq|].
  cbn [_first_activity _last_activity].
  set (lines3 := table_lines (fs3 !! LOG_FILE)) in *.
  split; [|split].
  - rewrite (filter_through _ (λ x, line_date x ≠ Some D2)
               (flush_lines D2 (_fmt (head ts2)) (_fmt (last ts2)) lines3)
               lines3).
    + rewrite (filter_through _ (λ x, line_date x ≠ Some D2) lines3 lines2);
        [done| |done].
      intros x ->. congruence.
    + intros x ->. congruence.
    + apply flush_lines_others.
  - rewrite flush_lines_date.
    destruct (filter _ lines3) as [|l [|l' ls]]; [done..|].
    simpl in Hone3. lia.
  - rewrite (filter_through _ (λ x, line_date x ≠ Some D2)
               (flush_lines D2 (_fmt (head ts2)) (_fmt (last ts2)) lines3)
               lines3).
    + rewrite (filter_through _ (λ x, line_date x ≠ Some D2) lines3 lines2);
        [| |done].
      * apply (filter_through _ (λ x, line_date x ≠ Some D1));
          [|done]. by intros x [??].
      * by intros x [??].
    + by intros x [??].
    + apply flush_lines_others.
Qed.

Lemma overnight_session_witness :
  let t0 := mkDatetime 2024 6 3 22 0 0 0 in
  let started := mkDatetime 2024 6 3 22 0 1 0 in
  let t1 := mkDatetime 2024 6 3 23 59 0 0 in
  let tc := mkDatetime 2024 6 4 0 0 20 0 in
  let t2 := mkDatetime 2024 6 4 0 0 30 0 in
  let t3 := mkDatetime 2024 6 4 6 0 0 0 in
  let fs : gmap Path (list (list string)) := ∅ in
  ∃ σ' lines',
    (p ← main t0 started;
     run ([Activity t1] ++ DateCheck tc :: [Activity t2; Activity t3]
            ++ [ExitApp]) p) (mkSys ∅ fs None)
    = (σ', Ok (mkProc (mkState "2024-06-04" (Some t2) (Some t3))
                 "2024-06-04")) ∧
    files σ' !! LOG_FILE = Some (CSV_COLUMNS :: lines') ∧
    filter (λ x, line_date x = Some "2024-06-03") lines'
    = [["2024-06-03"; "23:59:00"; "23:59:00"]] ∧
    filter (λ x, line_date x = Some "2024-06-04") lines'
    = [["2024-06-04"; "00:00:30"; "06:00:00"]].
Proof.
  intros t0 started t1 tc t2 t3 fs.
  destruct (overnight_session t0 started [Activity t1] tc
              [Activity t2; Activity t3] ∅ fs)
    as (σ' & lines' & Hrun & Hfile & Hday1 & Hday2 & _).
  - by vm_compute.
  - by vm_compute.
  - by repeat constructor.
  - by repeat constructor.
  - done.
  - vm_compute. lia.
  - vm_compute. lia.
  - exists σ', lines'. split; [exact Hrun|]. split; [exact Hfile|]. split.
    + etrans; [exact Hday1|]. by vm_compute.
    + etrans; [exact Hday2|]. by vm_compute.
Defined.

End Overnight.

(** ** The orders table over any number of runs of the script *)

Section ScriptRuns.
Import Csv Fs ShipStation.

Lemma upsert_lines_dates D field v lines :
  field ∈ value_fields →
  Forall (λ l, length l = 3) lines →
  line_date <$> upsert_lines D field v lines
  = if decide (Some D ∈ line_date <$> lines) then line_date <$> lines
    else (line_date <$> lines) ++ [Some D].
Proof.
  intros Hf Hl. induction Hl as [|x lines Hx Hl IH]; cbn [upsert_lines].
  - rewrite fmap_nil, fmap_cons, fmap_nil, set_field_date by done.
    destruct (decide _) as [H|_]; [|done]. by apply elem_of_nil in H.
  - rewrite (fmap_cons line_date x lines).
    destruct (decide (line_date x = Some D)) as [Hd|Hd].
    + rewrite fmap_cons, set_field_date by done.
      by rewrite decide_True by (rewrite <-Hd; left).
    + rewrite fmap_cons, IH.
      destruct (decide (Some D ∈ line_date <$> lines)).
      * rewrite decide_True by (by right). done.
      * rewrite decide_False; [done|].
        intros [?|?]%elem_of_cons; congruence.
Qed.

Lemma upsert_keeps_orders_inv D field v lines :
  field ∈ value_fields →
  Forall (λ l, length l = 3) lines →
  NoDup (line_date <$> lines) →
  NoDup (line_date <$> upsert_lines D field v lines) ∧
  (line_date <$> lines) `prefix_of` (line_date <$> upsert_lines D field v lines).
Proof.
  intros Hf Hl Hnd. rewrite upsert_lines_dates by done.
  destruct (decide _); [done|]. split; [|by apply prefix_app_r].
  apply NoDup_app. split; [done|]. split; [|apply NoDup_singleton].
  intros d Hd ->%list_elem_of_singleton. done.
Qed.

(** The upsert and the rebuild of a mode, the count in hand. *)
Lemma mode_writes_keep_orders_inv m today count ds fs :
  orders_inv (fs !! ORDERS_LOG) →
  ∃ ds' fs',
    ((_ ← _upsert_orders_row today (mode_field m) count;
      rebuild_combined_log) (mkSys ds fs None)).1 = mkSys ds' fs' None ∧
    orders_inv (fs' !! ORDERS_LOG) ∧
    (line_date <$> table_lines (fs !! ORDERS_LOG))
      `prefix_of` (line_date <$> table_lines (fs' !! ORDERS_LOG)) ∧
    fs' !! ACTIVITY_LOG = fs !! ACTIVITY_LOG.
Proof.
  intros [Hok Hnd].
  assert (Forall (λ l, length l = 3) (table_lines (fs !! ORDERS_LOG)))
    as Hlen by (by apply (conforming_lines_length ORDERS_COLUMNS)).
  destruct (upsert_keeps_orders_inv today (mode_field m) (pretty count)
              (table_lines (fs !! ORDERS_LOG)) (mode_field_value m) Hlen Hnd)
    as [Hnd' Hpre].
  rewrite io_bind_unfold, upsert_orders_row_run
    by (done || apply value_field_column, mode_field_value).
  rewrite rebuild_run.
  set (ord_ := upsert_lines today (mode_field m) (pretty count) _) in *.
  set (fs1 := <[ORDERS_LOG := ORDERS_COLUMNS :: ord_]> _).
  assert (fs1 !! ORDERS_LOG = Some (ORDERS_COLUMNS :: ord_)) as Ho1
    by (subst fs1; apply lookup_insert_eq).
  assert (fs1 !! ACTIVITY_LOG = fs !! ACTIVITY_LOG) as Ha1
    by (by subst fs1; rewrite lookup_insert_ne, lookup_delete_ne).
  assert (orders_inv (fs1 !! ORDERS_LOG)) as Hinv1.
  { rewrite Ho1. split; [|done]. eexists. split; [done|].
    by apply upsert_lines_conforms. }
  destruct (combined_view _ _) as [g|e]; [destruct (decide _)|]; cbn [fst].
  - eexists _, _. split; [done|].
    rewrite (lookup_insert_ne _ COMBINED_LOG ORDERS_LOG) by done.
    rewrite (lookup_delete_ne _ _ ORDERS_LOG) by done.
    rewrite (lookup_insert_ne _ COMBINED_LOG ACTIVITY_LOG) by done.
    rewrite (lookup_delete_ne _ _ ACTIVITY_LOG) by done.
    split; [done|]. by rewrite Ho1.
  - eexists _, _. split; [done|]. split; [done|]. by rewrite Ho1.
  - eexists _, _. split; [done|]. split; [done|]. by rewrite Ho1.
Qed.

Lemma after_script_keeps_orders_inv i ds fs :
  orders_inv (fs !! ORDERS_LOG) →
  ∃ ds' fs',
    after_script (mkSys ds fs None) i = mkSys ds' fs' None ∧
    orders_inv (fs' !! ORDERS_LOG) ∧
    (line_date <$> table_lines (fs !! ORDERS_LOG))
      `prefix_of` (line_date <$> table_lines (fs' !! ORDERS_LOG)) ∧
    fs' !! ACTIVITY_LOG = fs !! ACTIVITY_LOG.
Proof.
  intros Hinv. unfold after_script, main.
  destruct (decide _); [by exists ds, fs|].
  destruct (decide _); [by exists ds, fs|].
  destruct (inv_mode i).
  - unfold run_morning. rewrite io_bind_unfold. unfold lift at 1.
    destruct (get_awaiting_shipment_count _ _) as [count|e];
      [|by exists ds, fs].
    by apply (mode_writes_keep_orders_inv morning).
  - unfold run_afternoon. rewrite io_bind_unfold. unfold lift at 1.
    destruct (get_shipped_today_count _ _ _) as [count|e];
      [|by exists ds, fs].
    by apply (mode_writes_keep_orders_inv afternoon).
Qed.

(** Property X20.  Start the orders script any number of times, on a
    disk that does not fail, from an orders table that is missing or
    conforms to its schema with at most one line per date: in whatever
    mode, on whatever day, with or without an API key, whatever the
    network answers and whatever the activity table holds.  Whether a
    start returns, exits or raises, the orders table stays conforming with
    at most one line per date, the dates it held are still there in their
    order (days are only added at the end), and the activity table is
    never changed. *)
Theorem script_runs_keep_orders_table invs : ∀ ds fs,
  orders_inv (fs !! ORDERS_LOG) →
  ∃ ds' fs',
    foldl after_script (mkSys ds fs None) invs = mkSys ds' fs' None ∧
    orders_inv (fs' !! ORDERS_LOG) ∧
    (line_date <$> table_lines (fs !! ORDERS_LOG))
      `prefix_of` (line_date <$> table_lines (fs' !! ORDERS_LOG)) ∧
    fs' !! ACTIVITY_LOG = fs !! ACTIVITY_LOG.
Proof.
  induction invs as [|i invs IH]; intros ds fs Hinv.
  - by exists ds, fs.
  - destruct (after_script_keeps_orders_inv i ds fs Hinv)
      as (ds1 & fs1 & Hstep & Hinv1 & Hpre1 & Hact1).
    destruct (IH ds1 fs1 Hinv1) as (ds2 & fs2 & Hrun & Hinv2 & Hpre2 & Hact2).
    exists ds2, fs2. cbn [foldl]. rewrite Hstep.
    split; [done|]. split; [done|]. split; [by etrans|congruence].
Qed.

Lemma script_runs_keep_orders_table_witness :
  let answers (n : Z) := λ (_ : string) (_ _ : gmap string string),
    Ok (mkResponse 200 (Some (TotalInt n))) in
  let down := λ (_ : string) (_ _ : gmap string string),
    (Raise ConnectionError : result Response) in
  let invs :=
    [mkInvocation (answers 7%Z) morning 0 "key" "2024-06-03";
     mkInvocation down afternoon 0 "key" "2024-06-03";
     mkInvocation (answers 12%Z) afternoon 0 "key" "2024-06-03";
     mkInvocation (answers 5%Z) morning 1 "key" "2024-06-04";
     mkInvocation (answers 9%Z) morning 4 "key" "2024-06-07"] in
  ∃ ds' fs',
    foldl after_script (mkSys ∅ ∅ None) invs = mkSys ds' fs' None ∧
    orders_inv (fs' !! ORDERS_LOG) ∧
    (line_date <$> table_lines ((∅ : gmap Path (list (list string)))
                                  !! ORDERS_LOG))
      `prefix_of` (line_date <$> table_lines (fs' !! ORDERS_LOG)) ∧
    fs' !! ACTIVITY_LOG = (∅ : gmap Path (list (list string))) !! ACTIVITY_LOG.
Proof.
  intros answers down invs.
  apply (script_runs_keep_orders_table invs ∅ ∅).
  split; [done|]. rewrite lookup_empty. apply NoDup_nil_2.
Defined.

Example script_runs_example :
  let answers (n : Z) := λ (_ : string) (_ _ : gmap string string),
    Ok (mkResponse 200 (Some (TotalInt n))) in
  let down := λ (_ : string) (_ _ : gmap string string),
    (Raise ConnectionError : result Response) in
  let invs :=
    [mkInvocation (answers 7%Z) morning 0 "key" "2024-06-03";
     mkInvocation down afternoon 0 "key" "2024-06-03";
     mkInvocation (answers 12%Z) afternoon 0 "key" "2024-06-03";
     mkInvocation (answers 5%Z) morning 1 "key" "2024-06-04";
     mkInvocation (answers 9%Z) morning 4 "key" "2024-06-07"] in
  files (foldl after_script (mkSys ∅ ∅ None) invs) !! ORDERS_LOG
  = Some [ORDERS_COLUMNS; ["2024-06-03"; "7"; "12"]; ["2024-06-04"; "5"; ""]].
Proof. by vm_compute. Qed.

End ScriptRuns.

(** ** Short and blank lines *)

Section ShortLines.
Import Csv Fs Tracker.

Lemma short_line_row k1 k2 k3 (l : list string) :
  l ≠ [] → (length l ≤ 3)%nat →
  ∃ a b c,
    dict_of_line [k1; k2; k3] l = row3 k1 k2 k3 (Some a) b c ∧
    l ++ replicate (3 - length l) "" = [a; cell_str b; cell_str c].
Proof.
  intros Hne Hlen. destruct l as [|a [|b [|c [|]]]]; [done| | | |].
  - by exists a, None, None.
  - by exists a, (Some b), None.
  - by exists a, (Some b), (Some c).
  - simpl in Hlen. lia.
Qed.

Lemma update_today_short date first last (lines : list (list string)) :
  Forall (λ l, l ≠ [] ∧ (length l ≤ 3)%nat) lines →
  ∃ rows updated,
    update_today date first last (dict_of_line CSV_COLUMNS <$> lines)
    = Ok (rows, updated) ∧
    Forall2 (λ row line, dict_to_list CSV_COLUMNS row = Ok line)
      (if (updated : bool) then rows
       else rows ++ [dict [("Date", Some date);
                           ("First Activity", Some (_fmt first));
                           ("Last Activity", Some (_fmt last))]])
      (flush_lines date (_fmt first) (_fmt last)
         ((λ l, l ++ replicate (3 - length l) "") <$> lines)).
Proof.
  intros Hl. induction Hl as [|l lines [Hne Hlen] Hl IH].
  - exists [], false. split; [done|]. simpl. constructor; [|done].
    unfold CSV_COLUMNS. rewrite dict3. by apply dict_to_list_row3.
  - destruct (short_line_row "Date" "First Activity" "Last Activity" l Hne Hlen)
      as (a & b & c & Hrow & Hpad).
    destruct IH as (rows & updated & Hup & Hrows).
    rewrite !fmap_cons. unfold CSV_COLUMNS in *. rewrite Hrow, Hpad.
    cbn [update_today flush_lines line_date head].
    rewrite getitem_row3_1 by done. cbn [mbind result_mbind result_bind].
    assert (Forall2
              (λ row line,
                 dict_to_list ["Date"; "First Activity"; "Last Activity"] row
                 = Ok line)
              (dict_of_line ["Date"; "First Activity"; "Last Activity"]
                 <$> lines)
              ((λ l, l ++ replicate (3 - length l) "") <$> lines)) as Hrest.
    { clear -Hl. induction Hl as [|l' lines' [Hne' Hlen'] _ IH];
        [constructor|].
      rewrite !fmap_cons. constructor; [|done].
      destruct (short_line_row "Date" "First Activity" "Last Activity"
                  l' Hne' Hlen') as (a' & b' & c' & -> & ->).
      by apply dict_to_list_row3. }
    destruct (decide (a = date)) as [->|Hne'].
    + rewrite !decide_True by done.
      eexists _, true. split; [done|]. constructor; [|done].
      rewrite setitem_row3_2, setitem_row3_3 by done.
      by rewrite dict_to_list_row3.
    + rewrite !decide_False by congruence.
      rewrite Hup. cbn [mbind result_mbind result_bind].
      eexists _, updated. split; [done|].
      assert (dict_to_list ["Date"; "First Activity"; "Last Activity"]
                (row3 "Date" "First Activity" "Last Activity" (Some a) b c)
              = Ok [a; cell_str b; cell_str c]) as Hline
        by (by rewrite dict_to_list_row3).
      destruct updated; simpl; by constructor.
Qed.

(** Property X21.  A flush repairs short and blank lines.  On a disk that
    does not fail, with an activity table whose header is the schema's
    and whose lines each have at most three cells, a flush of a day
    returns; it has dropped the blank lines, filled up the short ones with
    empty cells, and then written the day as on a conforming table.  The
    table conforms to its schema afterwards. *)
Theorem flush_repairs_short_lines st lines ds fs :
  _current_date st ≠ "" →
  fs !! LOG_FILE = Some (CSV_COLUMNS :: lines) →
  Forall (λ l, (length l ≤ 3)%nat) lines →
  ∃ σ' lines',
    _flush_today st (mkSys ds fs None) = (σ', Ok tt) ∧
    files σ' !! LOG_FILE = Some (CSV_COLUMNS :: lines') ∧
    lines' = flush_lines (_current_date st) (_fmt (_first_activity st))
               (_fmt (_last_activity st)) (refilled CSV_COLUMNS lines) ∧
    conforms CSV_COLUMNS (CSV_COLUMNS :: lines').
Proof.
  intros Hd Hfile Hlen. unfold _flush_today. rewrite decide_False by done.
  rewrite io_bind_unfold. unfold _ensure_log_file.
  rewrite (ensure_run LOG_FILE CSV_COLUMNS), Hfile.
  rewrite io_bind_unfold. unfold exists_ at 1. cbn [files].
  rewrite bool_decide_true by (rewrite Hfile; eauto).
  rewrite io_bind_unfold, io_bind_unfold. unfold read_grid at 1. cbn [files].
  rewrite Hfile. cbn [mret io_ret DictReader].
  assert (Forall (λ l, l ≠ [] ∧ (length l ≤ 3)%nat)
            (filter (λ l, l ≠ []) lines)) as Hshort.
  { apply Forall_forall. intros l [Hne Hin]%list_elem_of_filter.
    split; [done|]. rewrite Forall_forall in Hlen. by apply Hlen. }
  destruct (update_today_short (_current_date st) (_first_activity st)
              (_last_activity st) _ Hshort) as (rows & updated & Hup & Hrows).
  rewrite io_bind_unfold. unfold lift at 1. rewrite Hup.
  eexists _, _. split.
  { exact (flush_write_run _ _ ({[LOG_DIR]} ∪ ds) fs ltac:(set_solver) Hrows). }
  cbn [files]. split; [by rewrite lookup_insert_eq|]. split; [done|].
  eexists. split; [done|]. apply flush_lines_length3.
  apply Forall_fmap, Forall_forall. intros l Hl.
  rewrite Forall_forall in Hshort. destruct (Hshort l Hl) as [_ Hl3].
  cbn [compose]. rewrite length_app, length_replicate. lia.
Qed.

Lemma flush_repairs_short_lines_witness :
  let st := mkState "2024-06-04" (Some (mkDatetime 2024 6 4 8 0 5 0))
              (Some (mkDatetime 2024 6 4 8 0 5 0)) in
  let lines := [["2024-06-02"; "08:00:00"]; []; ["2024-06-03"]] in
  let fs : gmap Path (list (list string)) :=
    {[LOG_FILE := CSV_COLUMNS :: lines]} in
  ∃ σ' lines',
    _flush_today st (mkSys ∅ fs None) = (σ', Ok tt) ∧
    files σ' !! LOG_FILE = Some (CSV_COLUMNS :: lines') ∧
    lines' = [["2024-06-02"; "08:00:00"; ""]; ["2024-06-03"; ""; ""];
              ["2024-06-04"; "08:00:05"; "08:00:05"]] ∧
    conforms CSV_COLUMNS (CSV_COLUMNS :: lines').
Proof.
  intros st lines fs.
  destruct (flush_repairs_short_lines st lines ∅ fs)
    as (σ' & lines' & Hrun & Hfile & Hlines & Hconf).
  - done.
  - by vm_compute.
  - repeat constructor; simpl; lia.
  - exists σ', lines'. split; [exact Hrun|]. split; [exact Hfile|].
    split; [|exact Hconf]. etrans; [exact Hlines|]. by vm_compute.
Defined.

End ShortLines.

(** ** Writing through the temporary file, and the one write that does not *)

Section AtomicClaim.
Import Csv Fs.

(** Not every write of a table file goes through the temporary file:
    the creation of a missing table file writes its header under the
    final path itself.  Here the disk fails at that write: no file was
    there before, the flush raises, no temporary file was involved, and an
    empty file, without its header, is left under the final path, where a
    reader finds it.  So it is not true of every flush that raises that
    the final path holds what it held before or a complete table. *)
Lemma header_creation_not_atomic :
  let st := Tracker.mkState "2024-06-03" None None in
  let σ := mkSys ∅ ∅ (Some 2) in
  let out := Tracker._flush_today st σ in
  out.2 = Raise OSError ∧
  files σ !! Tracker.LOG_FILE = None ∧
  files out.1 !! Tracker.LOG_FILE = Some [] ∧
  files out.1 !! with_suffix Tracker.LOG_FILE ".tmp" = None ∧
  ShipStation._read_csv Tracker.LOG_FILE Tracker.CSV_COLUMNS out.1
  = (out.1, Ok []) ∧
  ¬ (∀ st σ σ' e,
       Tracker._flush_today st σ = (σ', Raise e) →
       files σ' !! Tracker.LOG_FILE = files σ !! Tracker.LOG_FILE ∨
       ∃ lines, files σ' !! Tracker.LOG_FILE
                = Some (Tracker.CSV_COLUMNS :: lines)).
Proof.
  intros st σ out.
  assert (out = (mkSys {[Tracker.LOG_DIR]} {[Tracker.LOG_FILE := []]} (Some 0),
                 Raise OSError)) as Hout by (by vm_compute).
  split; [by rewrite Hout|]. split; [done|].
  split; [by rewrite Hout|]. split; [by rewrite Hout|].
  split; [by rewrite Hout|].
  intros Hall. destruct (Hall st σ _ _ Hout) as [H|[lines H]]; by vm_compute in H.
Qed.

(** Claim C7, as amended.  Every rewrite of a table ([_write_csv], and
    with it the write at the end of [_flush_today], of
    [_upsert_orders_row] and of the rebuild) writes the table to a
    temporary file in the directory of the final path and then renames it
    onto the final path.  For writes that do not overlap in time with
    another write of the same table: whatever the disk does, and at whichever
    operation it fails (creating the temporary file, writing any of its
    lines, the rename): a write that raises leaves the file under the
    final path exactly as it was, and touches no file but the temporary
    one; a write that returns has put the complete table, header and all
    rows, under the final path and the temporary file is gone.  For the
    three callers: a flush, an upsert or a rebuild that raises leaves a
    table file that was there before with the content it had.  The one
    write that does not go through a temporary file is the creation of a
    missing table file with its header ([_ensure_log_file],
    [_ensure_orders_log]), which writes under the final path itself: it
    touches no other file and leaves a file that exists as it is, and
    where none existed it leaves the header when it returns and nothing or
    an empty file when it raises. *)
Theorem table_write_atomic :
  (∀ path columns rows σ σ' r,
     suffix path ≠ ".tmp" →
     ShipStation._write_csv path columns rows σ = (σ', r) →
     parent (with_suffix path ".tmp") = parent path ∧
     (∀ q, q ≠ with_suffix path ".tmp" → q ≠ path →
           files σ' !! q = files σ !! q) ∧
     match r with
     | Raise _ => files σ' !! path = files σ !! path
     | Ok _ =>
         ∃ lines,
           Forall2 (λ row line, dict_to_list columns row = Ok line) rows lines ∧
           files σ' !! path = Some (columns :: lines) ∧
           files σ' !! with_suffix path ".tmp" = None
     end) ∧
  (∀ st σ σ' r g,
     files σ !! Tracker.LOG_FILE = Some g →
     Tracker._flush_today st σ = (σ', r) →
     match r with
     | Raise _ => files σ' !! Tracker.LOG_FILE = Some g
     | Ok _ =>
         Tracker._current_date st ≠ "" →
         ∃ lines,
           files σ' !! Tracker.LOG_FILE = Some (Tracker.CSV_COLUMNS :: lines)
     end) ∧
  (∀ today field value σ σ' r g,
     files σ !! ShipStation.ORDERS_LOG = Some g →
     ShipStation._upsert_orders_row today field value σ = (σ', r) →
     match r with
     | Raise _ => files σ' !! ShipStation.ORDERS_LOG = Some g
     | Ok _ =>
         ∃ lines, files σ' !! ShipStation.ORDERS_LOG
                  = Some (ShipStation.ORDERS_COLUMNS :: lines)
     end) ∧
  (∀ σ σ' e,
     ShipStation.rebuild_combined_log σ = (σ', Raise e) →
     files σ' !! ShipStation.COMBINED_LOG
     = files σ !! ShipStation.COMBINED_LOG) ∧
  (∀ σ σ' r,
     Tracker._ensure_log_file σ = (σ', r) →
     (∀ q, q ≠ Tracker.LOG_FILE → files σ' !! q = files σ !! q) ∧
     match files σ !! Tracker.LOG_FILE with
     | Some g => files σ' !! Tracker.LOG_FILE = Some g
     | None =>
         match r with
         | Ok _ => files σ' !! Tracker.LOG_FILE = Some [Tracker.CSV_COLUMNS]
         | Raise _ =>
             files σ' !! Tracker.LOG_FILE = None ∨
             files σ' !! Tracker.LOG_FILE = Some []
         end
     end) ∧
  (∀ σ σ' r,
     ShipStation._ensure_orders_log σ = (σ', r) →
     (∀ q, q ≠ ShipStation.ORDERS_LOG → files σ' !! q = files σ !! q) ∧
     match files σ !! ShipStation.ORDERS_LOG with
     | Some g => files σ' !! ShipStation.ORDERS_LOG = Some g
     | None =>
         match r with
         | Ok _ =>
             files σ' !! ShipStation.ORDERS_LOG
             = Some [ShipStation.ORDERS_COLUMNS]
         | Raise _ =>
             files σ' !! ShipStation.ORDERS_LOG = None ∨
             files σ' !! ShipStation.ORDERS_LOG = Some []
         end
     end).
Proof.
  split; [|split; [|split; [|split; [|split]]]].
  - intros path columns rows σ σ' r Hs H. split; [done|].
    pose proof (tmp_is_not_final path Hs) as Hne.
    destruct r as [[]|e].
    + apply write_csv_ok in H as (lines & Hrows & Hfile & Hothers & Htmp).
      split; [done|]. exists lines. auto.
    + apply write_csv_raise in H as [_ H]. split; [|by apply H].
      intros q Hq _. by apply H.
  - intros st σ σ' r g. apply flush_today_atomic.
  - intros today field value σ σ' r g. apply upsert_atomic.
  - intros σ σ' e. apply rebuild_atomic.
  - intros σ σ' r H. split.
    + by apply (ensure_frame Tracker.LOG_FILE Tracker.CSV_COLUMNS) in H as [_ ?].
    + destruct (files σ !! Tracker.LOG_FILE) as [g|] eqn:Hg.
      * by rewrite (ensure_keeps Tracker.LOG_FILE _ _ _ _ _ H Hg).
      * by apply (ensure_outcomes Tracker.LOG_FILE Tracker.CSV_COLUMNS) in H.
  - intros σ σ' r H. split.
    + by apply (ensure_frame ShipStation.ORDERS_LOG ShipStation.ORDERS_COLUMNS)
        in H as [_ ?].
    + destruct (files σ !! ShipStation.ORDERS_LOG) as [g|] eqn:Hg.
      * by rewrite (ensure_keeps ShipStation.ORDERS_LOG _ _ _ _ _ H Hg).
      * by apply (ensure_outcomes ShipStation.ORDERS_LOG
                    ShipStation.ORDERS_COLUMNS) in H.
Qed.


Lemma table_write_atomic_witness :
  let committed := [ShipStation.ORDERS_COLUMNS; ["2024-06-03"; "7"; ""]] in
  let rows := [dict [("Date", Some "2024-06-03");
                     ("Outstanding Orders", Some "7");
                     ("Shipped Today", Some "12")];
               dict [("Date", Some "2024-06-04");
                     ("Outstanding Orders", Some "3");
                     ("Shipped Today", Some "")]] in
  let σ budget := mkSys {[ShipStation.LOG_DIR]}
                    {[ShipStation.ORDERS_LOG := committed]} budget in
  let write budget :=
    ShipStation._write_csv ShipStation.ORDERS_LOG ShipStation.ORDERS_COLUMNS
      rows (σ budget) in
  (* the disk fails at the second line of the temporary file *)
  (write (Some 2)).2 = Raise OSError ∧
  files (write (Some 2)).1 !! with_suffix ShipStation.ORDERS_LOG ".tmp"
    = Some [ShipStation.ORDERS_COLUMNS] ∧
  files (write (Some 2)).1 !! ShipStation.ORDERS_LOG = Some committed ∧
  (* the disk fails at the rename *)
  (write (Some 4)).2 = Raise OSError ∧
  files (write (Some 4)).1 !! ShipStation.ORDERS_LOG = Some committed.
Proof.
  intros committed rows σ write.
  assert (suffix ShipStation.ORDERS_LOG ≠ ".tmp") as Hs by done.
  pose proof (proj1 table_write_atomic ShipStation.ORDERS_LOG
                ShipStation.ORDERS_COLUMNS rows (σ (Some 2))
                (write (Some 2)).1 (write (Some 2)).2 Hs
                (surjective_pairing _)) as (_ & _ & H2).
  pose proof (proj1 table_write_atomic ShipStation.ORDERS_LOG
                ShipStation.ORDERS_COLUMNS rows (σ (Some 4))
                (write (Some 4)).1 (write (Some 4)).2 Hs
                (surjective_pairing _)) as (_ & _ & H4).
  assert ((write (Some 2)).2 = Raise OSError) as Hr2 by (by vm_compute).
  assert ((write (Some 4)).2 = Raise OSError) as Hr4 by (by vm_compute).
  rewrite Hr2 in H2. rewrite Hr4 in H4.
  split; [done|]. split; [by vm_compute|]. split; [by rewrite H2|].
  split; [done|]. by rewrite H4.
Defined.

End AtomicClaim.
